(** * ynabctl: a shallow embedding of the REST client, the command layer
      and the renderer, with the properties of the specification.

    Layout of the development:
    - [Json]    the part of Go's encoding/json the client relies on
                (syntax check, decoding into typed values);
    - [GoTime]  the part of Go's time.Format the commands rely on;
    - [Client]  internal/client: types, doRequest, the typed operations
                and the currency conversion;
    - [Output]  internal/output: the renderer;
    - [Cmd]     cmd: flag state, set-up step and the sub-commands;
    - the theorems. *)

From Stdlib Require Import List String Ascii ZArith NArith Bool Lia Floats.
Import ListNotations.

#[local] Set Warnings "-register-all,-inexact-float".

Local Open Scope string_scope.
Local Open Scope Z_scope.

(** ** Option monad notation, used by the parsers and decoders. *)

Definition obind {A B : Type} (o : option A) (k : A -> option B) : option B :=
  match o with
  | Some a => k a
  | None => None
  end.

Notation "x <-? c ;; k" := (obind c (fun x => k))
  (at level 61, c at next level, right associativity).
Notation "' pat <-? c ;; k" := (obind c (fun x => match x with pat => k end))
  (at level 61, pat pattern, c at next level, right associativity).

Fixpoint omapM {A B : Type} (f : A -> option B) (l : list A) : option (list B) :=
  match l with
  | [] => Some []
  | a :: l' => b <-? f a ;; bs <-? omapM f l' ;; Some (b :: bs)
  end.

(* ================================================================== *)
(** ** encoding/json, as far as the client uses it *)
(* ================================================================== *)

Module Json.

(** A JSON document.  Numbers keep their literal: whether a number fits
    an int64 is decided when it is decoded, as the library does. *)
Inductive json : Type :=
| JNull
| JBool (b : bool)
| JNum (lit : string)
| JStr (s : string)
| JArr (elems : list json)
| JObj (members : list (string * json)).

(** *** Scanner *)

Definition code (c : ascii) : N := N_of_ascii c.

Definition isSpace (c : ascii) : bool :=
  (code c =? 32)%N || (code c =? 9)%N || (code c =? 10)%N || (code c =? 13)%N.

Definition isDigit (c : ascii) : bool :=
  (48 <=? code c)%N && (code c <=? 57)%N.

Fixpoint skipSpace (s : string) : string :=
  match s with
  | String c r => if isSpace c then skipSpace r else s
  | EmptyString => EmptyString
  end.

(** Longest prefix of digits, and what follows it. *)
Fixpoint spanDigits (s : string) : string * string :=
  match s with
  | String c r =>
      if isDigit c then let (ds, r') := spanDigits r in (String c ds, r')
      else (EmptyString, s)
  | EmptyString => (EmptyString, EmptyString)
  end.

Definition nonEmptyDigits (s : string) : option (string * string) :=
  match spanDigits s with
  | (EmptyString, _) => None
  | p => Some p
  end.

(** number = [ "-" ] int [ "." digits ] [ ("e"|"E") [ "+"|"-" ] digits ],
    where int is "0" or a digit 1-9 followed by digits. *)
Definition scanNumber (s : string) : option (string * string) :=
  let (sign, s1) := match s with
                    | String "-"%char r => ("-", r)
                    | _ => ("", s)
                    end in
  '(ip, s2) <-? match s1 with
                | String "0"%char r => Some ("0", r)
                | _ => nonEmptyDigits s1
                end ;;
  '(fp, s3) <-? match s2 with
                | String "."%char r =>
                    '(ds, r') <-? nonEmptyDigits r ;; Some ("." ++ ds, r')
                | _ => Some ("", s2)
                end ;;
  '(ep, s4) <-? match s3 with
                | String e r =>
                    if ((code e =? 101) || (code e =? 69))%N then
                      let (sg, r1) := match r with
                                      | String "+"%char r1 => ("+", r1)
                                      | String "-"%char r1 => ("-", r1)
                                      | _ => ("", r)
                                      end in
                      '(ds, r') <-? nonEmptyDigits r1 ;;
                      Some (String e (sg ++ ds), r')
                    else Some ("", s3)
                | EmptyString => Some ("", s3)
                end ;;
  Some (sign ++ ip ++ fp ++ ep, s4).

Definition hexVal (c : ascii) : option N :=
  let n := code c in
  if isDigit c then Some (n - 48)%N
  else if ((97 <=? n) && (n <=? 102))%N then Some (n - 87)%N
  else if ((65 <=? n) && (n <=? 70))%N then Some (n - 55)%N
  else None.

Definition hex4 (a b c d : ascii) : option N :=
  x1 <-? hexVal a ;; x2 <-? hexVal b ;; x3 <-? hexVal c ;; x4 <-? hexVal d ;;
  Some (((x1 * 16 + x2) * 16 + x3) * 16 + x4)%N.

Definition byte (n : N) : ascii := ascii_of_N n.

(** utf8.EncodeRune. *)
Definition encodeRune (r : N) : string :=
  (if r <? 128 then String (byte r) ""
   else if r <? 2048 then
     String (byte (192 + r / 64)) (String (byte (128 + r mod 64)) "")
   else if r <? 65536 then
     String (byte (224 + r / 4096))
       (String (byte (128 + (r / 64) mod 64)) (String (byte (128 + r mod 64)) ""))
   else
     String (byte (240 + r / 262144))
       (String (byte (128 + (r / 4096) mod 64))
          (String (byte (128 + (r / 64) mod 64))
             (String (byte (128 + r mod 64)) ""))))%N.

Definition replacementChar : N := 65533.
Definition isSurrogate (r : N) : bool := ((55296 <=? r) && (r <? 57344))%N.

(** The low half of a surrogate pair written as a second \u escape. *)
Definition lowSurrogate (s : string) : option (N * string) :=
  match s with
  | String "\"%char (String "u"%char (String a (String b (String c (String d r))))) =>
      lo <-? hex4 a b c d ;;
      if ((56320 <=? lo) && (lo <? 57344))%N then Some (lo, r) else None
  | _ => None
  end.

(** Body of a string literal, the opening quote already read: the
    decoded text and what follows the closing quote.  Bytes from 0x80 on
    are kept as they are (the library replaces ill-formed UTF-8 by
    U+FFFD, which changes the text of a value, never whether it
    decodes). *)
Fixpoint scanString (fuel : nat) (s : string) : option (string * string) :=
  match fuel with
  | O => None
  | S fuel' =>
      match s with
      | EmptyString => None
      | String c r =>
          if (code c =? 34)%N then Some ("", r)
          else if (code c =? 92)%N then
            match r with
            | EmptyString => None
            | String e r1 =>
                let plain (x : N) :=
                  '(t, r') <-? scanString fuel' r1 ;; Some (String (byte x) t, r') in
                if (code e =? 34)%N then plain 34%N
                else if (code e =? 92)%N then plain 92%N
                else if (code e =? 47)%N then plain 47%N
                else if (code e =? 98)%N then plain 8%N
                else if (code e =? 102)%N then plain 12%N
                else if (code e =? 110)%N then plain 10%N
                else if (code e =? 114)%N then plain 13%N
                else if (code e =? 116)%N then plain 9%N
                else if (code e =? 117)%N then
                  match r1 with
                  | String a (String b (String c' (String d r2))) =>
                      u <-? hex4 a b c' d ;;
                      if isSurrogate u then
                        match (if (u <? 56320)%N then lowSurrogate r2 else None) with
                        | Some (lo, r3) =>
                            '(t, r') <-? scanString fuel' r3 ;;
                            Some (encodeRune (65536 + (u - 55296) * 1024 + (lo - 56320))%N ++ t, r')
                        | None =>
                            '(t, r') <-? scanString fuel' r2 ;;
                            Some (encodeRune replacementChar ++ t, r')
                        end
                      else
                        '(t, r') <-? scanString fuel' r2 ;;
                        Some (encodeRune u ++ t, r')
                  | _ => None
                  end
                else None
            end
          else if (code c <? 32)%N then None
          else '(t, r') <-? scanString fuel' r ;; Some (String c t, r')
      end
  end.

Definition expect (lit : string) (v : json) (s : string) : option (json * string) :=
  if prefix lit s then Some (v, substring (length lit) (length s - length lit) s)
  else None.

(** One value, with leading white space; then what follows it. *)
Fixpoint parseValue (fuel : nat) (s : string) : option (json * string) :=
  match fuel with
  | O => None
  | S f =>
      match skipSpace s with
      | EmptyString => None
      | String c r =>
          if (code c =? 123)%N then          (* object *)
            match skipSpace r with
            | String "}"%char r' => Some (JObj [], r')
            | r0 =>
                (fix members (g : nat) (t : string) (acc : list (string * json))
                   : option (json * string) :=
                   match g with
                   | O => None
                   | S g' =>
                       match skipSpace t with
                       | String q t1 =>
                           if (code q =? 34)%N then
                             '(k, t2) <-? scanString (S (length t1)) t1 ;;
                             match skipSpace t2 with
                             | String ":"%char t3 =>
                                 '(v, t4) <-? parseValue f t3 ;;
                                 match skipSpace t4 with
                                 | String ","%char t5 => members g' t5 (acc ++ [(k, v)])%list
                                 | String "}"%char t5 => Some (JObj (acc ++ [(k, v)])%list, t5)
                                 | _ => None
                                 end
                             | _ => None
                             end
                           else None
                       | EmptyString => None
                       end
                   end) f r0 []
            end
          else if (code c =? 91)%N then      (* array *)
            match skipSpace r with
            | String "]"%char r' => Some (JArr [], r')
            | r0 =>
                (fix elements (g : nat) (t : string) (acc : list json)
                   : option (json * string) :=
                   match g with
                   | O => None
                   | S g' =>
                       '(v, t1) <-? parseValue f t ;;
                       match skipSpace t1 with
                       | String ","%char t2 => elements g' t2 (acc ++ [v])%list
                       | String "]"%char t2 => Some (JArr (acc ++ [v])%list, t2)
                       | _ => None
                       end
                   end) f r0 []
            end
          else if (code c =? 34)%N then      (* string *)
            '(t, r') <-? scanString (S (length r)) r ;; Some (JStr t, r')
          else if (code c =? 116)%N then expect "rue" (JBool true) r
          else if (code c =? 102)%N then expect "alse" (JBool false) r
          else if (code c =? 110)%N then expect "ull" JNull r
          else
            '(lit, r') <-? scanNumber (String c r) ;; Some (JNum lit, r')
      end
  end.

(** The whole input is one value between optional white space; [None] is
    the library's SyntaxError.  (The library also refuses documents
    nested deeper than 10000 levels, which is left out.) *)
Definition parse (s : string) : option json :=
  '(v, r) <-? parseValue (S (length s)) s ;;
  match skipSpace r with
  | EmptyString => Some v
  | _ => None
  end.

(** *** Decoding into typed values

    [json.Unmarshal(body, &v)] first checks the syntax of the whole body
    and then stores the document into [v].  A [decoder T] stores a
    document into an existing value of type [T]; [None] is the library's
    UnmarshalTypeError.  (The library goes on after a type error and
    reports the first one at the end; every caller in the client drops
    the value when an error is reported, so stopping at the first one
    gives the same outcome.)  JSON null leaves strings, numbers, booleans
    and structs as they are and resets pointers, slices and maps. *)

Definition decoder (T : Type) : Type := json -> T -> option T.

Definition decString : decoder string := fun j cur =>
  match j with
  | JNull => Some cur
  | JStr s => Some s
  | _ => None
  end.

Definition decBool : decoder bool := fun j cur =>
  match j with
  | JNull => Some cur
  | JBool b => Some b
  | _ => None
  end.

Fixpoint digitsVal (s : string) (acc : Z) : option Z :=
  match s with
  | EmptyString => Some acc
  | String c r =>
      if isDigit c then digitsVal r (10 * acc + Z.of_N (code c - 48)) else None
  end.

Definition minInt64 : Z := - 2 ^ 63.
Definition maxInt64 : Z := 2 ^ 63 - 1.
Definition inInt64 (z : Z) : bool := (minInt64 <=? z) && (z <=? maxInt64).

(** strconv.ParseInt(lit, 10, 64) on a JSON number literal: a literal
    with a fraction or an exponent is refused, and so is one out of
    range. *)
Definition parseInt64 (lit : string) : option Z :=
  z <-? match lit with
        | String "-"%char r => v <-? digitsVal r 0 ;; Some (- v)
        | _ => digitsVal lit 0
        end ;;
  if inInt64 z then Some z else None.

(** int64, and int on a 64-bit platform. *)
Definition decInt64 : decoder Z := fun j cur =>
  match j with
  | JNull => Some cur
  | JNum lit => parseInt64 lit
  | _ => None
  end.

(** A pointer field: null makes it nil; anything else is stored into the
    value pointed to, which is allocated (zero) when the pointer is nil. *)
Definition decPtr {T : Type} (zero : T) (d : decoder T) : decoder (option T) :=
  fun j cur =>
    match j with
    | JNull => Some None
    | _ => v <-? d j (match cur with Some x => x | None => zero end) ;; Some (Some v)
    end.

(** A slice: the length is reset and every element of the array is
    decoded and appended, as the library documents it.  The nil slice and
    the empty slice are both the empty list.  (The implementation decodes
    into the elements a slice already holds; that is only visible when a
    key occurs twice in one object with an array each time, and is left
    out.) *)
Definition decSlice {T : Type} (zero : T) (d : decoder T) : decoder (list T) :=
  fun j cur =>
    match j with
    | JNull => Some []
    | JArr l => omapM (fun e => d e zero) l
    | _ => None
    end.

(** map[string]V as an association list with one entry per key. *)
Fixpoint mapSet {V : Type} (k : string) (v : V) (m : list (string * V))
  : list (string * V) :=
  match m with
  | [] => [(k, v)]
  | (k', v') :: m' => if String.eqb k k' then (k, v) :: m' else (k', v') :: mapSet k v m'
  end.

Definition decMap {V : Type} (zero : V) (d : decoder V) : decoder (list (string * V)) :=
  fun j cur =>
    match j with
    | JNull => Some []
    | JObj ms =>
        fold_left (fun acc kv => m <-? acc ;; v <-? d (snd kv) zero ;;
                                 Some (mapSet (fst kv) v m))
                  ms (Some cur)
    | _ => None
    end.

(** Struct fields are found by name without regard to case.  [foldName]
    is the library's folding for the purpose of comparing with the ASCII
    names of the client's tags: lower-case ASCII letters go to upper
    case, and the two letters outside ASCII whose case orbit holds an
    ASCII letter, U+017F (long s) and U+212A (Kelvin sign), go to S and
    K. *)
Fixpoint foldName (s : string) : string :=
  match s with
  | EmptyString => EmptyString
  | String c r =>
      let n := code c in
      if ((97 <=? n) && (n <=? 122))%N then String (byte (n - 32)) (foldName r)
      else if (n =? 197)%N then
        match r with
        | String c1 r' =>
            if (code c1 =? 191)%N then String "S"%char (foldName r')
            else String c (foldName r)
        | EmptyString => String c EmptyString
        end
      else if (n =? 226)%N then
        match r with
        | String c1 (String c2 r') =>
            if ((code c1 =? 132) && (code c2 =? 170))%N
            then String "K"%char (foldName r')
            else String c (foldName r)
        | _ => String c (foldName r)
        end
      else String c (foldName r)
  end.

Definition keyMatch (name key : string) : bool :=
  String.eqb (foldName key) (foldName name).

(** The members of an object are stored in the order they are written;
    a member goes to the field whose name it matches.  No struct of the
    client has two fields with the same folded name, so each field sees
    exactly the members that match its own name, in order. *)
Fixpoint field {T : Type} (name : string) (d : decoder T)
         (ms : list (string * json)) (cur : T) : option T :=
  match ms with
  | [] => Some cur
  | (k, v) :: ms' =>
      if keyMatch name k then x <-? d v cur ;; field name d ms' x
      else field name d ms' cur
  end.

Definition decStruct {T : Type} (fields : list (string * json) -> T -> option T)
  : decoder T :=
  fun j cur =>
    match j with
    | JNull => Some cur
    | JObj ms => fields ms cur
    | _ => None
    end.

(** json.Unmarshal into a zero value. *)
Definition Unmarshal {T : Type} (d : decoder T) (zero : T) (body : string) : option T :=
  j <-? parse body ;; d j zero.

(** Bodies in examples are written with ' for the double quote. *)
Fixpoint jsonText (s : string) : string :=
  match s with
  | EmptyString => EmptyString
  | String c r => String (if (code c =? 39)%N then byte 34 else c) (jsonText r)
  end.

End Json.

(* ================================================================== *)
(** ** strconv / fmt: decimal integers *)
(* ================================================================== *)

Module Strconv.

Definition digit (n : Z) : ascii := ascii_of_N (Z.to_N (48 + n mod 10)).

(** Decimal digits of a number that is not negative; twenty rounds are
    enough for every 64-bit integer. *)
Fixpoint digits (fuel : nat) (x : Z) (acc : string) : string :=
  match fuel with
  | O => acc
  | S f =>
      let acc' := String (digit x) acc in
      if x <? 10 then acc' else digits f (x / 10) acc'
  end.

(** strconv.Itoa, and the verb %d. *)
Definition Itoa (x : Z) : string :=
  (if x <? 0 then "-" else "") ++ digits 20 (Z.abs x) EmptyString.

End Strconv.

(* ================================================================== *)
(** ** time.Format, as far as the commands use it *)
(* ================================================================== *)

Module GoTime.

(** A time, read in its own location. *)
Record Time : Type := mkTime {
  Year : Z; Month : Z; Day : Z; Hour : Z; Minute : Z; Second : Z
}.

(** time.Date(year, month, day, 0, 0, 0, 0, time.UTC) for a day that
    exists in that month (no normalisation is needed then). *)
Definition Date (year month day : Z) : Time := mkTime year month day 0 0 0.

(** The chunks of a layout.  The numeric date and clock chunks are
    modelled; month and weekday names, AM/PM marks, zones, fractional
    seconds and day of year are not (such a chunk would be copied as
    text here).  The layouts of the repository are made of 2006, 01, 02
    and "-" only. *)
Inductive chunk : Type :=
| stdLongYear | stdYear | stdZeroMonth | stdNumMonth
| stdZeroDay | stdNumDay | stdUnderDay
| stdHour | stdZeroHour12 | stdHour12
| stdZeroMinute | stdMinute | stdZeroSecond | stdSecond
| text (c : ascii).

Fixpoint chunks (layout : string) : list chunk :=
  match layout with
  | EmptyString => []
  | String "2"%char (String "0"%char (String "0"%char (String "6"%char r))) =>
      stdLongYear :: chunks r
  | String "2"%char r => stdNumDay :: chunks r
  | String "_"%char (String "2"%char (String "0"%char (String "0"%char (String "6"%char r)))) =>
      text "_"%char :: stdLongYear :: chunks r
  | String "_"%char (String "2"%char r) => stdUnderDay :: chunks r
  | String "0"%char (String "1"%char r) => stdZeroMonth :: chunks r
  | String "0"%char (String "2"%char r) => stdZeroDay :: chunks r
  | String "0"%char (String "3"%char r) => stdZeroHour12 :: chunks r
  | String "0"%char (String "4"%char r) => stdZeroMinute :: chunks r
  | String "0"%char (String "5"%char r) => stdZeroSecond :: chunks r
  | String "0"%char (String "6"%char r) => stdYear :: chunks r
  | String "1"%char (String "5"%char r) => stdHour :: chunks r
  | String "1"%char r => stdNumMonth :: chunks r
  | String "3"%char r => stdHour12 :: chunks r
  | String "4"%char r => stdMinute :: chunks r
  | String "5"%char r => stdSecond :: chunks r
  | String c r => text c :: chunks r
  end.

Fixpoint zeros (n : nat) : string :=
  match n with
  | O => EmptyString
  | S n' => String "0"%char (zeros n')
  end.

(** appendInt: sign, then the digits padded with zeros to [width]. *)
Definition appendInt (x : Z) (width : nat) : string :=
  let ds := Strconv.digits 20 (Z.abs x) EmptyString in
  (if x <? 0 then "-" else "") ++ zeros (width - length ds) ++ ds.

Definition hour12 (h : Z) : Z :=
  let r := h mod 12 in if r =? 0 then 12 else r.

Definition formatChunk (t : Time) (c : chunk) : string :=
  match c with
  | stdLongYear => appendInt (Year t) 4
  | stdYear => appendInt (Z.abs (Z.rem (Year t) 100)) 2
  | stdZeroMonth => appendInt (Month t) 2
  | stdNumMonth => appendInt (Month t) 0
  | stdZeroDay => appendInt (Day t) 2
  | stdNumDay => appendInt (Day t) 0
  | stdUnderDay => (if Day t <? 10 then " " else "") ++ appendInt (Day t) 0
  | stdHour => appendInt (Hour t) 2
  | stdZeroHour12 => appendInt (hour12 (Hour t)) 2
  | stdHour12 => appendInt (hour12 (Hour t)) 0
  | stdZeroMinute => appendInt (Minute t) 2
  | stdMinute => appendInt (Minute t) 0
  | stdZeroSecond => appendInt (Second t) 2
  | stdSecond => appendInt (Second t) 0
  | text c => String c EmptyString
  end.

Definition Format (t : Time) (layout : string) : string :=
  String.concat "" (map (formatChunk t) (chunks layout)).

End GoTime.

(* ================================================================== *)
(** ** internal/client *)
(* ================================================================== *)

Module Client.
Import Json.

(** *** The types of the API

    One module per struct: the record [t], its zero value and the
    decoder that its json tags induce.  [Type] is a reserved word and is
    written [Type_]. *)

Module Error.
Record t : Type := mk {
  ID : string;
  Name : string;
  Detail : string
}.
Definition zero : t :=
  mk "" "" "".
Definition dec : decoder t := decStruct (fun ms cur =>
  x0 <-? field "id" decString ms (ID cur) ;;
  x1 <-? field "name" decString ms (Name cur) ;;
  x2 <-? field "detail" decString ms (Detail cur) ;;
  Some (mk x0 x1 x2)).
End Error.

Module User.
Record t : Type := mk {
  ID : string
}.
Definition zero : t :=
  mk "".
Definition dec : decoder t := decStruct (fun ms cur =>
  x0 <-? field "id" decString ms (ID cur) ;;
  Some (mk x0)).
End User.

Module DateFormat.
Record t : Type := mk {
  Format : string
}.
Definition zero : t :=
  mk "".
Definition dec : decoder t := decStruct (fun ms cur =>
  x0 <-? field "format" decString ms (Format cur) ;;
  Some (mk x0)).
End DateFormat.

Module CurrencyFormat.
Record t : Type := mk {
  ISOCode : string;
  ExampleFormat : string;
  DecimalDigits : Z;
  DecimalSeparator : string;
  SymbolFirst : bool;
  GroupSeparator : string;
  CurrencySymbol : string;
  DisplaySymbol : bool
}.
Definition zero : t :=
  mk "" "" 0 "" false "" "" false.
Definition dec : decoder t := decStruct (fun ms cur =>
  x0 <-? field "iso_code" decString ms (ISOCode cur) ;;
  x1 <-? field "example_format" decString ms (ExampleFormat cur) ;;
  x2 <-? field "decimal_digits" decInt64 ms (DecimalDigits cur) ;;
  x3 <-? field "decimal_separator" decString ms (DecimalSeparator cur) ;;
  x4 <-? field "symbol_first" decBool ms (SymbolFirst cur) ;;
  x5 <-? field "group_separator" decString ms (GroupSeparator cur) ;;
  x6 <-? field "currency_symbol" decString ms (CurrencySymbol cur) ;;
  x7 <-? field "display_symbol" decBool ms (DisplaySymbol cur) ;;
  Some (mk x0 x1 x2 x3 x4 x5 x6 x7)).
End CurrencyFormat.

Module Budget.
Record t : Type := mk {
  ID : string;
  Name : string;
  LastModifiedOn : string;
  FirstMonth : string;
  LastMonth : string;
  DateFormat : option DateFormat.t;
  CurrencyFormat : option CurrencyFormat.t
}.
Definition zero : t :=
  mk "" "" "" "" "" None None.
Definition dec : decoder t := decStruct (fun ms cur =>
  x0 <-? field "id" decString ms (ID cur) ;;
  x1 <-? field "name" decString ms (Name cur) ;;
  x2 <-? field "last_modified_on" decString ms (LastModifiedOn cur) ;;
  x3 <-? field "first_month" decString ms (FirstMonth cur) ;;
  x4 <-? field "last_month" decString ms (LastMonth cur) ;;
  x5 <-? field "date_format" (decPtr DateFormat.zero DateFormat.dec) ms
      (DateFormat cur) ;;
  x6 <-? field "currency_format" (decPtr CurrencyFormat.zero
      CurrencyFormat.dec) ms (CurrencyFormat cur) ;;
  Some (mk x0 x1 x2 x3 x4 x5 x6)).
End Budget.

Module BudgetSettings.
Record t : Type := mk {
  DateFormat : DateFormat.t;
  CurrencyFormat : CurrencyFormat.t
}.
Definition zero : t :=
  mk DateFormat.zero CurrencyFormat.zero.
Definition dec : decoder t := decStruct (fun ms cur =>
  x0 <-? field "date_format" DateFormat.dec ms (DateFormat cur) ;;
  x1 <-? field "currency_format" CurrencyFormat.dec ms (CurrencyFormat cur) ;;
  Some (mk x0 x1)).
End BudgetSettings.

Module Account.
Record t : Type := mk {
  ID : string;
  Name : string;
  Type_ : string;
  OnBudget : bool;
  Closed : bool;
  Note : string;
  Balance : Z;
  ClearedBalance : Z;
  UnclearedBalance : Z;
  TransferPayeeID : string;
  DirectImportLinked : bool;
  DirectImportInError : bool;
  LastReconciledAt : string;
  DebtOriginalBalance : Z;
  DebtInterestRates : list (string * Z);
  DebtMinimumPayments : list (string * Z);
  DebtEscrowAmounts : list (string * Z);
  Deleted : bool
}.
Definition zero : t :=
  mk "" "" "" false false "" 0 0 0 "" false false "" 0 [] [] [] false.
Definition dec : decoder t := decStruct (fun ms cur =>
  x0 <-? field "id" decString ms (ID cur) ;;
  x1 <-? field "name" decString ms (Name cur) ;;
  x2 <-? field "type" decString ms (Type_ cur) ;;
  x3 <-? field "on_budget" decBool ms (OnBudget cur) ;;
  x4 <-? field "closed" decBool ms (Closed cur) ;;
  x5 <-? field "note" decString ms (Note cur) ;;
  x6 <-? field "balance" decInt64 ms (Balance cur) ;;
  x7 <-? field "cleared_balance" decInt64 ms (ClearedBalance cur) ;;
  x8 <-? field "uncleared_balance" decInt64 ms (UnclearedBalance cur) ;;
  x9 <-? field "transfer_payee_id" decString ms (TransferPayeeID cur) ;;
  x10 <-? field "direct_import_linked" decBool ms (DirectImportLinked cur) ;;
  x11 <-? field "direct_import_in_error" decBool ms (DirectImportInError cur)
      ;;
  x12 <-? field "last_reconciled_at" decString ms (LastReconciledAt cur) ;;
  x13 <-? field "debt_original_balance" decInt64 ms (DebtOriginalBalance cur)
      ;;
  x14 <-? field "debt_interest_rates" (decMap 0 decInt64) ms
      (DebtInterestRates cur) ;;
  x15 <-? field "debt_minimum_payments" (decMap 0 decInt64) ms
      (DebtMinimumPayments cur) ;;
  x16 <-? field "debt_escrow_amounts" (decMap 0 decInt64) ms
      (DebtEscrowAmounts cur) ;;
  x17 <-? field "deleted" decBool ms (Deleted cur) ;;
  Some (mk x0 x1 x2 x3 x4 x5 x6 x7 x8 x9 x10 x11 x12 x13 x14 x15 x16 x17)).
End Account.

Module Category.
Record t : Type := mk {
  ID : string;
  CategoryGroupID : string;
  CategoryGroupName : string;
  Name : string;
  Hidden : bool;
  OriginalCategoryGroupID : string;
  Note : string;
  Budgeted : Z;
  Activity : Z;
  Balance : Z;
  GoalType : string;
  GoalDay : Z;
  GoalCadence : Z;
  GoalCadenceFrequency : Z;
  GoalCreationMonth : string;
  GoalTarget : Z;
  GoalTargetMonth : string;
  GoalPercentageComplete : Z;
  GoalMonthsToBudget : Z;
  GoalUnderFunded : Z;
  GoalOverallFunded : Z;
  GoalOverallLeft : Z;
  Deleted : bool
}.
Definition zero : t :=
  mk "" "" "" "" false "" "" 0 0 0 "" 0 0 0 "" 0 "" 0 0 0 0 0 false.
Definition dec : decoder t := decStruct (fun ms cur =>
  x0 <-? field "id" decString ms (ID cur) ;;
  x1 <-? field "category_group_id" decString ms (CategoryGroupID cur) ;;
  x2 <-? field "category_group_name" decString ms (CategoryGroupName cur) ;;
  x3 <-? field "name" decString ms (Name cur) ;;
  x4 <-? field "hidden" decBool ms (Hidden cur) ;;
  x5 <-? field "original_category_group_id" decString ms
      (OriginalCategoryGroupID cur) ;;
  x6 <-? field "note" decString ms (Note cur) ;;
  x7 <-? field "budgeted" decInt64 ms (Budgeted cur) ;;
  x8 <-? field "activity" decInt64 ms (Activity cur) ;;
  x9 <-? field "balance" decInt64 ms (Balance cur) ;;
  x10 <-? field "goal_type" decString ms (GoalType cur) ;;
  x11 <-? field "goal_day" decInt64 ms (GoalDay cur) ;;
  x12 <-? field "goal_cadence" decInt64 ms (GoalCadence cur) ;;
  x13 <-? field "goal_cadence_frequency" decInt64 ms (GoalCadenceFrequency
      cur) ;;
  x14 <-? field "goal_creation_month" decString ms (GoalCreationMonth cur) ;;
  x15 <-? field "goal_target" decInt64 ms (GoalTarget cur) ;;
  x16 <-? field "goal_target_month" decString ms (GoalTargetMonth cur) ;;
  x17 <-? field "goal_percentage_complete" decInt64 ms (GoalPercentageComplete
      cur) ;;
  x18 <-? field "goal_months_to_budget" decInt64 ms (GoalMonthsToBudget cur)
      ;;
  x19 <-? field "goal_under_funded" decInt64 ms (GoalUnderFunded cur) ;;
  x20 <-? field "goal_overall_funded" decInt64 ms (GoalOverallFunded cur) ;;
  x21 <-? field "goal_overall_left" decInt64 ms (GoalOverallLeft cur) ;;
  x22 <-? field "deleted" decBool ms (Deleted cur) ;;
Some (mk x0 x1 x2 x3 x4 x5 x6 x7 x8 x9 x10 x11 x12 x13 x14 x15 x16 x17 x18
      x19 x20 x21 x22)).
End Category.

Module CategoryGroup.
Record t : Type := mk {
  ID : string;
  Name : string;
  Hidden : bool;
  Deleted : bool;
  Categories : list Category.t
}.
Definition zero : t :=
  mk "" "" false false [].
Definition dec : decoder t := decStruct (fun ms cur =>
  x0 <-? field "id" decString ms (ID cur) ;;
  x1 <-? field "name" decString ms (Name cur) ;;
  x2 <-? field "hidden" decBool ms (Hidden cur) ;;
  x3 <-? field "deleted" decBool ms (Deleted cur) ;;
  x4 <-? field "categories" (decSlice Category.zero Category.dec) ms
      (Categories cur) ;;
  Some (mk x0 x1 x2 x3 x4)).
End CategoryGroup.

Module Payee.
Record t : Type := mk {
  ID : string;
  Name : string;
  TransferAccountID : string;
  Deleted : bool
}.
Definition zero : t :=
  mk "" "" "" false.
Definition dec : decoder t := decStruct (fun ms cur =>
  x0 <-? field "id" decString ms (ID cur) ;;
  x1 <-? field "name" decString ms (Name cur) ;;
  x2 <-? field "transfer_account_id" decString ms (TransferAccountID cur) ;;
  x3 <-? field "deleted" decBool ms (Deleted cur) ;;
  Some (mk x0 x1 x2 x3)).
End Payee.

Module Subtransaction.
Record t : Type := mk {
  ID : string;
  TransactionID : string;
  Amount : Z;
  Memo : string;
  PayeeID : string;
  PayeeName : string;
  CategoryID : string;
  CategoryName : string;
  TransferAccountID : string;
  TransferTransactionID : string;
  Deleted : bool
}.
Definition zero : t :=
  mk "" "" 0 "" "" "" "" "" "" "" false.
Definition dec : decoder t := decStruct (fun ms cur =>
  x0 <-? field "id" decString ms (ID cur) ;;
  x1 <-? field "transaction_id" decString ms (TransactionID cur) ;;
  x2 <-? field "amount" decInt64 ms (Amount cur) ;;
  x3 <-? field "memo" decString ms (Memo cur) ;;
  x4 <-? field "payee_id" decString ms (PayeeID cur) ;;
  x5 <-? field "payee_name" decString ms (PayeeName cur) ;;
  x6 <-? field "category_id" decString ms (CategoryID cur) ;;
  x7 <-? field "category_name" decString ms (CategoryName cur) ;;
  x8 <-? field "transfer_account_id" decString ms (TransferAccountID cur) ;;
  x9 <-? field "transfer_transaction_id" decString ms (TransferTransactionID
      cur) ;;
  x10 <-? field "deleted" decBool ms (Deleted cur) ;;
  Some (mk x0 x1 x2 x3 x4 x5 x6 x7 x8 x9 x10)).
End Subtransaction.

Module Transaction.
Record t : Type := mk {
  ID : string;
  Date : string;
  Amount : Z;
  Memo : string;
  Cleared : string;
  Approved : bool;
  FlagColor : string;
  FlagName : string;
  AccountID : string;
  AccountName : string;
  PayeeID : string;
  PayeeName : string;
  CategoryID : string;
  CategoryName : string;
  TransferAccountID : string;
  TransferTransactionID : string;
  MatchedTransactionID : string;
  ImportID : string;
  ImportPayeeName : string;
  ImportPayeeNameOriginal : string;
  DebtTransactionType : string;
  Deleted : bool;
  Subtransactions : list Subtransaction.t
}.
Definition zero : t :=
mk "" "" 0 "" "" false "" "" "" "" "" "" "" "" "" "" "" "" "" "" "" false
      [].
Definition dec : decoder t := decStruct (fun ms cur =>
  x0 <-? field "id" decString ms (ID cur) ;;
  x1 <-? field "date" decString ms (Date cur) ;;
  x2 <-? field "amount" decInt64 ms (Amount cur) ;;
  x3 <-? field "memo" decString ms (Memo cur) ;;
  x4 <-? field "cleared" decString ms (Cleared cur) ;;
  x5 <-? field "approved" decBool ms (Approved cur) ;;
  x6 <-? field "flag_color" decString ms (FlagColor cur) ;;
  x7 <-? field "flag_name" decString ms (FlagName cur) ;;
  x8 <-? field "account_id" decString ms (AccountID cur) ;;
  x9 <-? field "account_name" decString ms (AccountName cur) ;;
  x10 <-? field "payee_id" decString ms (PayeeID cur) ;;
  x11 <-? field "payee_name" decString ms (PayeeName cur) ;;
  x12 <-? field "category_id" decString ms (CategoryID cur) ;;
  x13 <-? field "category_name" decString ms (CategoryName cur) ;;
  x14 <-? field "transfer_account_id" decString ms (TransferAccountID cur) ;;
  x15 <-? field "transfer_transaction_id" decString ms (TransferTransactionID
      cur) ;;
  x16 <-? field "matched_transaction_id" decString ms (MatchedTransactionID
      cur) ;;
  x17 <-? field "import_id" decString ms (ImportID cur) ;;
  x18 <-? field "import_payee_name" decString ms (ImportPayeeName cur) ;;
  x19 <-? field "import_payee_name_original" decString ms
      (ImportPayeeNameOriginal cur) ;;
  x20 <-? field "debt_transaction_type" decString ms (DebtTransactionType cur)
      ;;
  x21 <-? field "deleted" decBool ms (Deleted cur) ;;
  x22 <-? field "subtransactions" (decSlice Subtransaction.zero
      Subtransaction.dec) ms (Subtransactions cur) ;;
Some (mk x0 x1 x2 x3 x4 x5 x6 x7 x8 x9 x10 x11 x12 x13 x14 x15 x16 x17 x18
      x19 x20 x21 x22)).
End Transaction.

Module ScheduledSubtransaction.
Record t : Type := mk {
  ID : string;
  ScheduledTransactionID : string;
  Amount : Z;
  Memo : string;
  PayeeID : string;
  CategoryID : string;
  TransferAccountID : string;
  Deleted : bool
}.
Definition zero : t :=
  mk "" "" 0 "" "" "" "" false.
Definition dec : decoder t := decStruct (fun ms cur =>
  x0 <-? field "id" decString ms (ID cur) ;;
  x1 <-? field "scheduled_transaction_id" decString ms (ScheduledTransactionID
      cur) ;;
  x2 <-? field "amount" decInt64 ms (Amount cur) ;;
  x3 <-? field "memo" decString ms (Memo cur) ;;
  x4 <-? field "payee_id" decString ms (PayeeID cur) ;;
  x5 <-? field "category_id" decString ms (CategoryID cur) ;;
  x6 <-? field "transfer_account_id" decString ms (TransferAccountID cur) ;;
  x7 <-? field "deleted" decBool ms (Deleted cur) ;;
  Some (mk x0 x1 x2 x3 x4 x5 x6 x7)).
End ScheduledSubtransaction.

Module ScheduledTransaction.
Record t : Type := mk {
  ID : string;
  DateFirst : string;
  DateNext : string;
  Frequency : string;
  Amount : Z;
  Memo : string;
  FlagColor : string;
  FlagName : string;
  AccountID : string;
  AccountName : string;
  PayeeID : string;
  PayeeName : string;
  CategoryID : string;
  CategoryName : string;
  TransferAccountID : string;
  Deleted : bool;
  Subtransactions : list ScheduledSubtransaction.t
}.
Definition zero : t :=
  mk "" "" "" "" 0 "" "" "" "" "" "" "" "" "" "" false [].
Definition dec : decoder t := decStruct (fun ms cur =>
  x0 <-? field "id" decString ms (ID cur) ;;
  x1 <-? field "date_first" decString ms (DateFirst cur) ;;
  x2 <-? field "date_next" decString ms (DateNext cur) ;;
  x3 <-? field "frequency" decString ms (Frequency cur) ;;
  x4 <-? field "amount" decInt64 ms (Amount cur) ;;
  x5 <-? field "memo" decString ms (Memo cur) ;;
  x6 <-? field "flag_color" decString ms (FlagColor cur) ;;
  x7 <-? field "flag_name" decString ms (FlagName cur) ;;
  x8 <-? field "account_id" decString ms (AccountID cur) ;;
  x9 <-? field "account_name" decString ms (AccountName cur) ;;
  x10 <-? field "payee_id" decString ms (PayeeID cur) ;;
  x11 <-? field "payee_name" decString ms (PayeeName cur) ;;
  x12 <-? field "category_id" decString ms (CategoryID cur) ;;
  x13 <-? field "category_name" decString ms (CategoryName cur) ;;
  x14 <-? field "transfer_account_id" decString ms (TransferAccountID cur) ;;
  x15 <-? field "deleted" decBool ms (Deleted cur) ;;
  x16 <-? field "subtransactions" (decSlice ScheduledSubtransaction.zero
      ScheduledSubtransaction.dec) ms (Subtransactions cur) ;;
  Some (mk x0 x1 x2 x3 x4 x5 x6 x7 x8 x9 x10 x11 x12 x13 x14 x15 x16)).
End ScheduledTransaction.

Module Month.
Record t : Type := mk {
  Month : string;
  Note : string;
  Income : Z;
  Budgeted : Z;
  Activity : Z;
  ToBeBudgeted : Z;
  AgeOfMoney : Z;
  Deleted : bool;
  Categories : list Category.t
}.
Definition zero : t :=
  mk "" "" 0 0 0 0 0 false [].
Definition dec : decoder t := decStruct (fun ms cur =>
  x0 <-? field "month" decString ms (Month cur) ;;
  x1 <-? field "note" decString ms (Note cur) ;;
  x2 <-? field "income" decInt64 ms (Income cur) ;;
  x3 <-? field "budgeted" decInt64 ms (Budgeted cur) ;;
  x4 <-? field "activity" decInt64 ms (Activity cur) ;;
  x5 <-? field "to_be_budgeted" decInt64 ms (ToBeBudgeted cur) ;;
  x6 <-? field "age_of_money" decInt64 ms (AgeOfMoney cur) ;;
  x7 <-? field "deleted" decBool ms (Deleted cur) ;;
  x8 <-? field "categories" (decSlice Category.zero Category.dec) ms
      (Categories cur) ;;
  Some (mk x0 x1 x2 x3 x4 x5 x6 x7 x8)).
End Month.

(** *** Errors

    [Errorf msg (Some e)] is fmt.Errorf(msg + ": %w", e), [Errorf msg
    None] is fmt.Errorf(msg); [APIError] is a *client.Error; [LibError]
    is an error value of the named package. *)
Inductive error : Type :=
| Errorf (msg : string) (wrapped : option error)
| APIError (e : Error.t)
| LibError (pkg : string).

(** func (e *Error) Error() string *)
Definition ErrorString (e : Error.t) : string :=
  Error.Name e ++ ": " ++ Error.Detail e.

Inductive result (A : Type) : Type :=
| Ok (a : A)
| Err (e : error).
Arguments Ok {A} a.
Arguments Err {A} e.

(** *** HTTP

    A request as doRequest builds it.  [Body] is the document that
    json.Marshal writes for the payload. *)
Record Request : Type := mkRequest {
  Method : string;
  URL : string;
  Header : list (string * string);
  Body : option json
}.

(** What happens to one request: http.NewRequest may refuse it, Do may
    fail, reading the body may fail, or a response arrives. *)
Inductive RoundTrip : Type :=
| CreateFailed
| DoFailed
| ReadFailed
| Response (StatusCode : Z) (body : string).

(** The HTTP side, which may answer by what was sent before. *)
Definition Transport : Type := list Request -> Request -> RoundTrip.

(** Effects of the client and of the commands: the requests handed to
    the HTTP client so far are threaded through. *)
Definition IO (A : Type) : Type := list Request -> result A * list Request.

Definition ret {A : Type} (a : A) : IO A := fun log => (Ok a, log).
Definition fail {A : Type} (e : error) : IO A := fun log => (Err e, log).
Definition bind {A B : Type} (m : IO A) (k : A -> IO B) : IO B :=
  fun log =>
    match m log with
    | (Ok a, log') => k a log'
    | (Err e, log') => (Err e, log')
    end.

Notation "x <- c ;; k" := (bind c (fun x => k))
  (at level 61, c at next level, right associativity).

Definition baseURL : string := "https://api.ynab.com/v1".

(** The 30 second timeout of the HTTP client belongs to [httpClient]. *)
Record Client : Type := mkClient {
  httpClient : Transport;
  token : string;
  baseURL_ : string
}.

Definition New (http : Transport) (tok : string) : Client :=
  mkClient http tok baseURL.

(** type ErrorResponse struct { Error *Error `json:"error"` } *)
Definition ErrorResponse : decoder (option Error.t) :=
  decStruct (fun ms cur => field "error" (decPtr Error.zero Error.dec) ms cur).

(** The request doRequest builds: URL and the two headers. *)
Definition newRequest (c : Client) (method path : string) (body : option json)
  : Request :=
  mkRequest method (baseURL_ c ++ path)
    [("Authorization", "Bearer " ++ token c);
     ("Content-Type", "application/json")] body.

Definition doRequest (c : Client) (method path : string) (body : option json)
  : IO string :=
  fun log =>
    let req := newRequest c method path body in
    match httpClient c log req with
    | CreateFailed =>
        (Err (Errorf "failed to create request" (Some (LibError "net/http"))), log)
    | DoFailed =>
        (Err (Errorf "failed to execute request" (Some (LibError "net/http"))),
         (log ++ [req])%list)
    | ReadFailed =>
        (Err (Errorf "failed to read response body" (Some (LibError "io"))),
         (log ++ [req])%list)
    | Response status respBody =>
        (if 400 <=? status then
           match Unmarshal ErrorResponse None respBody with
           | Some (Some e) => Err (APIError e)
           | _ => Err (Errorf ("API error: " ++ respBody ++ " (status "
                               ++ Strconv.Itoa status ++ ")") None)
           end
         else Ok respBody,
         (log ++ [req])%list)
    end.

(** Every response type is a struct with one field [Data] tagged "data",
    itself a struct with one field tagged with the name of the resource;
    the operation returns that inner field. *)
Definition decData {T : Type} (key : string) (d : decoder T) : decoder T :=
  decStruct (fun ms cur =>
    field "data" (decStruct (fun ms' cur' => field key d ms' cur')) ms cur).

(** var resp R; json.Unmarshal(body, &resp), then resp.Data.X *)
Definition parseResponse {T : Type} (d : decoder T) (zero : T) (body : string)
  : IO T :=
  match Unmarshal d zero body with
  | Some v => ret v
  | None => fail (Errorf "failed to parse response" (Some (LibError "encoding/json")))
  end.

Definition UserResponse := decData "user" User.dec.
Definition BudgetsResponse := decData "budgets" (decSlice Budget.zero Budget.dec).
Definition BudgetDetailResponse := decData "budget" Budget.dec.
Definition BudgetSettingsResponse := decData "settings" BudgetSettings.dec.
Definition AccountsResponse := decData "accounts" (decSlice Account.zero Account.dec).
Definition AccountResponse := decData "account" Account.dec.
Definition CategoriesResponse :=
  decData "category_groups" (decSlice CategoryGroup.zero CategoryGroup.dec).
Definition CategoryResponse := decData "category" Category.dec.
Definition PayeesResponse := decData "payees" (decSlice Payee.zero Payee.dec).
Definition PayeeResponse := decData "payee" Payee.dec.
Definition TransactionsResponse :=
  decData "transactions" (decSlice Transaction.zero Transaction.dec).
Definition TransactionResponse := decData "transaction" Transaction.dec.
Definition ScheduledTransactionsResponse :=
  decData "scheduled_transactions"
    (decSlice ScheduledTransaction.zero ScheduledTransaction.dec).
Definition ScheduledTransactionResponse :=
  decData "scheduled_transaction" ScheduledTransaction.dec.
Definition MonthsResponse := decData "months" (decSlice Month.zero Month.dec).
Definition MonthResponse := decData "month" Month.dec.

(** *** Request payloads *)

Definition jint (z : Z) : json := JNum (Strconv.Itoa z).

(** A string field tagged omitempty. *)
Definition omitempty (key value : string) : list (string * json) :=
  if String.eqb value "" then [] else [(key, JStr value)].

Definition CreateAccountRequest (name accountType : string) (balance : Z) : json :=
  JObj [("account", JObj [("name", JStr name); ("type", JStr accountType);
                          ("balance", jint balance)])].

Definition UpdateCategoryRequest (budgeted : Z) : json :=
  JObj [("category", JObj [("budgeted", jint budgeted)])].

Definition UpdatePayeeRequest (name : string) : json :=
  JObj [("payee", JObj [("name", JStr name)])].

Module SaveTransaction.
Record t : Type := mk {
  AccountID : string;
  Date : string;
  Amount : Z;
  PayeeID : string;
  PayeeName : string;
  CategoryID : string;
  Memo : string;
  Cleared : string;
  Approved : bool;
  FlagColor : string;
  ImportID : string
}.
(** Assignment to one field. *)
Definition setAccountID (v : string) (x : t) : t :=
  mk v (Date x) (Amount x) (PayeeID x) (PayeeName x) (CategoryID x)
     (Memo x) (Cleared x) (Approved x) (FlagColor x) (ImportID x).
Definition setDate (v : string) (x : t) : t :=
  mk (AccountID x) v (Amount x) (PayeeID x) (PayeeName x) (CategoryID x)
     (Memo x) (Cleared x) (Approved x) (FlagColor x) (ImportID x).
Definition setAmount (v : Z) (x : t) : t :=
  mk (AccountID x) (Date x) v (PayeeID x) (PayeeName x) (CategoryID x)
     (Memo x) (Cleared x) (Approved x) (FlagColor x) (ImportID x).
Definition setPayeeID (v : string) (x : t) : t :=
  mk (AccountID x) (Date x) (Amount x) v (PayeeName x) (CategoryID x)
     (Memo x) (Cleared x) (Approved x) (FlagColor x) (ImportID x).
Definition setPayeeName (v : string) (x : t) : t :=
  mk (AccountID x) (Date x) (Amount x) (PayeeID x) v (CategoryID x)
     (Memo x) (Cleared x) (Approved x) (FlagColor x) (ImportID x).
Definition setCategoryID (v : string) (x : t) : t :=
  mk (AccountID x) (Date x) (Amount x) (PayeeID x) (PayeeName x) v
     (Memo x) (Cleared x) (Approved x) (FlagColor x) (ImportID x).
Definition setMemo (v : string) (x : t) : t :=
  mk (AccountID x) (Date x) (Amount x) (PayeeID x) (PayeeName x) (CategoryID x) v
     (Cleared x) (Approved x) (FlagColor x) (ImportID x).
Definition setCleared (v : string) (x : t) : t :=
  mk (AccountID x) (Date x) (Amount x) (PayeeID x) (PayeeName x) (CategoryID x)
     (Memo x) v (Approved x) (FlagColor x) (ImportID x).
Definition setApproved (v : bool) (x : t) : t :=
  mk (AccountID x) (Date x) (Amount x) (PayeeID x) (PayeeName x) (CategoryID x)
     (Memo x) (Cleared x) v (FlagColor x) (ImportID x).
Definition setFlagColor (v : string) (x : t) : t :=
  mk (AccountID x) (Date x) (Amount x) (PayeeID x) (PayeeName x) (CategoryID x)
     (Memo x) (Cleared x) (Approved x) v (ImportID x).
Definition enc (x : t) : json :=
  JObj ([("account_id", JStr (AccountID x)); ("date", JStr (Date x));
         ("amount", jint (Amount x))]
        ++ omitempty "payee_id" (PayeeID x)
        ++ omitempty "payee_name" (PayeeName x)
        ++ omitempty "category_id" (CategoryID x)
        ++ omitempty "memo" (Memo x)
        ++ omitempty "cleared" (Cleared x)
        ++ (if Approved x then [("approved", JBool true)] else [])
        ++ omitempty "flag_color" (FlagColor x)
        ++ omitempty "import_id" (ImportID x))%list.
End SaveTransaction.

Definition CreateTransactionRequest (txn : SaveTransaction.t) : json :=
  JObj [("transaction", SaveTransaction.enc txn)].
Definition UpdateTransactionRequest (txn : SaveTransaction.t) : json :=
  JObj [("transaction", SaveTransaction.enc txn)].

Module SaveScheduledTransaction.
Record t : Type := mk {
  AccountID : string;
  Date : string;
  Frequency : string;
  Amount : Z;
  PayeeID : string;
  PayeeName : string;
  CategoryID : string;
  Memo : string;
  FlagColor : string
}.
Definition enc (x : t) : json :=
  JObj ([("account_id", JStr (AccountID x)); ("date", JStr (Date x));
         ("frequency", JStr (Frequency x)); ("amount", jint (Amount x))]
        ++ omitempty "payee_id" (PayeeID x)
        ++ omitempty "payee_name" (PayeeName x)
        ++ omitempty "category_id" (CategoryID x)
        ++ omitempty "memo" (Memo x)
        ++ omitempty "flag_color" (FlagColor x))%list.
End SaveScheduledTransaction.

Definition CreateScheduledTransactionRequest (st : SaveScheduledTransaction.t) : json :=
  JObj [("scheduled_transaction", SaveScheduledTransaction.enc st)].

(** *** url.Values *)

Definition hexDigit (n : N) : ascii :=
  if (n <? 10)%N then byte (48 + n) else byte (55 + n).

(** A byte that url.QueryEscape leaves as it is. *)
Definition unreserved (c : ascii) : bool :=
  let n := code c in
  (((97 <=? n) && (n <=? 122)) || ((65 <=? n) && (n <=? 90))
   || ((48 <=? n) && (n <=? 57))
   || (n =? 45) || (n =? 95) || (n =? 46) || (n =? 126))%N.

Fixpoint QueryEscape (s : string) : string :=
  match s with
  | EmptyString => EmptyString
  | String c r =>
      if unreserved c then String c (QueryEscape r)
      else if (code c =? 32)%N then String "+"%char (QueryEscape r)
      else String "%"%char
             (String (hexDigit (code c / 16)) (String (hexDigit (code c mod 16))
                (QueryEscape r)))
  end.

(** url.Values.Encode for keys that are already in sorted order, one
    value each. *)
Definition Encode (params : list (string * string)) : string :=
  String.concat "&"
    (map (fun kv => QueryEscape (fst kv) ++ "=" ++ QueryEscape (snd kv)) params).

(** *** The operations *)

Definition GetUser (c : Client) : IO User.t :=
  body <- doRequest c "GET" "/user" None ;;
  parseResponse UserResponse User.zero body.

Definition GetBudgets (c : Client) : IO (list Budget.t) :=
  body <- doRequest c "GET" "/budgets" None ;;
  parseResponse BudgetsResponse [] body.

Definition GetBudget (c : Client) (budgetID : string) : IO Budget.t :=
  body <- doRequest c "GET" ("/budgets/" ++ budgetID) None ;;
  parseResponse BudgetDetailResponse Budget.zero body.

Definition GetBudgetSettings (c : Client) (budgetID : string) : IO BudgetSettings.t :=
  body <- doRequest c "GET" ("/budgets/" ++ budgetID ++ "/settings") None ;;
  parseResponse BudgetSettingsResponse BudgetSettings.zero body.

Definition GetAccounts (c : Client) (budgetID : string) : IO (list Account.t) :=
  body <- doRequest c "GET" ("/budgets/" ++ budgetID ++ "/accounts") None ;;
  parseResponse AccountsResponse [] body.

Definition GetAccount (c : Client) (budgetID accountID : string) : IO Account.t :=
  body <- doRequest c "GET"
            ("/budgets/" ++ budgetID ++ "/accounts/" ++ accountID) None ;;
  parseResponse AccountResponse Account.zero body.

Definition CreateAccount (c : Client) (budgetID name accountType : string)
           (balance : Z) : IO Account.t :=
  body <- doRequest c "POST" ("/budgets/" ++ budgetID ++ "/accounts")
            (Some (CreateAccountRequest name accountType balance)) ;;
  parseResponse AccountResponse Account.zero body.

Definition GetCategories (c : Client) (budgetID : string) : IO (list CategoryGroup.t) :=
  body <- doRequest c "GET" ("/budgets/" ++ budgetID ++ "/categories") None ;;
  parseResponse CategoriesResponse [] body.

Definition GetCategory (c : Client) (budgetID categoryID : string) : IO Category.t :=
  body <- doRequest c "GET"
            ("/budgets/" ++ budgetID ++ "/categories/" ++ categoryID) None ;;
  parseResponse CategoryResponse Category.zero body.

Definition UpdateCategory (c : Client) (budgetID categoryID month : string)
           (budgeted : Z) : IO Category.t :=
  body <- doRequest c "PATCH"
            ("/budgets/" ++ budgetID ++ "/months/" ++ month
             ++ "/categories/" ++ categoryID)
            (Some (UpdateCategoryRequest budgeted)) ;;
  parseResponse CategoryResponse Category.zero body.

Definition GetPayees (c : Client) (budgetID : string) : IO (list Payee.t) :=
  body <- doRequest c "GET" ("/budgets/" ++ budgetID ++ "/payees") None ;;
  parseResponse PayeesResponse [] body.

Definition GetPayee (c : Client) (budgetID payeeID : string) : IO Payee.t :=
  body <- doRequest c "GET" ("/budgets/" ++ budgetID ++ "/payees/" ++ payeeID) None ;;
  parseResponse PayeeResponse Payee.zero body.

Definition UpdatePayee (c : Client) (budgetID payeeID name : string) : IO Payee.t :=
  body <- doRequest c "PATCH" ("/budgets/" ++ budgetID ++ "/payees/" ++ payeeID)
            (Some (UpdatePayeeRequest name)) ;;
  parseResponse PayeeResponse Payee.zero body.

Record TransactionFilter : Type := mkTransactionFilter {
  SinceDate : string;
  Type_ : string;
  AccountID : string;
  CategoryID : string;
  PayeeID : string
}.

Definition GetTransactions (c : Client) (budgetID : string)
           (filter : option TransactionFilter) : IO (list Transaction.t) :=
  let path := "/budgets/" ++ budgetID ++ "/transactions" in
  let path :=
    match filter with
    | Some f =>
        let params :=
          ((if String.eqb (SinceDate f) "" then []
            else [("since_date", SinceDate f)])
           ++ (if String.eqb (Type_ f) "" then [] else [("type", Type_ f)]))%list in
        match params with
        | [] => path
        | _ => path ++ "?" ++ Encode params
        end
    | None => path
    end in
  body <- doRequest c "GET" path None ;;
  parseResponse TransactionsResponse [] body.

Definition GetTransactionsByAccount (c : Client) (budgetID accountID sinceDate : string)
  : IO (list Transaction.t) :=
  let path := "/budgets/" ++ budgetID ++ "/accounts/" ++ accountID ++ "/transactions" in
  let path := if String.eqb sinceDate "" then path
              else path ++ "?since_date=" ++ sinceDate in
  body <- doRequest c "GET" path None ;;
  parseResponse TransactionsResponse [] body.

Definition GetTransactionsByCategory (c : Client) (budgetID categoryID sinceDate : string)
  : IO (list Transaction.t) :=
  let path := "/budgets/" ++ budgetID ++ "/categories/" ++ categoryID ++ "/transactions" in
  let path := if String.eqb sinceDate "" then path
              else path ++ "?since_date=" ++ sinceDate in
  body <- doRequest c "GET" path None ;;
  parseResponse TransactionsResponse [] body.

Definition GetTransactionsByPayee (c : Client) (budgetID payeeID sinceDate : string)
  : IO (list Transaction.t) :=
  let path := "/budgets/" ++ budgetID ++ "/payees/" ++ payeeID ++ "/transactions" in
  let path := if String.eqb sinceDate "" then path
              else path ++ "?since_date=" ++ sinceDate in
  body <- doRequest c "GET" path None ;;
  parseResponse TransactionsResponse [] body.

Definition GetTransaction (c : Client) (budgetID transactionID : string)
  : IO Transaction.t :=
  body <- doRequest c "GET"
            ("/budgets/" ++ budgetID ++ "/transactions/" ++ transactionID) None ;;
  parseResponse TransactionResponse Transaction.zero body.

Definition CreateTransaction (c : Client) (budgetID : string) (txn : SaveTransaction.t)
  : IO Transaction.t :=
  body <- doRequest c "POST" ("/budgets/" ++ budgetID ++ "/transactions")
            (Some (CreateTransactionRequest txn)) ;;
  parseResponse TransactionResponse Transaction.zero body.

Definition UpdateTransaction (c : Client) (budgetID transactionID : string)
           (txn : SaveTransaction.t) : IO Transaction.t :=
  body <- doRequest c "PUT"
            ("/budgets/" ++ budgetID ++ "/transactions/" ++ transactionID)
            (Some (UpdateTransactionRequest txn)) ;;
  parseResponse TransactionResponse Transaction.zero body.

Definition DeleteTransaction (c : Client) (budgetID transactionID : string)
  : IO Transaction.t :=
  body <- doRequest c "DELETE"
            ("/budgets/" ++ budgetID ++ "/transactions/" ++ transactionID) None ;;
  parseResponse TransactionResponse Transaction.zero body.

Definition GetScheduledTransactions (c : Client) (budgetID : string)
  : IO (list ScheduledTransaction.t) :=
  body <- doRequest c "GET" ("/budgets/" ++ budgetID ++ "/scheduled_transactions") None ;;
  parseResponse ScheduledTransactionsResponse [] body.

Definition GetScheduledTransaction (c : Client) (budgetID scheduledTransactionID : string)
  : IO ScheduledTransaction.t :=
  body <- doRequest c "GET"
            ("/budgets/" ++ budgetID ++ "/scheduled_transactions/"
             ++ scheduledTransactionID) None ;;
  parseResponse ScheduledTransactionResponse ScheduledTransaction.zero body.

Definition CreateScheduledTransaction (c : Client) (budgetID : string)
           (st : SaveScheduledTransaction.t) : IO ScheduledTransaction.t :=
  body <- doRequest c "POST" ("/budgets/" ++ budgetID ++ "/scheduled_transactions")
            (Some (CreateScheduledTransactionRequest st)) ;;
  parseResponse ScheduledTransactionResponse ScheduledTransaction.zero body.

Definition UpdateScheduledTransaction (c : Client)
           (budgetID scheduledTransactionID : string)
           (st : SaveScheduledTransaction.t) : IO ScheduledTransaction.t :=
  body <- doRequest c "PUT"
            ("/budgets/" ++ budgetID ++ "/scheduled_transactions/"
             ++ scheduledTransactionID)
            (Some (CreateScheduledTransactionRequest st)) ;;
  parseResponse ScheduledTransactionResponse ScheduledTransaction.zero body.

Definition DeleteScheduledTransaction (c : Client)
           (budgetID scheduledTransactionID : string) : IO ScheduledTransaction.t :=
  body <- doRequest c "DELETE"
            ("/budgets/" ++ budgetID ++ "/scheduled_transactions/"
             ++ scheduledTransactionID) None ;;
  parseResponse ScheduledTransactionResponse ScheduledTransaction.zero body.

Definition GetMonths (c : Client) (budgetID : string) : IO (list Month.t) :=
  body <- doRequest c "GET" ("/budgets/" ++ budgetID ++ "/months") None ;;
  parseResponse MonthsResponse [] body.

Definition GetMonth (c : Client) (budgetID month : string) : IO Month.t :=
  body <- doRequest c "GET" ("/budgets/" ++ budgetID ++ "/months/" ++ month) None ;;
  parseResponse MonthResponse Month.zero body.

(** *** Currency conversion

    float64 is Rocq's primitive binary64 float, with the kernel's IEEE
    754 arithmetic (round to nearest, ties to even). *)

(** float64(x) for an int64 x. *)
Definition float64 (x : Z) : float :=
  if x =? minInt64 then (-9223372036854775808)%float
  else if x <? 0 then PrimFloat.opp (PrimFloat.of_uint63 (Uint63.of_Z (- x)))
  else PrimFloat.of_uint63 (Uint63.of_Z x).

(** The integer part of a finite float, towards zero. *)
Definition trunc (f : float) : option Z :=
  match Prim2SF f with
  | S754_zero _ => Some 0
  | S754_finite s m e =>
      let a := Z.shiftl (Z.pos m) e in
      Some (if s then - a else a)
  | _ => None
  end.

(** int64(f).  Go leaves the result open when the value does not fit
    (NaN, infinities, magnitude from 2^63 on); the value taken here is
    the one of amd64, the smallest int64. *)
Definition int64 (f : float) : Z :=
  match trunc f with
  | Some z => if inInt64 z then z else minInt64
  | None => minInt64
  end.

Definition MilliunitsToAmount (milliunits : Z) : float :=
  (float64 milliunits / 1000)%float.

Definition AmountToMilliunits (amount : float) : Z :=
  int64 (amount * 1000)%float.

End Client.

(* ================================================================== *)
(** ** internal/output *)
(* ================================================================== *)

Module Output.
Import Json Client.

(** The dynamic type of the value handed to Print: the sixteen shapes
    the table printer knows, and any other value. *)
Inductive Value : Type :=
| VUser (v : User.t)
| VBudgets (v : list Budget.t)
| VBudget (v : Budget.t)
| VBudgetSettings (v : BudgetSettings.t)
| VAccounts (v : list Account.t)
| VAccount (v : Account.t)
| VCategoryGroups (v : list CategoryGroup.t)
| VCategory (v : Category.t)
| VTransactions (v : list Transaction.t)
| VTransaction (v : Transaction.t)
| VPayees (v : list Payee.t)
| VPayee (v : Payee.t)
| VScheduledTransactions (v : list ScheduledTransaction.t)
| VScheduledTransaction (v : ScheduledTransaction.t)
| VMonths (v : list Month.t)
| VMonth (v : Month.t)
| VOther (v : json).

(** A cell of a table line: text, or an amount written with %.2f.  The
    verbs %s, %t and %d are written out. *)
Inductive Cell : Type :=
| Str (s : string)
| Amount (f : float).

(** One Fprintln or Fprintf on the tab writer: the cells between the
    tabs.  The tab writer's alignment of the columns is not modelled. *)
Definition Line : Type := list Cell.

(** What Print writes: the indented JSON encoding of a value, or the
    lines of a table. *)
Inductive Printed : Type :=
| JSON (data : Value)
| Table (lines : list Line).

Record Formatter : Type := mkFormatter { format : string }.

Definition New (fmt : string) : Formatter := mkFormatter fmt.

Definition printJSON (data : Value) : Printed := JSON data.

Definition truncate (s : string) (length : nat) : string :=
  if (String.length s <=? length)%nat then s
  else substring 0 (length - 3) s ++ "...".

Definition verb_t (b : bool) : Cell := Str (if b then "true" else "false").
Definition verb_d (z : Z) : string := Strconv.Itoa z.
Definition amount (milliunits : Z) : Cell := Amount (MilliunitsToAmount milliunits).
Definition header (names : list string) : Line := map Str names.
Definition pair (name : string) (value : Cell) : Line := [Str name; value].
(** A line written only when its text is not empty. *)
Definition optional (name value : string) : list Line :=
  if String.eqb value "" then [] else [pair name (Str value)].

Definition printTable (data : Value) : Printed :=
  match data with
  | VUser v =>
      Table [header ["ID"]; [Str (User.ID v)]]
  | VBudgets v =>
      Table (header ["ID"; "NAME"; "LAST MODIFIED"]
             :: map (fun b => [Str (Budget.ID b); Str (Budget.Name b);
                               Str (Budget.LastModifiedOn b)]) v)
  | VBudget v =>
      Table [header ["ID"; "NAME"; "FIRST MONTH"; "LAST MONTH"];
             [Str (Budget.ID v); Str (Budget.Name v); Str (Budget.FirstMonth v);
              Str (Budget.LastMonth v)]]
  | VBudgetSettings v =>
      let cf := BudgetSettings.CurrencyFormat v in
      Table [header ["SETTING"; "VALUE"];
             pair "Date Format" (Str (DateFormat.Format (BudgetSettings.DateFormat v)));
             pair "Currency" (Str (CurrencyFormat.ISOCode cf));
             pair "Currency Symbol" (Str (CurrencyFormat.CurrencySymbol cf));
             pair "Decimal Digits" (Str (verb_d (CurrencyFormat.DecimalDigits cf)))]
  | VAccounts v =>
      Table (header ["ID"; "NAME"; "TYPE"; "BALANCE"; "ON BUDGET"; "CLOSED"]
             :: map (fun a => [Str (Account.ID a); Str (Account.Name a);
                               Str (Account.Type_ a); amount (Account.Balance a);
                               verb_t (Account.OnBudget a); verb_t (Account.Closed a)]) v)
  | VAccount v =>
      Table ([header ["FIELD"; "VALUE"];
              pair "ID" (Str (Account.ID v));
              pair "Name" (Str (Account.Name v));
              pair "Type" (Str (Account.Type_ v));
              pair "Balance" (amount (Account.Balance v));
              pair "Cleared Balance" (amount (Account.ClearedBalance v));
              pair "Uncleared Balance" (amount (Account.UnclearedBalance v));
              pair "On Budget" (verb_t (Account.OnBudget v));
              pair "Closed" (verb_t (Account.Closed v))]
             ++ optional "Note" (Account.Note v))%list
  | VCategoryGroups v =>
      Table (header ["GROUP"; "CATEGORY"; "BUDGETED"; "ACTIVITY"; "BALANCE"]
             :: flat_map (fun g =>
                  if CategoryGroup.Deleted g || CategoryGroup.Hidden g then []
                  else flat_map (fun c =>
                         if Category.Deleted c || Category.Hidden c then []
                         else [[Str (CategoryGroup.Name g); Str (Category.Name c);
                                amount (Category.Budgeted c);
                                amount (Category.Activity c);
                                amount (Category.Balance c)]])
                       (CategoryGroup.Categories g)) v)
  | VCategory v =>
      Table ([header ["FIELD"; "VALUE"];
              pair "ID" (Str (Category.ID v));
              pair "Name" (Str (Category.Name v));
              pair "Group" (Str (Category.CategoryGroupName v));
              pair "Budgeted" (amount (Category.Budgeted v));
              pair "Activity" (amount (Category.Activity v));
              pair "Balance" (amount (Category.Balance v))]
             ++ (if String.eqb (Category.GoalType v) "" then []
                 else [pair "Goal Type" (Str (Category.GoalType v));
                       pair "Goal Target" (amount (Category.GoalTarget v))])
             ++ optional "Note" (Category.Note v))%list
  | VTransactions v =>
      Table (header ["DATE"; "PAYEE"; "CATEGORY"; "MEMO"; "AMOUNT"; "CLEARED"]
             :: flat_map (fun t =>
                  if Transaction.Deleted t then []
                  else [[Str (Transaction.Date t); Str (Transaction.PayeeName t);
                         Str (Transaction.CategoryName t);
                         Str (truncate (Transaction.Memo t) 30);
                         amount (Transaction.Amount t);
                         Str (Transaction.Cleared t)]]) v)
  | VTransaction v =>
      Table ([header ["FIELD"; "VALUE"];
              pair "ID" (Str (Transaction.ID v));
              pair "Date" (Str (Transaction.Date v));
              pair "Amount" (amount (Transaction.Amount v));
              pair "Payee" (Str (Transaction.PayeeName v));
              pair "Category" (Str (Transaction.CategoryName v));
              pair "Account" (Str (Transaction.AccountName v));
              pair "Cleared" (Str (Transaction.Cleared v));
              pair "Approved" (verb_t (Transaction.Approved v))]
             ++ optional "Memo" (Transaction.Memo v)
             ++ optional "Flag" (Transaction.FlagColor v))%list
  | VPayees v =>
      Table (header ["ID"; "NAME"; "TRANSFER ACCOUNT"]
             :: flat_map (fun p =>
                  if Payee.Deleted p then []
                  else [[Str (Payee.ID p); Str (Payee.Name p);
                         Str (Payee.TransferAccountID p)]]) v)
  | VPayee v =>
      Table ([header ["FIELD"; "VALUE"];
              pair "ID" (Str (Payee.ID v));
              pair "Name" (Str (Payee.Name v))]
             ++ optional "Transfer Account ID" (Payee.TransferAccountID v))%list
  | VScheduledTransactions v =>
      Table (header ["DATE NEXT"; "FREQUENCY"; "PAYEE"; "CATEGORY"; "AMOUNT"]
             :: flat_map (fun st =>
                  if ScheduledTransaction.Deleted st then []
                  else [[Str (ScheduledTransaction.DateNext st);
                         Str (ScheduledTransaction.Frequency st);
                         Str (ScheduledTransaction.PayeeName st);
                         Str (ScheduledTransaction.CategoryName st);
                         amount (ScheduledTransaction.Amount st)]]) v)
  | VScheduledTransaction v =>
      Table ([header ["FIELD"; "VALUE"];
              pair "ID" (Str (ScheduledTransaction.ID v));
              pair "Date First" (Str (ScheduledTransaction.DateFirst v));
              pair "Date Next" (Str (ScheduledTransaction.DateNext v));
              pair "Frequency" (Str (ScheduledTransaction.Frequency v));
              pair "Amount" (amount (ScheduledTransaction.Amount v));
              pair "Payee" (Str (ScheduledTransaction.PayeeName v));
              pair "Category" (Str (ScheduledTransaction.CategoryName v));
              pair "Account" (Str (ScheduledTransaction.AccountName v))]
             ++ optional "Memo" (ScheduledTransaction.Memo v))%list
  | VMonths v =>
      Table (header ["MONTH"; "INCOME"; "BUDGETED"; "ACTIVITY"; "TO BE BUDGETED"]
             :: flat_map (fun m =>
                  if Month.Deleted m then []
                  else [[Str (Month.Month m); amount (Month.Income m);
                         amount (Month.Budgeted m); amount (Month.Activity m);
                         amount (Month.ToBeBudgeted m)]]) v)
  | VMonth v =>
      Table ([header ["FIELD"; "VALUE"];
              pair "Month" (Str (Month.Month v));
              pair "Income" (amount (Month.Income v));
              pair "Budgeted" (amount (Month.Budgeted v));
              pair "Activity" (amount (Month.Activity v));
              pair "To Be Budgeted" (amount (Month.ToBeBudgeted v))]
             ++ (if 0 <? Month.AgeOfMoney v
                 then [pair "Age of Money" (Str (verb_d (Month.AgeOfMoney v) ++ " days"))]
                 else [])
             ++ optional "Note" (Month.Note v))%list
  | VOther _ =>
      (* Fall back to JSON for unknown types *)
      printJSON data
  end.

Definition Print (f : Formatter) (data : Value) : Printed :=
  if String.eqb (format f) "table" then printTable data else printJSON data.

End Output.

(* ================================================================== *)
(** ** cmd *)
(* ================================================================== *)

Module Cmd.
Import Json Client.

(** internal/config: the three settings.  Loading them (viper: file and
    environment) is outside the model; its result is an input of the
    set-up step. *)
Module Config.
Record t : Type := mk {
  Token : string;
  DefaultBudget : string;
  Format : string
}.
End Config.

(** The package variables the set-up step assigns. *)
Record Globals : Type := mkGlobals {
  outputFormat : string;
  budgetID : string;
  apiClient : option Client;
  cfg : option Config.t
}.

(** The package variables bound to the flags of the sub-commands, as
    they stand after the command line is parsed, and which flags the
    command line set. *)
Record Flags : Type := mkFlags {
  Changed : string -> bool;
  txnSinceDate : string;
  txnType : string;
  txnAccountID : string;
  txnCategoryID : string;
  txnPayeeID : string;
  newTxnAccountID : string;
  newTxnDate : string;
  newTxnAmount : float;
  newTxnPayeeID : string;
  newTxnPayeeName : string;
  newTxnCategoryID : string;
  newTxnMemo : string;
  newTxnCleared : string;
  newTxnApproved : bool;
  newTxnFlagColor : string;
  categoryMonth : string;
  categoryBudgeted : float;
  payeeNewName : string;
  schedAccountID : string;
  schedDate : string;
  schedFrequency : string;
  schedAmount : float;
  schedPayeeID : string;
  schedPayeeName : string;
  schedCategoryID : string;
  schedMemo : string;
  schedFlagColor : string;
  accountName : string;
  accountType : string;
  accountBalance : float
}.

(** A cobra command: its use line, the name of the command it was added
    to, the check of its positional arguments and its body. *)
Record Command : Type := mkCommand {
  Use : string;
  Parent : option string;
  Args : list string -> bool;
  RunE : Globals -> Flags -> GoTime.Time -> list string -> IO Output.Printed
}.

Fixpoint firstWord (s : string) : string :=
  match s with
  | EmptyString => EmptyString
  | String c r => if (code c =? 32)%N then EmptyString else String c (firstWord r)
  end.

(** cmd.Name() *)
Definition Name (cmd : Command) : string := firstWord (Use cmd).

Definition ExactArgs (n : nat) (args : list string) : bool :=
  Nat.eqb (List.length args) n.
Definition ArbitraryArgs (args : list string) : bool := true.

(** requiresAuth returns true if the command needs API authentication *)
Definition requiresAuth (cmd : Command) : bool :=
  if String.eqb (Name cmd) "show"
     && match Parent cmd with Some p => String.eqb p "config" | None => false end
  then false
  else if String.eqb (Name cmd) "set-token" || String.eqb (Name cmd) "set-default-budget"
  then false
  else true.

Definition PersistentPreRunE (http : Transport) (load : result Config.t)
           (cmd : Command) (g : Globals) : Globals * option error :=
  if String.eqb (Name cmd) "version" || String.eqb (Name cmd) "help"
     || String.eqb (Name cmd) "ai"
  then (g, None)
  else if match Parent cmd with Some p => String.eqb p "config" | None => false end
  then (g, None)
  else
    match load with
    | Err e =>
        (mkGlobals (outputFormat g) (budgetID g) (apiClient g) None,
         Some (Errorf "failed to load config" (Some e)))
    | Ok c =>
        let fmt := if String.eqb (outputFormat g) "" then Config.Format c
                   else outputFormat g in
        let fmt := if String.eqb fmt "" then "json" else fmt in
        let bid := if String.eqb (budgetID g) "" then Config.DefaultBudget c
                   else budgetID g in
        if requiresAuth cmd then
          if String.eqb (Config.Token c) "" then
            (mkGlobals fmt bid (apiClient g) (Some c),
             Some (Errorf "YNAB API token not configured. Run 'ynabctl config set-token <token>' to set it" None))
          else
            (mkGlobals fmt bid (Some (New http (Config.Token c))) (Some c), None)
        else (mkGlobals fmt bid (apiClient g) (Some c), None)
    end.

Definition noBudget : error :=
  Errorf "no budget specified. Use --budget flag or set a default with 'ynabctl config set-default-budget <id>'" None.

(** getBudgetID returns the budget ID to use, checking flag first, then
    config default *)
Definition getBudgetID (g : Globals) : result string :=
  if negb (String.eqb (budgetID g) "") then Ok (budgetID g)
  else
    match cfg g with
    | Some c =>
        if negb (String.eqb (Config.DefaultBudget c) "") then Ok (Config.DefaultBudget c)
        else Err noBudget
    | None => Err noBudget
    end.

(** getOutputFormat returns the output format to use *)
Definition getOutputFormat (g : Globals) : string :=
  if negb (String.eqb (outputFormat g) "") then outputFormat g else "json".

(** *** Helpers of the model *)

Definition lift {A : Type} (r : result A) : IO A := fun log => (r, log).

(** if err != nil { return fmt.Errorf(msg + ": %w", err) } *)
Definition wrap {A : Type} (msg : string) (m : IO A) : IO A :=
  fun log =>
    match m log with
    | (Err e, log') => (Err (Errorf msg (Some e)), log')
    | r => r
    end.

(** A call of a method of apiClient; the nil client of a run without
    set-up is a run-time panic. *)
Definition call {A : Type} (g : Globals) (op : Client -> IO A) : IO A :=
  match apiClient g with
  | Some c => op c
  | None => fail (LibError "runtime")
  end.

(** formatter := output.New(getOutputFormat()); formatter.Print(v) *)
Definition print (g : Globals) (v : Output.Value) : IO Output.Printed :=
  ret (Output.Print (Output.New (getOutputFormat g)) v).

(** args[0] of a command whose arguments were checked. *)
Definition arg0 (args : list string) : string := hd "" args.

(** *** The sub-commands *)

Definition userCmd : Command :=
  mkCommand "user" (Some "ynabctl") ArbitraryArgs (fun g f now args =>
    user <- wrap "failed to get user" (call g GetUser) ;;
    print g (Output.VUser user)).

Definition budgetsListCmd : Command :=
  mkCommand "list" (Some "budgets") ArbitraryArgs (fun g f now args =>
    budgets <- wrap "failed to get budgets" (call g GetBudgets) ;;
    print g (Output.VBudgets budgets)).

Definition budgetsGetCmd : Command :=
  mkCommand "get [budget-id]" (Some "budgets") ArbitraryArgs (fun g f now args =>
    id <- match args with
          | a :: _ => ret a
          | [] => lift (getBudgetID g)
          end ;;
    budget <- wrap "failed to get budget" (call g (fun c => GetBudget c id)) ;;
    print g (Output.VBudget budget)).

Definition budgetsSettingsCmd : Command :=
  mkCommand "settings [budget-id]" (Some "budgets") ArbitraryArgs (fun g f now args =>
    id <- match args with
          | a :: _ => ret a
          | [] => lift (getBudgetID g)
          end ;;
    settings <- wrap "failed to get budget settings"
                  (call g (fun c => GetBudgetSettings c id)) ;;
    print g (Output.VBudgetSettings settings)).

Definition accountsListCmd : Command :=
  mkCommand "list" (Some "accounts") ArbitraryArgs (fun g f now args =>
    id <- lift (getBudgetID g) ;;
    accounts <- wrap "failed to get accounts" (call g (fun c => GetAccounts c id)) ;;
    print g (Output.VAccounts accounts)).

Definition accountsGetCmd : Command :=
  mkCommand "get <account-id>" (Some "accounts") (ExactArgs 1) (fun g f now args =>
    budgetID <- lift (getBudgetID g) ;;
    account <- wrap "failed to get account"
                 (call g (fun c => GetAccount c budgetID (arg0 args))) ;;
    print g (Output.VAccount account)).

Definition accountsCreateCmd : Command :=
  mkCommand "create" (Some "accounts") ArbitraryArgs (fun g f now args =>
    budgetID <- lift (getBudgetID g) ;;
    if String.eqb (accountName f) "" then
      fail (Errorf "account name is required (--name)" None)
    else if String.eqb (accountType f) "" then
      fail (Errorf "account type is required (--type)" None)
    else
      let balance := AmountToMilliunits (accountBalance f) in
      account <- wrap "failed to create account"
                   (call g (fun c => CreateAccount c budgetID (accountName f)
                                       (accountType f) balance)) ;;
      print g (Output.VAccount account)).

Definition categoriesListCmd : Command :=
  mkCommand "list" (Some "categories") ArbitraryArgs (fun g f now args =>
    id <- lift (getBudgetID g) ;;
    categories <- wrap "failed to get categories"
                    (call g (fun c => GetCategories c id)) ;;
    print g (Output.VCategoryGroups categories)).

Definition categoriesGetCmd : Command :=
  mkCommand "get <category-id>" (Some "categories") (ExactArgs 1) (fun g f now args =>
    budgetID <- lift (getBudgetID g) ;;
    category <- wrap "failed to get category"
                  (call g (fun c => GetCategory c budgetID (arg0 args))) ;;
    print g (Output.VCategory category)).

Definition categoriesUpdateCmd : Command :=
  mkCommand "update <category-id>" (Some "categories") (ExactArgs 1)
    (fun g f now args =>
    budgetID <- lift (getBudgetID g) ;;
    let month := categoryMonth f in
    let month := if String.eqb month "" || String.eqb month "current"
                 then GoTime.Format now "2006-01-01" else month in
    let budgeted := AmountToMilliunits (categoryBudgeted f) in
    category <- wrap "failed to update category"
                  (call g (fun c => UpdateCategory c budgetID (arg0 args) month budgeted)) ;;
    print g (Output.VCategory category)).

Definition monthsListCmd : Command :=
  mkCommand "list" (Some "months") ArbitraryArgs (fun g f now args =>
    budgetID <- lift (getBudgetID g) ;;
    months <- wrap "failed to get months" (call g (fun c => GetMonths c budgetID)) ;;
    print g (Output.VMonths months)).

Definition monthsGetCmd : Command :=
  mkCommand "get [month]" (Some "months") ArbitraryArgs (fun g f now args =>
    budgetID <- lift (getBudgetID g) ;;
    let month := match args with
                 | a :: _ => a
                 | [] => "current"
                 end in
    let month :=
      if String.eqb month "current" then
        (* Use first day of current month *)
        GoTime.Format (GoTime.Date (GoTime.Year now) (GoTime.Month now) 1) "2006-01-02"
      else month in
    monthData <- wrap "failed to get month"
                   (call g (fun c => GetMonth c budgetID month)) ;;
    print g (Output.VMonth monthData)).

Definition payeesListCmd : Command :=
  mkCommand "list" (Some "payees") ArbitraryArgs (fun g f now args =>
    budgetID <- lift (getBudgetID g) ;;
    payees <- wrap "failed to get payees" (call g (fun c => GetPayees c budgetID)) ;;
    print g (Output.VPayees payees)).

Definition payeesGetCmd : Command :=
  mkCommand "get <payee-id>" (Some "payees") (ExactArgs 1) (fun g f now args =>
    budgetID <- lift (getBudgetID g) ;;
    payee <- wrap "failed to get payee"
               (call g (fun c => GetPayee c budgetID (arg0 args))) ;;
    print g (Output.VPayee payee)).

Definition payeesUpdateCmd : Command :=
  mkCommand "update <payee-id>" (Some "payees") (ExactArgs 1) (fun g f now args =>
    budgetID <- lift (getBudgetID g) ;;
    if String.eqb (payeeNewName f) "" then
      fail (Errorf "new name is required (--name)" None)
    else
      payee <- wrap "failed to update payee"
                 (call g (fun c => UpdatePayee c budgetID (arg0 args) (payeeNewName f))) ;;
      print g (Output.VPayee payee)).

Definition transactionsListCmd : Command :=
  mkCommand "list" (Some "transactions") ArbitraryArgs (fun g f now args =>
    budgetID <- lift (getBudgetID g) ;;
    (* Use specific endpoint if filtering by account, category, or payee *)
    transactions <-
      wrap "failed to get transactions"
        (if negb (String.eqb (txnAccountID f) "") then
           call g (fun c => GetTransactionsByAccount c budgetID (txnAccountID f)
                              (txnSinceDate f))
         else if negb (String.eqb (txnCategoryID f) "") then
           call g (fun c => GetTransactionsByCategory c budgetID (txnCategoryID f)
                              (txnSinceDate f))
         else if negb (String.eqb (txnPayeeID f) "") then
           call g (fun c => GetTransactionsByPayee c budgetID (txnPayeeID f)
                              (txnSinceDate f))
         else
           let filter := mkTransactionFilter (txnSinceDate f) (txnType f) "" "" "" in
           call g (fun c => GetTransactions c budgetID (Some filter))) ;;
    print g (Output.VTransactions transactions)).

Definition transactionsGetCmd : Command :=
  mkCommand "get <transaction-id>" (Some "transactions") (ExactArgs 1)
    (fun g f now args =>
    budgetID <- lift (getBudgetID g) ;;
    transaction <- wrap "failed to get transaction"
                     (call g (fun c => GetTransaction c budgetID (arg0 args))) ;;
    print g (Output.VTransaction transaction)).

Definition transactionsCreateCmd : Command :=
  mkCommand "create" (Some "transactions") ArbitraryArgs (fun g f now args =>
    budgetID <- lift (getBudgetID g) ;;
    if String.eqb (newTxnAccountID f) "" then
      fail (Errorf "account ID is required (--account)" None)
    else
      let date := newTxnDate f in
      let date := if String.eqb date "" then GoTime.Format now "2006-01-02" else date in
      let txn := SaveTransaction.mk (newTxnAccountID f) date
                   (AmountToMilliunits (newTxnAmount f)) (newTxnPayeeID f)
                   (newTxnPayeeName f) (newTxnCategoryID f) (newTxnMemo f)
                   (newTxnCleared f) (newTxnApproved f) (newTxnFlagColor f) "" in
      transaction <- wrap "failed to create transaction"
                       (call g (fun c => CreateTransaction c budgetID txn)) ;;
      print g (Output.VTransaction transaction)).

(** The payload of the update command: the values of the existing
    transaction, then one assignment per flag the command line set. *)
Definition updatePayload (f : Flags) (existing : Transaction.t) : SaveTransaction.t :=
  (* Build update with existing values, override with any provided flags *)
  let txn := SaveTransaction.mk
               (Transaction.AccountID existing) (Transaction.Date existing)
               (Transaction.Amount existing) (Transaction.PayeeID existing)
               "" (Transaction.CategoryID existing) (Transaction.Memo existing)
               (Transaction.Cleared existing) (Transaction.Approved existing)
               (Transaction.FlagColor existing) "" in
  let txn := if Changed f "account"
             then SaveTransaction.setAccountID (newTxnAccountID f) txn else txn in
  let txn := if Changed f "date"
             then SaveTransaction.setDate (newTxnDate f) txn else txn in
  let txn := if Changed f "amount"
             then SaveTransaction.setAmount (AmountToMilliunits (newTxnAmount f)) txn
             else txn in
  let txn := if Changed f "payee-id"
             then SaveTransaction.setPayeeID (newTxnPayeeID f) txn else txn in
  let txn := if Changed f "payee-name"
             then SaveTransaction.setPayeeName (newTxnPayeeName f) txn else txn in
  let txn := if Changed f "category"
             then SaveTransaction.setCategoryID (newTxnCategoryID f) txn else txn in
  let txn := if Changed f "memo"
             then SaveTransaction.setMemo (newTxnMemo f) txn else txn in
  let txn := if Changed f "cleared"
             then SaveTransaction.setCleared (newTxnCleared f) txn else txn in
  let txn := if Changed f "approved"
             then SaveTransaction.setApproved (newTxnApproved f) txn else txn in
  let txn := if Changed f "flag"
             then SaveTransaction.setFlagColor (newTxnFlagColor f) txn else txn in
  txn.

Definition transactionsUpdateCmd : Command :=
  mkCommand "update <transaction-id>" (Some "transactions") (ExactArgs 1)
    (fun g f now args =>
    budgetID <- lift (getBudgetID g) ;;
    (* First get the existing transaction *)
    existing <- wrap "failed to get existing transaction"
                  (call g (fun c => GetTransaction c budgetID (arg0 args))) ;;
    let txn := updatePayload f existing in
    transaction <- wrap "failed to update transaction"
                     (call g (fun c => UpdateTransaction c budgetID (arg0 args) txn)) ;;
    print g (Output.VTransaction transaction)).

Definition transactionsDeleteCmd : Command :=
  mkCommand "delete <transaction-id>" (Some "transactions") (ExactArgs 1)
    (fun g f now args =>
    budgetID <- lift (getBudgetID g) ;;
    transaction <- wrap "failed to delete transaction"
                     (call g (fun c => DeleteTransaction c budgetID (arg0 args))) ;;
    print g (Output.VTransaction transaction)).

Definition scheduledListCmd : Command :=
  mkCommand "list" (Some "scheduled") ArbitraryArgs (fun g f now args =>
    budgetID <- lift (getBudgetID g) ;;
    transactions <- wrap "failed to get scheduled transactions"
                      (call g (fun c => GetScheduledTransactions c budgetID)) ;;
    print g (Output.VScheduledTransactions transactions)).

Definition scheduledGetCmd : Command :=
  mkCommand "get <scheduled-transaction-id>" (Some "scheduled") (ExactArgs 1)
    (fun g f now args =>
    budgetID <- lift (getBudgetID g) ;;
    transaction <- wrap "failed to get scheduled transaction"
                     (call g (fun c => GetScheduledTransaction c budgetID (arg0 args))) ;;
    print g (Output.VScheduledTransaction transaction)).

Definition scheduledCreateCmd : Command :=
  mkCommand "create" (Some "scheduled") ArbitraryArgs (fun g f now args =>
    budgetID <- lift (getBudgetID g) ;;
    if String.eqb (schedAccountID f) "" then
      fail (Errorf "account ID is required (--account)" None)
    else if String.eqb (schedFrequency f) "" then
      fail (Errorf "frequency is required (--frequency)" None)
    else
      let date := schedDate f in
      let date := if String.eqb date "" then GoTime.Format now "2006-01-02" else date in
      let st := SaveScheduledTransaction.mk (schedAccountID f) date (schedFrequency f)
                  (AmountToMilliunits (schedAmount f)) (schedPayeeID f)
                  (schedPayeeName f) (schedCategoryID f) (schedMemo f)
                  (schedFlagColor f) in
      transaction <- wrap "failed to create scheduled transaction"
                       (call g (fun c => CreateScheduledTransaction c budgetID st)) ;;
      print g (Output.VScheduledTransaction transaction)).

(** The payload of the scheduled update: the values of the existing
    scheduled transaction, each replaced by its flag when the command
    line set the flag (the assignments of the source, field by field). *)
Definition scheduledUpdatePayload (f : Flags) (existing : ScheduledTransaction.t)
  : SaveScheduledTransaction.t :=
  let pick {A : Type} (flag : string) (new old : A) : A :=
    if Changed f flag then new else old in
  SaveScheduledTransaction.mk
    (pick "account" (schedAccountID f) (ScheduledTransaction.AccountID existing))
    (pick "date" (schedDate f) (ScheduledTransaction.DateFirst existing))
    (pick "frequency" (schedFrequency f) (ScheduledTransaction.Frequency existing))
    (pick "amount" (AmountToMilliunits (schedAmount f))
          (ScheduledTransaction.Amount existing))
    (pick "payee-id" (schedPayeeID f) (ScheduledTransaction.PayeeID existing))
    (pick "payee-name" (schedPayeeName f) "")
    (pick "category" (schedCategoryID f) (ScheduledTransaction.CategoryID existing))
    (pick "memo" (schedMemo f) (ScheduledTransaction.Memo existing))
    (pick "flag" (schedFlagColor f) (ScheduledTransaction.FlagColor existing)).

Definition scheduledUpdateCmd : Command :=
  mkCommand "update <scheduled-transaction-id>" (Some "scheduled") (ExactArgs 1)
    (fun g f now args =>
    budgetID <- lift (getBudgetID g) ;;
    (* Get existing scheduled transaction *)
    existing <- wrap "failed to get existing scheduled transaction"
                  (call g (fun c => GetScheduledTransaction c budgetID (arg0 args))) ;;
    let st := scheduledUpdatePayload f existing in
    transaction <- wrap "failed to update scheduled transaction"
                     (call g (fun c => UpdateScheduledTransaction c budgetID
                                         (arg0 args) st)) ;;
    print g (Output.VScheduledTransaction transaction)).

Definition scheduledDeleteCmd : Command :=
  mkCommand "delete <scheduled-transaction-id>" (Some "scheduled") (ExactArgs 1)
    (fun g f now args =>
    budgetID <- lift (getBudgetID g) ;;
    transaction <- wrap "failed to delete scheduled transaction"
                     (call g (fun c => DeleteScheduledTransaction c budgetID (arg0 args))) ;;
    print g (Output.VScheduledTransaction transaction)).

(** One run of the program on a sub-command, as cobra drives it: the
    check of the positional arguments, the set-up step, the body.  The
    globals start from the two persistent flags. *)
Definition Execute (http : Transport) (load : result Config.t) (cmd : Command)
           (format budget : string) (f : Flags) (now : GoTime.Time)
           (args : list string) : IO Output.Printed :=
  if negb (Args cmd args) then fail (LibError "cobra")
  else
    match PersistentPreRunE http load cmd (mkGlobals format budget None None) with
    | (_, Some e) => fail e
    | (g, None) => RunE cmd g f now args
    end.

End Cmd.

(* ================================================================== *)
(** ** Properties *)
(* ================================================================== *)

Import Json Client.

(** *** Currency conversion *)

Section Conversion.

(** A finite binary float (-1)^s * m * 2^e as a fraction of integers. *)
Definition SFnum (s : bool) (m : positive) (e : Z) : Z :=
  (if s then - Z.pos m else Z.pos m) * 2 ^ Z.max e 0.
Definition SFden (e : Z) : Z := 2 ^ Z.max (- e) 0.

Lemma SFden_pos e : 0 < SFden e.
Proof. unfold SFden. apply Z.pow_pos_nonneg; lia. Qed.

Lemma shiftl_quot (s : bool) (m : positive) (e : Z) :
  (if s then - Z.shiftl (Z.pos m) e else Z.shiftl (Z.pos m) e)
  = Z.quot (SFnum s m e) (SFden e).
Proof.
  unfold SFnum, SFden.
  destruct (Z.le_gt_cases 0 e) as [He | He].
  - rewrite (Z.max_l e 0), (Z.max_r (- e) 0) by lia.
    rewrite Z.shiftl_mul_pow2 by lia.
    change (2 ^ 0) with 1. rewrite Z.quot_1_r.
    destruct s; lia.
  - rewrite (Z.max_r e 0), (Z.max_l (- e) 0) by lia.
    change (2 ^ 0) with 1. rewrite Z.mul_1_r.
    assert (Hd : 0 < 2 ^ (- e)) by (apply Z.pow_pos_nonneg; lia).
    replace (Z.shiftl (Z.pos m) e) with (Z.shiftr (Z.pos m) (- e))
      by (unfold Z.shiftr; f_equal; lia).
    rewrite Z.shiftr_div_pow2 by lia.
    destruct s.
    + rewrite Z.quot_opp_l by lia.
      rewrite Z.quot_div_nonneg by lia. reflexivity.
    + rewrite Z.quot_div_nonneg by lia. reflexivity.
Qed.

(** C3.  AmountToMilliunits multiplies by 1000 in float64 and drops the
    fraction of the product: on 0.0, -50.00 and 12.34 it gives 0, -50000
    and 12340, and whenever the product is a finite float num/den whose
    integer part fits an int64, the result is the quotient of num by den
    rounded towards zero. *)
Theorem AmountToMilliunits_truncates :
  (AmountToMilliunits 0.0 = 0
   /\ AmountToMilliunits (-50.00) = -50000
   /\ AmountToMilliunits 12.34 = 12340)
  /\ (forall amount, Prim2SF (amount * 1000)%float = S754_zero false
                     \/ Prim2SF (amount * 1000)%float = S754_zero true ->
                     AmountToMilliunits amount = 0)
  /\ (forall amount s m e,
         Prim2SF (amount * 1000)%float = S754_finite s m e ->
         inInt64 (Z.quot (SFnum s m e) (SFden e)) = true ->
         AmountToMilliunits amount = Z.quot (SFnum s m e) (SFden e)).
Proof.
  split; [ repeat split; vm_compute; reflexivity | split ].
  - intros amount [H | H]; unfold AmountToMilliunits, int64, trunc;
      rewrite H; reflexivity.
  - intros amount s m e H Hr.
    unfold AmountToMilliunits, int64, trunc. rewrite H.
    cbv zeta. rewrite shiftl_quot, Hr. reflexivity.
Qed.

(** The general clause of C3 at 12.34, whose product with 1000 is the
    float 6783986743377920 * 2^-39 = 12340. *)
Lemma AmountToMilliunits_truncates_witness :
  AmountToMilliunits 12.34
  = Z.quot (SFnum false 6783986743377920 (-39)) (SFden (-39)).
Proof.
  apply (proj2 (proj2 AmountToMilliunits_truncates) 12.34%float false
           6783986743377920%positive (-39));
    vm_compute; reflexivity.
Defined.

(** An amount written in hundredths: the float64 nearest to k/100. *)
Definition hundredths (k : Z) : float := (float64 k / 100)%float.

Definition roundTrip (a : float) : float :=
  MilliunitsToAmount (AmountToMilliunits a).

(** C6, as stated, fails: 2.01 is 201 hundredths; its product with 1000
    is the float just below 2010, which AmountToMilliunits cuts to 2009,
    and 2009 milliunits are 2.009. *)
Lemma roundTrip_counterexample :
  hundredths 201 = 2.01%float
  /\ AmountToMilliunits 2.01 = 2009
  /\ roundTrip 2.01 = 2.009%float
  /\ PrimFloat.eqb (roundTrip 2.01) 2.01 = false.
Proof. repeat split; vm_compute; reflexivity. Qed.

(** What the round trip does on k hundredths: either the conversion to
    milliunits hits 10k and the round trip is exact, or it lands one
    milliunit nearer to zero and the round trip differs. *)
Definition roundTripCheck (k : Z) : bool :=
  let a := hundredths k in
  let m := AmountToMilliunits a in
  if m =? 10 * k then PrimFloat.eqb (roundTrip a) a
  else (m =? 10 * k - Z.sgn k) && negb (PrimFloat.eqb (roundTrip a) a).

Fixpoint roundTripCheckFrom (n : nat) (k : Z) : bool :=
  match n with
  | O => true
  | S n' => roundTripCheck k && roundTripCheckFrom n' (k + 1)
  end.

Lemma roundTripCheckFrom_spec n :
  forall k0, roundTripCheckFrom n k0 = true ->
  forall k, k0 <= k < k0 + Z.of_nat n -> roundTripCheck k = true.
Proof.
  induction n as [| n IH]; intros k0 H k Hk.
  - simpl in Hk. lia.
  - cbn [roundTripCheckFrom] in H. apply andb_prop in H as [H1 H2].
    destruct (Z.eq_dec k k0) as [-> | Hne]; [ exact H1 | ].
    apply (IH (k0 + 1) H2). lia.
Qed.

Definition hundredthsBound : Z := 100000.

Lemma roundTripCheck_all :
  roundTripCheckFrom (Z.to_nat (2 * hundredthsBound + 1)) (- hundredthsBound) = true.
Proof. vm_compute. reflexivity. Qed.

(** C6, amended.  For every amount of k hundredths between -1000.00 and
    1000.00, the round trip gives the amount back exactly when
    AmountToMilliunits gives 10k; otherwise AmountToMilliunits gives the
    milliunit before 10k (towards zero) and the round trip gives a
    different amount. *)
Theorem roundTrip_hundredths (k : Z) :
  - hundredthsBound <= k <= hundredthsBound ->
  (AmountToMilliunits (hundredths k) = 10 * k
   /\ PrimFloat.eqb (roundTrip (hundredths k)) (hundredths k) = true)
  \/ (AmountToMilliunits (hundredths k) = 10 * k - Z.sgn k
      /\ k <> 0
      /\ PrimFloat.eqb (roundTrip (hundredths k)) (hundredths k) = false).
Proof.
  intros Hk.
  assert (H : roundTripCheck k = true).
  { apply (roundTripCheckFrom_spec _ _ roundTripCheck_all).
    rewrite Z2Nat.id by (unfold hundredthsBound; lia). lia. }
  unfold roundTripCheck in H. cbv zeta in H.
  destruct (AmountToMilliunits (hundredths k) =? 10 * k) eqn:E.
  - left. apply Z.eqb_eq in E. split; assumption.
  - right. apply andb_prop in H as [H1 H2].
    apply Z.eqb_eq in H1. apply Z.eqb_neq in E.
    repeat split.
    + exact H1.
    + intros ->. apply E. rewrite H1. reflexivity.
    + apply negb_true_iff in H2. exact H2.
Qed.

Lemma roundTrip_hundredths_witness :
  (AmountToMilliunits (hundredths 1234) = 10 * 1234
   /\ PrimFloat.eqb (roundTrip (hundredths 1234)) (hundredths 1234) = true)
  \/ (AmountToMilliunits (hundredths 1234) = 10 * 1234 - Z.sgn 1234
      /\ 1234 <> 0
      /\ PrimFloat.eqb (roundTrip (hundredths 1234)) (hundredths 1234) = false).
Proof.
  apply (roundTrip_hundredths 1234). unfold hundredthsBound. lia.
Defined.

End Conversion.

(** *** The client: error mapping and envelopes *)

Section ClientProperties.

(** The mocked transport of the specification: every request gets the
    same response. *)
Definition mock (status : Z) (body : string) : Transport :=
  fun _ _ => Response status body.

(** Every operation of the client, with its arguments. *)
Inductive Call : Type :=
| CGetUser
| CGetBudgets
| CGetBudget (budgetID : string)
| CGetBudgetSettings (budgetID : string)
| CGetAccounts (budgetID : string)
| CGetAccount (budgetID accountID : string)
| CCreateAccount (budgetID name accountType : string) (balance : Z)
| CGetCategories (budgetID : string)
| CGetCategory (budgetID categoryID : string)
| CUpdateCategory (budgetID categoryID month : string) (budgeted : Z)
| CGetPayees (budgetID : string)
| CGetPayee (budgetID payeeID : string)
| CUpdatePayee (budgetID payeeID name : string)
| CGetTransactions (budgetID : string) (filter : option TransactionFilter)
| CGetTransactionsByAccount (budgetID accountID sinceDate : string)
| CGetTransactionsByCategory (budgetID categoryID sinceDate : string)
| CGetTransactionsByPayee (budgetID payeeID sinceDate : string)
| CGetTransaction (budgetID transactionID : string)
| CCreateTransaction (budgetID : string) (txn : SaveTransaction.t)
| CUpdateTransaction (budgetID transactionID : string) (txn : SaveTransaction.t)
| CDeleteTransaction (budgetID transactionID : string)
| CGetScheduledTransactions (budgetID : string)
| CGetScheduledTransaction (budgetID id : string)
| CCreateScheduledTransaction (budgetID : string) (st : SaveScheduledTransaction.t)
| CUpdateScheduledTransaction (budgetID id : string) (st : SaveScheduledTransaction.t)
| CDeleteScheduledTransaction (budgetID id : string)
| CGetMonths (budgetID : string)
| CGetMonth (budgetID month : string).

Definition as_ {A : Type} (inj : A -> Output.Value) (m : IO A) : IO Output.Value :=
  v <- m ;; ret (inj v).

Definition perform (c : Client) (call : Call) : IO Output.Value :=
  match call with
  | CGetUser => as_ Output.VUser (GetUser c)
  | CGetBudgets => as_ Output.VBudgets (GetBudgets c)
  | CGetBudget b => as_ Output.VBudget (GetBudget c b)
  | CGetBudgetSettings b => as_ Output.VBudgetSettings (GetBudgetSettings c b)
  | CGetAccounts b => as_ Output.VAccounts (GetAccounts c b)
  | CGetAccount b a => as_ Output.VAccount (GetAccount c b a)
  | CCreateAccount b n t x => as_ Output.VAccount (CreateAccount c b n t x)
  | CGetCategories b => as_ Output.VCategoryGroups (GetCategories c b)
  | CGetCategory b k => as_ Output.VCategory (GetCategory c b k)
  | CUpdateCategory b k m x => as_ Output.VCategory (UpdateCategory c b k m x)
  | CGetPayees b => as_ Output.VPayees (GetPayees c b)
  | CGetPayee b p => as_ Output.VPayee (GetPayee c b p)
  | CUpdatePayee b p n => as_ Output.VPayee (UpdatePayee c b p n)
  | CGetTransactions b f => as_ Output.VTransactions (GetTransactions c b f)
  | CGetTransactionsByAccount b a s =>
      as_ Output.VTransactions (GetTransactionsByAccount c b a s)
  | CGetTransactionsByCategory b k s =>
      as_ Output.VTransactions (GetTransactionsByCategory c b k s)
  | CGetTransactionsByPayee b p s =>
      as_ Output.VTransactions (GetTransactionsByPayee c b p s)
  | CGetTransaction b t => as_ Output.VTransaction (GetTransaction c b t)
  | CCreateTransaction b x => as_ Output.VTransaction (CreateTransaction c b x)
  | CUpdateTransaction b t x => as_ Output.VTransaction (UpdateTransaction c b t x)
  | CDeleteTransaction b t => as_ Output.VTransaction (DeleteTransaction c b t)
  | CGetScheduledTransactions b =>
      as_ Output.VScheduledTransactions (GetScheduledTransactions c b)
  | CGetScheduledTransaction b i =>
      as_ Output.VScheduledTransaction (GetScheduledTransaction c b i)
  | CCreateScheduledTransaction b x =>
      as_ Output.VScheduledTransaction (CreateScheduledTransaction c b x)
  | CUpdateScheduledTransaction b i x =>
      as_ Output.VScheduledTransaction (UpdateScheduledTransaction c b i x)
  | CDeleteScheduledTransaction b i =>
      as_ Output.VScheduledTransaction (DeleteScheduledTransaction c b i)
  | CGetMonths b => as_ Output.VMonths (GetMonths c b)
  | CGetMonth b m => as_ Output.VMonth (GetMonth c b m)
  end.

(** The list operations: the key of the resource under "data" and the
    empty list of the operation's type. *)
Definition listResource (call : Call) : option (string * Output.Value) :=
  match call with
  | CGetBudgets => Some ("budgets", Output.VBudgets [])
  | CGetAccounts _ => Some ("accounts", Output.VAccounts [])
  | CGetCategories _ => Some ("category_groups", Output.VCategoryGroups [])
  | CGetPayees _ => Some ("payees", Output.VPayees [])
  | CGetTransactions _ _ | CGetTransactionsByAccount _ _ _
  | CGetTransactionsByCategory _ _ _ | CGetTransactionsByPayee _ _ _ =>
      Some ("transactions", Output.VTransactions [])
  | CGetScheduledTransactions _ =>
      Some ("scheduled_transactions", Output.VScheduledTransactions [])
  | CGetMonths _ => Some ("months", Output.VMonths [])
  | _ => None
  end.

(** The error of a response with status 400 or more. *)
Definition statusError (status : Z) (body : string) : error :=
  match Unmarshal ErrorResponse None body with
  | Some (Some e) => APIError e
  | _ => Errorf ("API error: " ++ body ++ " (status " ++ Strconv.Itoa status ++ ")") None
  end.

Lemma doRequest_status_error c method path payload log status body :
  (forall req, httpClient c log req = Response status body) ->
  400 <= status ->
  doRequest c method path payload log
  = (Err (statusError status body),
     (log ++ [newRequest c method path payload])%list).
Proof.
  intros H Hs. unfold doRequest. rewrite H.
  apply Z.leb_le in Hs. rewrite Hs. unfold statusError.
  destruct (Unmarshal ErrorResponse None body) as [[e |] |]; reflexivity.
Qed.

Lemma op_status_error {A : Type} c method path payload (k : string -> IO A)
      (inj : A -> Output.Value) log status body :
  (forall req, httpClient c log req = Response status body) ->
  400 <= status ->
  fst (as_ inj (bind (doRequest c method path payload) k) log)
  = Err (statusError status body).
Proof.
  intros H Hs. unfold as_, bind.
  rewrite (doRequest_status_error _ _ _ _ _ _ _ H Hs). reflexivity.
Qed.

Ltac unfold_ops :=
  unfold perform, as_, GetUser, GetBudgets, GetBudget, GetBudgetSettings,
    GetAccounts, GetAccount, CreateAccount, GetCategories, GetCategory,
    UpdateCategory, GetPayees, GetPayee, UpdatePayee, GetTransactions,
    GetTransactionsByAccount, GetTransactionsByCategory, GetTransactionsByPayee,
    GetTransaction, CreateTransaction, UpdateTransaction, DeleteTransaction,
    GetScheduledTransactions, GetScheduledTransaction, CreateScheduledTransaction,
    UpdateScheduledTransaction, DeleteScheduledTransaction, GetMonths, GetMonth.

(** C4.  When the response has a status of 400 or more, doRequest fails,
    and so does every operation of the client, with the same error: the
    API error decoded from the body when the body decodes as an error
    envelope whose error object is present, and otherwise the generic
    error made of the raw body and the status code. *)
Theorem error_status_fails (c : Client) (call : Call) (log : list Request)
        (status : Z) (body : string) :
  (forall req, httpClient c log req = Response status body) ->
  400 <= status ->
  (forall method path payload,
      fst (doRequest c method path payload log) = Err (statusError status body))
  /\ fst (perform c call log) = Err (statusError status body)
  /\ (forall e, Unmarshal ErrorResponse None body = Some (Some e) ->
                statusError status body = APIError e)
  /\ (Unmarshal ErrorResponse None body = None
      \/ Unmarshal ErrorResponse None body = Some None ->
      statusError status body
      = Errorf ("API error: " ++ body ++ " (status " ++ Strconv.Itoa status ++ ")") None).
Proof.
  intros H Hs. repeat split.
  - intros. rewrite (doRequest_status_error _ _ _ _ _ _ _ H Hs). reflexivity.
  - destruct call; unfold_ops; cbv zeta; apply op_status_error; assumption.
  - intros e He. unfold statusError. rewrite He. reflexivity.
  - intros [He | He]; unfold statusError; rewrite He; reflexivity.
Qed.

(** The example of the specification: status 401 with an error envelope. *)
Definition unauthorizedBody : string :=
  jsonText "{'error':{'id':'401','name':'unauthorized','detail':'bad token'}}".

Lemma error_status_fails_witness :
  fst (perform (New (mock 401 unauthorizedBody) "secret") CGetBudgets [])
  = Err (APIError (Error.mk "401" "unauthorized" "bad token")).
Proof.
  pose proof (error_status_fails (New (mock 401 unauthorizedBody) "secret")
                CGetBudgets [] 401 unauthorizedBody
                (fun _ => eq_refl) ltac:(lia)) as [_ [H _]].
  exact H.
Defined.

(** The example of the specification: the envelope without any resource. *)
Definition emptyDataBody : string := jsonText "{'data':{}}".

(** C1, as stated, fails: on status 200 and the body {"data":{}} the
    list-budgets operation succeeds with the empty list. *)
Lemma GetBudgets_missing_key_counterexample :
  GetBudgets (New (mock 200 emptyDataBody) "secret") []
  = (Ok [], [newRequest (New (mock 200 emptyDataBody) "secret") "GET" "/budgets" None]).
Proof. vm_compute. reflexivity. Qed.

(** No member of the object is named [key]. *)
Definition lacksKey (key : string) (ms : list (string * json)) : bool :=
  forallb (fun kv => negb (keyMatch key (fst kv))) ms.

(** A document that holds no resource under [key]: null or an object in
    which every member named "data" is null or an object without a
    member named [key]. *)
Definition lacksResource (key : string) (j : json) : bool :=
  match j with
  | JNull => true
  | JObj ms =>
      forallb (fun kv =>
                 if keyMatch "data" (fst kv) then
                   match snd kv with
                   | JNull => true
                   | JObj ms' => lacksKey key ms'
                   | _ => false
                   end
                 else true) ms
  | _ => false
  end.

Lemma field_lacksKey {T : Type} (key : string) (d : decoder T) ms (cur : T) :
  lacksKey key ms = true -> field key d ms cur = Some cur.
Proof.
  induction ms as [| [k v] ms IH]; intros H; [ reflexivity | ].
  cbn [lacksKey forallb fst] in H. apply andb_prop in H as [H1 H2].
  cbn [field]. apply negb_true_iff in H1. rewrite H1. apply IH, H2.
Qed.

Lemma decData_lacksResource {T : Type} (key : string) (d : decoder T) j (cur : T) :
  lacksResource key j = true -> decData key d j cur = Some cur.
Proof.
  destruct j as [| | | | | ms]; cbn [lacksResource]; try discriminate;
    [ reflexivity | ].
  unfold decData. cbn [decStruct].
  induction ms as [| [k v] ms IH]; intros H; [ reflexivity | ].
  cbn [forallb fst snd] in H. apply andb_prop in H as [H1 H2].
  cbn [field]. destruct (keyMatch "data" k).
  - destruct v as [| | | | | ms']; try discriminate; cbn [decStruct obind].
    + apply IH, H2.
    + rewrite (field_lacksKey key d ms' cur H1). cbn [obind]. apply IH, H2.
  - apply IH, H2.
Qed.

Lemma doRequest_success c method path payload log status body :
  (forall req, httpClient c log req = Response status body) ->
  status < 400 ->
  doRequest c method path payload log
  = (Ok body, (log ++ [newRequest c method path payload])%list).
Proof.
  intros H Hs. unfold doRequest. rewrite H.
  apply Z.leb_gt in Hs. rewrite Hs. reflexivity.
Qed.

Lemma op_empty {T : Type} c method path payload (key : string) (d : decoder T)
      (zero : T) (inj : T -> Output.Value) log status body j :
  (forall req, httpClient c log req = Response status body) ->
  status < 400 ->
  parse body = Some j ->
  lacksResource key j = true ->
  fst (as_ inj (bind (doRequest c method path payload)
                     (parseResponse (decData key d) zero)) log)
  = Ok (inj zero).
Proof.
  intros H Hs Hp Hl. unfold as_, bind.
  rewrite (doRequest_success _ _ _ _ _ _ _ H Hs).
  unfold parseResponse, Unmarshal. rewrite Hp. cbn [obind].
  rewrite (decData_lacksResource key d j zero Hl). reflexivity.
Qed.

Lemma op_syntax_error {T : Type} c method path payload (d : decoder T)
      (zero : T) (inj : T -> Output.Value) log status body :
  (forall req, httpClient c log req = Response status body) ->
  status < 400 ->
  parse body = None ->
  fst (as_ inj (bind (doRequest c method path payload) (parseResponse d zero)) log)
  = Err (Errorf "failed to parse response" (Some (LibError "encoding/json"))).
Proof.
  intros H Hs Hp. unfold as_, bind.
  rewrite (doRequest_success _ _ _ _ _ _ _ H Hs).
  unfold parseResponse, Unmarshal. rewrite Hp. reflexivity.
Qed.

(** C1, amended.  For every list operation, a response with a status
    below 400 whose body is valid JSON but holds nothing under the
    expected key of "data" makes the operation succeed with the empty
    list; the decode error is what every operation reports when the body
    is not valid JSON. *)
Theorem missing_key_gives_empty_list (c : Client) (call : Call)
        (log : list Request) (status : Z) (body : string) :
  (forall req, httpClient c log req = Response status body) ->
  status < 400 ->
  (forall key empty j,
      listResource call = Some (key, empty) ->
      parse body = Some j ->
      lacksResource key j = true ->
      fst (perform c call log) = Ok empty)
  /\ (parse body = None ->
      fst (perform c call log)
      = Err (Errorf "failed to parse response" (Some (LibError "encoding/json")))).
Proof.
  intros H Hs. split.
  - intros key empty j Hr Hp Hl.
    destruct call; cbn [listResource] in Hr; try discriminate;
      injection Hr as <- <-; unfold_ops; cbv zeta;
      eapply op_empty; eassumption.
  - intros Hp. destruct call; unfold_ops; cbv zeta;
      eapply op_syntax_error; eassumption.
Qed.

Lemma missing_key_gives_empty_list_witness :
  fst (perform (New (mock 200 emptyDataBody) "secret")
               (CGetTransactionsByAccount "b1" "a1" "2024-01-01") [])
  = Ok (Output.VTransactions []).
Proof.
  pose proof (missing_key_gives_empty_list
                (New (mock 200 emptyDataBody) "secret")
                (CGetTransactionsByAccount "b1" "a1" "2024-01-01") [] 200
                emptyDataBody (fun _ => eq_refl) ltac:(lia)) as [H _].
  apply (H "transactions" (Output.VTransactions []) (JObj [("data", JObj [])]));
    reflexivity.
Defined.

End ClientProperties.

(** *** The renderer *)

Section Renderer.

Import Output.

Lemma Print_json (fmt : string) (data : Value) :
  fmt <> "table" -> Print (New fmt) data = JSON data.
Proof.
  intros H. unfold Print, New, format.
  destruct (String.eqb_spec fmt "table") as [E | _]; [ contradiction | reflexivity ].
Qed.

Lemma Print_table_fallback (v : json) :
  Print (New "table") (VOther v) = JSON (VOther v).
Proof. reflexivity. Qed.

(** The rows of the category table come from the groups and categories
    that are neither hidden nor deleted. *)
Definition shownGroups (v : list CategoryGroup.t) : list CategoryGroup.t :=
  map (fun g => CategoryGroup.mk (CategoryGroup.ID g) (CategoryGroup.Name g)
                  (CategoryGroup.Hidden g) (CategoryGroup.Deleted g)
                  (filter (fun c => negb (Category.Deleted c || Category.Hidden c))
                          (CategoryGroup.Categories g)))
      (filter (fun g => negb (CategoryGroup.Deleted g || CategoryGroup.Hidden g)) v).

Lemma flat_map_skip {A B : Type} (skip : A -> bool) (row : A -> list B) (l : list A) :
  flat_map (fun a => if skip a then [] else row a) l
  = flat_map row (filter (fun a => negb (skip a)) l).
Proof.
  induction l as [| a l IH]; [ reflexivity | ].
  cbn [flat_map filter]. destruct (skip a); cbn [negb flat_map]; rewrite IH; reflexivity.
Qed.

Lemma table_categories_filtered (v : list CategoryGroup.t) :
  Print (New "table") (VCategoryGroups v)
  = Print (New "table") (VCategoryGroups (shownGroups v)).
Proof.
  unfold Print, New, format. cbn [String.eqb Ascii.eqb Bool.eqb printTable].
  f_equal. f_equal. unfold shownGroups.
  induction v as [| g v IH]; [ reflexivity | ].
  cbn [flat_map filter map].
  destruct (CategoryGroup.Deleted g || CategoryGroup.Hidden g) eqn:E;
    cbn [negb]; [ exact IH | ].
  cbn [map flat_map CategoryGroup.Deleted CategoryGroup.Hidden
       CategoryGroup.Categories CategoryGroup.Name].
  rewrite E. rewrite <- IH. f_equal.
  clear. induction (CategoryGroup.Categories g) as [| c l IHl]; [ reflexivity | ].
  cbn [flat_map filter].
  destruct (Category.Deleted c || Category.Hidden c) eqn:Ec; cbn [negb].
  - exact IHl.
  - cbn [flat_map]. rewrite Ec. cbn [app]. f_equal. exact IHl.
Qed.

Lemma table_transactions_filtered (v : list Transaction.t) :
  Print (New "table") (VTransactions v)
  = Print (New "table")
      (VTransactions (filter (fun t => negb (Transaction.Deleted t)) v)).
Proof.
  unfold Print, New, format. cbn [String.eqb Ascii.eqb Bool.eqb printTable].
  do 2 f_equal. rewrite !flat_map_skip. f_equal.
  induction v as [| t v IH]; [ reflexivity | ].
  cbn [filter]. destruct (Transaction.Deleted t) eqn:E; cbn [negb filter];
    [ exact IH | rewrite E; cbn [negb]; f_equal; exact IH ].
Qed.

Lemma table_payees_filtered (v : list Payee.t) :
  Print (New "table") (VPayees v)
  = Print (New "table") (VPayees (filter (fun x => negb (Payee.Deleted x)) v)).
Proof.
  unfold Print, New, format. cbn [String.eqb Ascii.eqb Bool.eqb printTable].
  do 2 f_equal. rewrite !flat_map_skip. f_equal.
  induction v as [| t v IH]; [ reflexivity | ].
  cbn [filter]. destruct (Payee.Deleted t) eqn:E; cbn [negb filter];
    [ exact IH | rewrite E; cbn [negb]; f_equal; exact IH ].
Qed.

Lemma table_scheduled_filtered (v : list ScheduledTransaction.t) :
  Print (New "table") (VScheduledTransactions v)
  = Print (New "table")
      (VScheduledTransactions
         (filter (fun x => negb (ScheduledTransaction.Deleted x)) v)).
Proof.
  unfold Print, New, format. cbn [String.eqb Ascii.eqb Bool.eqb printTable].
  do 2 f_equal. rewrite !flat_map_skip. f_equal.
  induction v as [| t v IH]; [ reflexivity | ].
  cbn [filter]. destruct (ScheduledTransaction.Deleted t) eqn:E; cbn [negb filter];
    [ exact IH | rewrite E; cbn [negb]; f_equal; exact IH ].
Qed.

Lemma table_months_filtered (v : list Month.t) :
  Print (New "table") (VMonths v)
  = Print (New "table") (VMonths (filter (fun x => negb (Month.Deleted x)) v)).
Proof.
  unfold Print, New, format. cbn [String.eqb Ascii.eqb Bool.eqb printTable].
  do 2 f_equal. rewrite !flat_map_skip. f_equal.
  induction v as [| t v IH]; [ reflexivity | ].
  cbn [filter]. destruct (Month.Deleted t) eqn:E; cbn [negb filter];
    [ exact IH | rewrite E; cbn [negb]; f_equal; exact IH ].
Qed.

Definition deletedAccount : Account.t :=
  Account.mk "a1" "Old account" "checking" true false "" 5000 5000 0 ""
             false false "" 0 [] [] [] true.

(** C9 at the input where it fails: in table mode the list of accounts
    prints the line of an account that is flagged deleted, where the
    lists of transactions, payees, scheduled transactions and months
    leave such an entry out. *)
Theorem table_accounts_prints_deleted :
  Account.Deleted deletedAccount = true
  /\ Print (New "table") (VAccounts [deletedAccount])
     = Table [header ["ID"; "NAME"; "TYPE"; "BALANCE"; "ON BUDGET"; "CLOSED"];
              [Str "a1"; Str "Old account"; Str "checking";
               Amount (MilliunitsToAmount 5000); Str "true"; Str "false"]]
  /\ Print (New "table") (VAccounts [deletedAccount])
     <> Print (New "table") (VAccounts []).
Proof. repeat split; try reflexivity. discriminate. Qed.

End Renderer.

(** *** Dates *)

Section Dates.

Import GoTime.

(** YYYY-MM-DD, digit by digit. *)
Definition yyyy (y : Z) : string :=
  String (Strconv.digit (y / 1000))
    (String (Strconv.digit (y / 100))
       (String (Strconv.digit (y / 10)) (String (Strconv.digit y) ""))).

Definition dd (n : Z) : string :=
  String (Strconv.digit (n / 10)) (String (Strconv.digit n) "").

Definition isoDate (y m d : Z) : string := yyyy y ++ "-" ++ dd m ++ "-" ++ dd d.

Lemma digit_small_div (x k : Z) :
  0 <= x < k -> Strconv.digit (x / k) = "0"%char.
Proof. intros H. rewrite Z.div_small by lia. reflexivity. Qed.

Ltac pad := cbn [String.length Nat.sub zeros String.append].

Lemma appendInt_2 (n : Z) : 0 <= n <= 99 -> appendInt n 2 = dd n.
Proof.
  intros H. unfold appendInt, dd.
  rewrite Z.abs_eq by lia.
  replace (n <? 0) with false by (symmetry; apply Z.ltb_ge; lia).
  cbn [Strconv.digits].
  destruct (Z.ltb_spec n 10) as [H1 | H1].
  - pad. rewrite (digit_small_div n 10) by lia. reflexivity.
  - replace (n / 10 <? 10) with true
      by (symmetry; apply Z.ltb_lt; apply Z.div_lt_upper_bound; lia).
    reflexivity.
Qed.

Lemma appendInt_4 (y : Z) : 0 <= y <= 9999 -> appendInt y 4 = yyyy y.
Proof.
  intros H. unfold appendInt, yyyy.
  rewrite Z.abs_eq by lia.
  replace (y <? 0) with false by (symmetry; apply Z.ltb_ge; lia).
  cbn [Strconv.digits].
  assert (D2 : y / 10 / 10 = y / 100) by (rewrite Z.div_div by lia; reflexivity).
  assert (D3 : y / 10 / 10 / 10 = y / 1000)
    by (rewrite !Z.div_div by lia; reflexivity).
  destruct (Z.ltb_spec y 10) as [H1 | H1].
  - pad. rewrite (digit_small_div y 1000), (digit_small_div y 100),
      (digit_small_div y 10) by lia. reflexivity.
  - destruct (Z.ltb_spec (y / 10) 10) as [H2 | H2].
    + assert (y < 100) by (apply Z.nle_gt; intros C;
        assert (10 <= y / 10) by (apply Z.div_le_lower_bound; lia); lia).
      pad. rewrite (digit_small_div y 1000), (digit_small_div y 100) by lia.
      reflexivity.
    + destruct (Z.ltb_spec (y / 10 / 10) 10) as [H3 | H3].
      * assert (y < 1000) by (apply Z.nle_gt; intros C;
          assert (10 <= y / 100) by (apply Z.div_le_lower_bound; lia); lia).
        pad. rewrite D2. rewrite (digit_small_div y 1000) by lia. reflexivity.
      * replace (y / 10 / 10 / 10 <? 10) with true
          by (symmetry; apply Z.ltb_lt; rewrite D3;
              apply Z.div_lt_upper_bound; lia).
        pad. rewrite D3, D2. reflexivity.
Qed.

(** The layout 2006-01-02 writes year, month and day. *)
Lemma Format_iso (t : Time) :
  0 <= Year t <= 9999 -> 0 <= Month t <= 99 -> 0 <= Day t <= 99 ->
  Format t "2006-01-02" = isoDate (Year t) (Month t) (Day t).
Proof.
  intros Hy Hm Hd. unfold Format, isoDate.
  cbn [chunks map formatChunk String.concat].
  rewrite appendInt_4, !appendInt_2 by assumption. reflexivity.
Qed.

(** The layout 2006-01-01 writes year, month and the month again: 01 is
    the chunk of the month each time it occurs. *)
Lemma Format_month_twice (t : Time) :
  0 <= Year t <= 9999 -> 0 <= Month t <= 99 ->
  Format t "2006-01-01" = isoDate (Year t) (Month t) (Month t).
Proof.
  intros Hy Hm. unfold Format, isoDate.
  cbn [chunks map formatChunk String.concat].
  rewrite appendInt_4, !appendInt_2 by assumption. reflexivity.
Qed.

End Dates.

(** *** The commands *)

Section Commands.

Import Cmd.

(** The flag variables of a command line that sets no flag. *)
Definition noFlags : Flags :=
  mkFlags (fun _ => false) "" "" "" "" "" "" "" 0%float "" "" "" "" "" false ""
          "current" 0%float "" "" "" "" 0%float "" "" "" "" "" "" "" 0%float.

Lemma bind_lift_ok {A B : Type} (r : result A) (a : A) (k : A -> IO B) log :
  r = Ok a -> bind (lift r) k log = k a log.
Proof. intros ->. reflexivity. Qed.

Lemma bind_lift_err {A B : Type} (r : result A) (e : error) (k : A -> IO B) log :
  r = Err e -> bind (lift r) k log = (Err e, log).
Proof. intros ->. reflexivity. Qed.

Lemma call_some {A : Type} (g : Globals) (c : Client) (op : Client -> IO A) :
  apiClient g = Some c -> call g op = op c.
Proof. intros H. unfold call. rewrite H. reflexivity. Qed.

(** An operation hands exactly one request to the HTTP client, unless
    the request cannot be built. *)
Lemma sent_one {A B : Type} c method path payload (d : decoder A) (zero : A)
      (msg : string) (k : A -> IO B) log :
  (forall a l, snd (k a l) = l) ->
  httpClient c log (newRequest c method path payload) <> CreateFailed ->
  snd (bind (wrap msg (bind (doRequest c method path payload) (parseResponse d zero)))
            k log)
  = (log ++ [newRequest c method path payload])%list.
Proof.
  intros Hk Hc. unfold bind, wrap, doRequest.
  destruct (httpClient c log (newRequest c method path payload))
    as [| | | status body]; try reflexivity; [ contradiction | ].
  destruct (400 <=? status).
  - destruct (Unmarshal ErrorResponse None body) as [[e |] |]; reflexivity.
  - unfold parseResponse. destruct (Unmarshal d zero body); cbn [ret fail].
    + apply Hk.
    + reflexivity.
Qed.

Lemma print_log (g : Globals) (v : Output.Value) l : snd (print g v l) = l.
Proof. reflexivity. Qed.

(** C7.  In the month-fetch command, when the month argument is absent
    or is "current", what is passed to GetMonth, and so what stands in
    the path of the one request, is the first day of the current month
    written YYYY-MM-DD. *)
Theorem monthsGet_resolves_current (g : Globals) (f : Flags) (now : GoTime.Time)
        (args : list string) (log : list Request) (c : Client) (b : string) :
  getBudgetID g = Ok b ->
  apiClient g = Some c ->
  (args = [] \/ exists rest, args = "current" :: rest) ->
  0 <= GoTime.Year now <= 9999 ->
  1 <= GoTime.Month now <= 12 ->
  let month := isoDate (GoTime.Year now) (GoTime.Month now) 1 in
  let req := newRequest c "GET" ("/budgets/" ++ b ++ "/months/" ++ month) None in
  RunE monthsGetCmd g f now args log
  = (monthData <- wrap "failed to get month" (GetMonth c b month) ;;
     print g (Output.VMonth monthData)) log
  /\ (httpClient c log req <> CreateFailed ->
      snd (RunE monthsGetCmd g f now args log) = (log ++ [req])%list).
Proof.
  intros Hb Hc Ha Hy Hm month req.
  assert (E : RunE monthsGetCmd g f now args log
              = (monthData <- wrap "failed to get month" (GetMonth c b month) ;;
                 print g (Output.VMonth monthData)) log).
  { cbn [RunE monthsGetCmd].
    rewrite (bind_lift_ok _ b _ _ Hb). rewrite (call_some g c _ Hc).
    assert (Hf : GoTime.Format (GoTime.Date (GoTime.Year now) (GoTime.Month now) 1)
                               "2006-01-02" = month).
    { apply Format_iso; cbn [GoTime.Year GoTime.Month GoTime.Day GoTime.Date]; lia. }
    destruct Ha as [-> | [rest ->]]; cbn [String.eqb Ascii.eqb Bool.eqb];
      rewrite Hf; reflexivity. }
  split; [ exact E | ].
  intros Hreq. rewrite E. unfold GetMonth.
  apply sent_one; [ intros; apply print_log | exact Hreq ].
Qed.

Definition someGlobals : Globals :=
  mkGlobals "json" "b1" (Some (New (mock 200 emptyDataBody) "secret")) None.

Lemma monthsGet_resolves_current_witness :
  map URL (snd (RunE monthsGetCmd someGlobals noFlags
                     (GoTime.mkTime 2026 10 31 9 30 0) ["current"] []))
  = ["https://api.ynab.com/v1/budgets/b1/months/2026-10-01"].
Proof.
  pose proof (monthsGet_resolves_current someGlobals noFlags
                (GoTime.mkTime 2026 10 31 9 30 0) ["current"] []
                (New (mock 200 emptyDataBody) "secret") "b1" eq_refl eq_refl
                (or_intror (ex_intro _ [] eq_refl))
                ltac:(cbn; lia) ltac:(cbn; lia)) as [_ H].
  rewrite H; [ reflexivity | discriminate ].
Defined.

(** C2 at the input where it fails: on 31 October 2026 the month flag
    "current" (and likewise the empty flag) puts 2026-10-10, not
    2026-10-01, into the path of the request. *)
Theorem categoriesUpdate_current_month_path :
  let now := GoTime.mkTime 2026 10 31 9 30 0 in
  let urls (f : Flags) :=
    map URL (snd (RunE categoriesUpdateCmd someGlobals f now ["c1"] [])) in
  categoryMonth noFlags = "current"
  /\ urls noFlags
     = ["https://api.ynab.com/v1/budgets/b1/months/2026-10-10/categories/c1"]
  /\ urls (mkFlags (fun _ => true) "" "" "" "" "" "" "" 0%float "" "" "" "" ""
                   false "" "" 0%float "" "" "" "" 0%float "" "" "" "" "" "" ""
                   0%float)
     = ["https://api.ynab.com/v1/budgets/b1/months/2026-10-10/categories/c1"]
  /\ urls noFlags
     <> ["https://api.ynab.com/v1/budgets/b1/months/2026-10-01/categories/c1"].
Proof.
  repeat split; try (vm_compute; reflexivity).
  vm_compute. intros H. discriminate H.
Qed.

(** In general the command resolves the month to year, month and the
    month again. *)
Lemma categoriesUpdate_month (g : Globals) (f : Flags) (now : GoTime.Time)
      (args : list string) (log : list Request) (c : Client) (b : string) :
  getBudgetID g = Ok b ->
  apiClient g = Some c ->
  categoryMonth f = "" \/ categoryMonth f = "current" ->
  0 <= GoTime.Year now <= 9999 ->
  1 <= GoTime.Month now <= 12 ->
  RunE categoriesUpdateCmd g f now args log
  = (category <- wrap "failed to update category"
                   (UpdateCategory c b (arg0 args)
                      (isoDate (GoTime.Year now) (GoTime.Month now) (GoTime.Month now))
                      (AmountToMilliunits (categoryBudgeted f))) ;;
     print g (Output.VCategory category)) log.
Proof.
  intros Hb Hc Hm Hy Hmo.
  cbn [RunE categoriesUpdateCmd].
  rewrite (bind_lift_ok _ b _ _ Hb). rewrite (call_some g c _ Hc).
  rewrite <- (Format_month_twice now) by lia.
  destruct Hm as [-> | ->]; reflexivity.
Qed.

Lemma append_nil_r (s : string) : s ++ "" = s.
Proof. induction s as [| a s IH]; [ reflexivity | cbn; rewrite IH; reflexivity ]. Qed.

Lemma append_assoc (s t u : string) : (s ++ t) ++ u = s ++ t ++ u.
Proof. induction s as [| a s IH]; [ reflexivity | cbn; rewrite IH; reflexivity ]. Qed.

(** The since-date as the scoped endpoints take it: appended as it is. *)
Definition sinceSuffix (since : string) : string :=
  if String.eqb since "" then "" else "?since_date=" ++ since.

(** The path of a list scoped to one account, category or payee. *)
Definition scopedPath (b kind id since : string) : string :=
  "/budgets/" ++ b ++ "/" ++ kind ++ "/" ++ id ++ "/transactions"
  ++ sinceSuffix since.

(** The query of the unscoped list. *)
Definition listQuery (since type : string) : string :=
  match String.eqb since "", String.eqb type "" with
  | true, true => ""
  | false, true => "?since_date=" ++ QueryEscape since
  | true, false => "?type=" ++ QueryEscape type
  | false, false =>
      "?since_date=" ++ QueryEscape since ++ "&type=" ++ QueryEscape type
  end.

(** The list command on the path it asks for. *)
Definition listOn (g : Globals) (c : Client) (path : string) : IO Output.Printed :=
  transactions <- wrap "failed to get transactions"
                    (body <- doRequest c "GET" path None ;;
                     parseResponse TransactionsResponse [] body) ;;
  print g (Output.VTransactions transactions).

Lemma scoped_path (b kind id since : string) :
  (if String.eqb since "" then "/budgets/" ++ b ++ "/" ++ kind ++ "/" ++ id ++ "/transactions"
   else ("/budgets/" ++ b ++ "/" ++ kind ++ "/" ++ id ++ "/transactions")
        ++ "?since_date=" ++ since)
  = scopedPath b kind id since.
Proof.
  unfold scopedPath, sinceSuffix. destruct (String.eqb since "").
  - rewrite append_nil_r. reflexivity.
  - rewrite !append_assoc. reflexivity.
Qed.

(** C10.  The transactions list command asks the endpoint of the
    account when an account id is given, else the one of the category
    when a category id is given, else the one of the payee when a payee
    id is given, each with the since-date alone; only when none of the
    three is given does it ask the unscoped endpoint, whose query holds
    the since-date and the type.  In each case one request is sent. *)
Theorem transactionsList_precedence (g : Globals) (f : Flags) (now : GoTime.Time)
        (args : list string) (log : list Request) (c : Client) (b : string) :
  getBudgetID g = Ok b ->
  apiClient g = Some c ->
  let path :=
    if negb (String.eqb (txnAccountID f) "") then
      scopedPath b "accounts" (txnAccountID f) (txnSinceDate f)
    else if negb (String.eqb (txnCategoryID f) "") then
      scopedPath b "categories" (txnCategoryID f) (txnSinceDate f)
    else if negb (String.eqb (txnPayeeID f) "") then
      scopedPath b "payees" (txnPayeeID f) (txnSinceDate f)
    else "/budgets/" ++ b ++ "/transactions" ++ listQuery (txnSinceDate f) (txnType f) in
  RunE transactionsListCmd g f now args log = listOn g c path log
  /\ (httpClient c log (newRequest c "GET" path None) <> CreateFailed ->
      snd (RunE transactionsListCmd g f now args log)
      = (log ++ [newRequest c "GET" path None])%list).
Proof.
  intros Hb Hc path.
  assert (E : RunE transactionsListCmd g f now args log = listOn g c path log).
  { cbn [RunE transactionsListCmd].
    rewrite (bind_lift_ok _ b _ _ Hb). rewrite !(call_some g c _ Hc).
    unfold listOn, path, GetTransactionsByAccount, GetTransactionsByCategory,
      GetTransactionsByPayee, GetTransactions.
    cbv zeta.
    destruct (String.eqb (txnAccountID f) ""); cbn [negb].
    2: { rewrite <- scoped_path. reflexivity. }
    destruct (String.eqb (txnCategoryID f) ""); cbn [negb].
    2: { rewrite <- scoped_path. reflexivity. }
    destruct (String.eqb (txnPayeeID f) ""); cbn [negb].
    2: { rewrite <- scoped_path. reflexivity. }
    cbn [SinceDate Type_]. unfold listQuery.
    destruct (String.eqb (txnSinceDate f) ""), (String.eqb (txnType f) "");
      cbn [app]; unfold Encode; cbn [map fst snd String.concat];
      rewrite ?append_assoc; reflexivity. }
  split; [ exact E | ].
  intros Hreq. rewrite E. unfold listOn.
  apply sent_one; [ intros; apply print_log | exact Hreq ].
Qed.

(** An account id wins over a category id, a payee id and a type. *)
Lemma transactionsList_precedence_witness :
  map URL (snd (RunE transactionsListCmd someGlobals
                  (mkFlags (fun _ => true) "2024-01-01" "unapproved" "a1" "c1" "p1"
                     "" "" 0%float "" "" "" "" "" false "" "current" 0%float ""
                     "" "" "" 0%float "" "" "" "" "" "" "" 0%float)
                  (GoTime.mkTime 2026 10 31 9 30 0) [] []))
  = ["https://api.ynab.com/v1/budgets/b1/accounts/a1/transactions?since_date=2024-01-01"].
Proof.
  pose proof (transactionsList_precedence someGlobals
                (mkFlags (fun _ => true) "2024-01-01" "unapproved" "a1" "c1" "p1"
                   "" "" 0%float "" "" "" "" "" false "" "current" 0%float ""
                   "" "" "" 0%float "" "" "" "" "" "" "" 0%float)
                (GoTime.mkTime 2026 10 31 9 30 0) [] []
                (New (mock 200 emptyDataBody) "secret") "b1" eq_refl eq_refl)
    as [_ H].
  rewrite H; [ reflexivity | discriminate ].
Defined.

(** What the update command is to send: for each field, the value of
    the flag when the command line set the flag, and the value of the
    existing transaction otherwise.  The payee name and the import id
    are no part of what is copied: the payee name is sent only when its
    flag is set, the import id never. *)
Definition overlay (f : Flags) (e : Transaction.t) : SaveTransaction.t :=
  let pick {A : Type} (flag : string) (new old : A) : A :=
    if Changed f flag then new else old in
  SaveTransaction.mk
    (pick "account" (newTxnAccountID f) (Transaction.AccountID e))
    (pick "date" (newTxnDate f) (Transaction.Date e))
    (pick "amount" (AmountToMilliunits (newTxnAmount f)) (Transaction.Amount e))
    (pick "payee-id" (newTxnPayeeID f) (Transaction.PayeeID e))
    (pick "payee-name" (newTxnPayeeName f) "")
    (pick "category" (newTxnCategoryID f) (Transaction.CategoryID e))
    (pick "memo" (newTxnMemo f) (Transaction.Memo e))
    (pick "cleared" (newTxnCleared f) (Transaction.Cleared e))
    (pick "approved" (newTxnApproved f) (Transaction.Approved e))
    (pick "flag" (newTxnFlagColor f) (Transaction.FlagColor e))
    "".

Lemma updatePayload_overlay (f : Flags) (e : Transaction.t) :
  updatePayload f e = overlay f e.
Proof.
  unfold updatePayload, overlay.
  generalize (Changed f "account"), (Changed f "date"), (Changed f "amount"),
    (Changed f "payee-id"), (Changed f "payee-name"), (Changed f "category"),
    (Changed f "memo"), (Changed f "cleared"), (Changed f "approved"),
    (Changed f "flag").
  intros b1 b2 b3 b4 b5 b6 b7 b8 b9 b10.
  destruct b1, b2, b3, b4, b5; cbv beta iota zeta;
    destruct b6, b7, b8, b9, b10; reflexivity.
Qed.

(** C5.  The update command, once it has fetched the existing
    transaction, sends one PUT whose payload is the existing
    transaction's account, date, amount, payee id, category, memo,
    cleared status, approval and flag colour, each replaced by the value
    of its flag exactly when the command line set that flag. *)
Theorem transactionsUpdate_payload (g : Globals) (f : Flags) (now : GoTime.Time)
        (args : list string) (log log1 : list Request) (c : Client) (b : string)
        (existing : Transaction.t) :
  getBudgetID g = Ok b ->
  apiClient g = Some c ->
  GetTransaction c b (arg0 args) log = (Ok existing, log1) ->
  let txn := overlay f existing in
  let req := newRequest c "PUT" ("/budgets/" ++ b ++ "/transactions/" ++ arg0 args)
               (Some (UpdateTransactionRequest txn)) in
  RunE transactionsUpdateCmd g f now args log
  = (transaction <- wrap "failed to update transaction"
                      (UpdateTransaction c b (arg0 args) txn) ;;
     print g (Output.VTransaction transaction)) log1
  /\ (httpClient c log1 req <> CreateFailed ->
      snd (RunE transactionsUpdateCmd g f now args log) = (log1 ++ [req])%list).
Proof.
  intros Hb Hc Hget txn req.
  assert (E : RunE transactionsUpdateCmd g f now args log
              = (transaction <- wrap "failed to update transaction"
                                  (UpdateTransaction c b (arg0 args) txn) ;;
                 print g (Output.VTransaction transaction)) log1).
  { cbn [RunE transactionsUpdateCmd].
    rewrite (bind_lift_ok _ b _ _ Hb). rewrite !(call_some g c _ Hc).
    unfold bind at 1. unfold wrap at 1. rewrite Hget.
    cbv zeta. rewrite updatePayload_overlay.
    rewrite (call_some g c _ Hc). reflexivity. }
  split; [ exact E | ].
  intros Hreq. rewrite E. unfold UpdateTransaction.
  apply sent_one; [ intros; apply print_log | exact Hreq ].
Qed.

(** The example of the specification: the existing transaction has memo
    "old" and amount -1000; the command line sets the amount alone, to
    -2.00, which is -2000 milliunits. *)
Definition oldTransactionBody : string :=
  jsonText "{'data':{'transaction':{'id':'t1','date':'2024-05-01','amount':-1000,'memo':'old','account_id':'a1','payee_name':'Shop','approved':true}}}".

Definition oldClient : Client := New (mock 200 oldTransactionBody) "secret".
Definition oldGlobals : Globals := mkGlobals "json" "b1" (Some oldClient) None.

Definition amountOnly : Flags :=
  mkFlags (fun flag => String.eqb flag "amount") "" "" "" "" "" "" ""
          (-2)%float "" "" "" "" "" false ""
          "current" 0%float "" "" "" "" 0%float "" "" "" "" "" "" "" 0%float.

Definition fetchedOld : result Transaction.t * list Request :=
  GetTransaction oldClient "b1" "t1" [].

Lemma transactionsUpdate_payload_witness :
  map Body (snd (RunE transactionsUpdateCmd oldGlobals amountOnly
                      (GoTime.mkTime 2026 10 31 9 30 0) ["t1"] []))
  = [None;
     Some (JObj [("transaction",
                  JObj [("account_id", JStr "a1"); ("date", JStr "2024-05-01");
                        ("amount", JNum "-2000"); ("memo", JStr "old");
                        ("approved", JBool true)])])].
Proof.
  pose proof (transactionsUpdate_payload oldGlobals amountOnly
                (GoTime.mkTime 2026 10 31 9 30 0) ["t1"] [] (snd fetchedOld)
                oldClient "b1"
                (match fst fetchedOld with Ok t => t | Err _ => Transaction.zero end)
                eq_refl eq_refl ltac:(vm_compute; reflexivity)) as [_ H].
  rewrite H; [ vm_compute; reflexivity | discriminate ].
Defined.

(** The sub-commands that need a budget. *)
Definition containerCommands : list Command :=
  [budgetsGetCmd; budgetsSettingsCmd;
   accountsListCmd; accountsGetCmd; accountsCreateCmd;
   categoriesListCmd; categoriesGetCmd; categoriesUpdateCmd;
   monthsListCmd; monthsGetCmd;
   payeesListCmd; payeesGetCmd; payeesUpdateCmd;
   transactionsListCmd; transactionsGetCmd; transactionsCreateCmd;
   transactionsUpdateCmd; transactionsDeleteCmd;
   scheduledListCmd; scheduledGetCmd; scheduledCreateCmd;
   scheduledUpdateCmd; scheduledDeleteCmd].

(** budgets get and budgets settings take the budget id as a positional
    argument when one is given. *)
Definition positionalBudget (cmd : Command) (args : list string) : bool :=
  match Parent cmd, args with
  | Some p, _ :: _ => String.eqb p "budgets"
  | _, _ => false
  end.

Definition resolvedBudget (c : Config.t) (budget : string) : string :=
  if String.eqb budget "" then Config.DefaultBudget c else budget.

Definition resolvedFormat (c : Config.t) (format : string) : string :=
  if String.eqb format "" then
    if String.eqb (Config.Format c) "" then "json" else Config.Format c
  else format.

(** The globals after a set-up step that succeeds. *)
Definition ready (http : Transport) (c : Config.t) (format budget : string) : Globals :=
  mkGlobals (resolvedFormat c format) (resolvedBudget c budget)
            (Some (New http (Config.Token c))) (Some c).

Lemma eqb_false (s t : string) : s <> t -> String.eqb s t = false.
Proof. intros H. destruct (String.eqb_spec s t); [ contradiction | reflexivity ]. Qed.

Lemma PersistentPreRunE_ready http c cmd format budget :
  In cmd containerCommands ->
  Config.Token c <> "" ->
  PersistentPreRunE http (Ok c) cmd (mkGlobals format budget None None)
  = (ready http c format budget, None).
Proof.
  intros Hin Ht. apply eqb_false in Ht.
  assert (E : forall skip1 skip2 auth, skip1 = false -> skip2 = false -> auth = true ->
              (if skip1 then (mkGlobals format budget None None, @None error)
               else if skip2 then (mkGlobals format budget None None, None)
               else
                 let fmt := if String.eqb format "" then Config.Format c else format in
                 let fmt := if String.eqb fmt "" then "json" else fmt in
                 let bid := if String.eqb budget "" then Config.DefaultBudget c
                            else budget in
                 if auth then
                   if String.eqb (Config.Token c) "" then
                     (mkGlobals fmt bid None (Some c),
                      Some (Errorf "YNAB API token not configured. Run 'ynabctl config set-token <token>' to set it" None))
                   else (mkGlobals fmt bid (Some (New http (Config.Token c))) (Some c), None)
                 else (mkGlobals fmt bid None (Some c), None))
              = (ready http c format budget, None)).
  { intros ? ? ? -> -> ->. cbv zeta. rewrite Ht. unfold ready, resolvedFormat, resolvedBudget.
    destruct (String.eqb format "") eqn:Ef.
    - destruct (String.eqb (Config.Format c) ""); reflexivity.
    - rewrite Ef. reflexivity. }
  cbn [containerCommands In] in Hin.
  repeat (destruct Hin as [<- | Hin]; [ apply E; reflexivity | ]).
  contradiction.
Qed.

Lemma resolvedFormat_nonempty c format :
  String.eqb (resolvedFormat c format) "" = false.
Proof.
  unfold resolvedFormat. destruct (String.eqb format "") eqn:Ef; [ | exact Ef ].
  destruct (String.eqb (Config.Format c) "") eqn:Ec; [ reflexivity | exact Ec ].
Qed.

Lemma resolvedBudget_explicit (tok x : string) :
  resolvedBudget (Config.mk tok "" "") x = x.
Proof.
  unfold resolvedBudget. cbn [Config.DefaultBudget].
  destruct (String.eqb_spec x ""); [ subst; reflexivity | reflexivity ].
Qed.

Lemma resolvedFormat_explicit (tok x : string) :
  String.eqb x "" = false -> resolvedFormat (Config.mk tok "" "") x = x.
Proof. intros H. unfold resolvedFormat. rewrite H. reflexivity. Qed.

Lemma getBudgetID_ready http c format budget :
  getBudgetID (ready http c format budget)
  = if String.eqb (resolvedBudget c budget) "" then Err noBudget
    else Ok (resolvedBudget c budget).
Proof.
  unfold getBudgetID, ready, resolvedBudget. cbn [budgetID cfg].
  destruct (String.eqb budget "") eqn:Eb.
  - destruct (String.eqb (Config.DefaultBudget c) ""); reflexivity.
  - rewrite Eb. reflexivity.
Qed.

Lemma getOutputFormat_ready http c format budget :
  getOutputFormat (ready http c format budget) = resolvedFormat c format.
Proof.
  unfold getOutputFormat, ready. cbn [outputFormat].
  rewrite resolvedFormat_nonempty. reflexivity.
Qed.

(** A body reads the globals through getBudgetID, getOutputFormat and
    apiClient only. *)
Lemma RunE_globals cmd (g g' : Globals) f now args :
  In cmd containerCommands ->
  getBudgetID g = getBudgetID g' ->
  getOutputFormat g = getOutputFormat g' ->
  apiClient g = apiClient g' ->
  RunE cmd g f now args = RunE cmd g' f now args.
Proof.
  intros Hin Hb Hf Hc. cbn [containerCommands In] in Hin.
  repeat (destruct Hin as [<- | Hin];
          [ cbn [RunE budgetsGetCmd budgetsSettingsCmd accountsListCmd
                 accountsGetCmd accountsCreateCmd categoriesListCmd
                 categoriesGetCmd categoriesUpdateCmd monthsListCmd monthsGetCmd
                 payeesListCmd payeesGetCmd payeesUpdateCmd transactionsListCmd
                 transactionsGetCmd transactionsCreateCmd transactionsUpdateCmd
                 transactionsDeleteCmd scheduledListCmd scheduledGetCmd
                 scheduledCreateCmd scheduledUpdateCmd scheduledDeleteCmd];
            unfold call, print; rewrite Hb, Hf, Hc; reflexivity | ]).
  contradiction.
Qed.

(** Without a budget every body stops before it calls the client. *)
Lemma RunE_no_budget cmd (g : Globals) f now args log :
  In cmd containerCommands ->
  positionalBudget cmd args = false ->
  getBudgetID g = Err noBudget ->
  RunE cmd g f now args log = (Err noBudget, log).
Proof.
  intros Hin Hp Hb. cbn [containerCommands In] in Hin.
  destruct Hin as [<- | Hin].
  { destruct args; [ | discriminate Hp ].
    cbn [RunE budgetsGetCmd]. apply bind_lift_err, Hb. }
  destruct Hin as [<- | Hin].
  { destruct args; [ | discriminate Hp ].
    cbn [RunE budgetsSettingsCmd]. apply bind_lift_err, Hb. }
  repeat (destruct Hin as [<- | Hin];
          [ cbn [RunE accountsListCmd
                 accountsGetCmd accountsCreateCmd categoriesListCmd
                 categoriesGetCmd categoriesUpdateCmd monthsListCmd monthsGetCmd
                 payeesListCmd payeesGetCmd payeesUpdateCmd transactionsListCmd
                 transactionsGetCmd transactionsCreateCmd transactionsUpdateCmd
                 transactionsDeleteCmd scheduledListCmd scheduledGetCmd
                 scheduledCreateCmd scheduledUpdateCmd scheduledDeleteCmd];
            apply bind_lift_err, Hb | ]).
  contradiction.
Qed.

(** C8, as stated, fails in two ways.  budgets get with a positional
    budget id asks for that budget and not the one of the --budget flag;
    and with neither flag nor default, a command run without a
    configured token fails with the token error, not with the one about
    the budget. *)
Lemma budget_resolution_counterexample :
  map URL (snd (Execute (mock 200 emptyDataBody)
                        (Ok (Config.mk "secret" "default-budget" ""))
                        budgetsGetCmd "" "flag-budget" noFlags
                        (GoTime.mkTime 2026 10 31 9 30 0) ["arg-budget"] []))
  = ["https://api.ynab.com/v1/budgets/arg-budget"]
  /\ Execute (mock 200 emptyDataBody) (Ok (Config.mk "" "" ""))
             accountsListCmd "" "" noFlags (GoTime.mkTime 2026 10 31 9 30 0) [] []
     = (Err (Errorf "YNAB API token not configured. Run 'ynabctl config set-token <token>' to set it" None),
        []).
Proof. split; vm_compute; reflexivity. Qed.

(** C8, amended.  For every sub-command that needs a budget, run with a
    configuration that loads and holds a token, and (for budgets get and
    budgets settings) without a positional budget id: the set-up step
    succeeds; the budget id is the --budget flag when it is not empty,
    else the configured default when it is not empty, else the command
    fails with the "no budget specified" error and no request is sent;
    the render mode is the --format flag, else the configured format,
    else "json"; and the run is the same as the run with the resolved
    values given as flags and nothing configured besides the token. *)
Theorem budget_and_format_resolution (http : Transport) (c : Config.t)
        (cmd : Command) (format budget : string) (f : Flags) (now : GoTime.Time)
        (args : list string) (log : list Request) :
  In cmd containerCommands ->
  Config.Token c <> "" ->
  Args cmd args = true ->
  positionalBudget cmd args = false ->
  let X := resolvedBudget c budget in
  let F := resolvedFormat c format in
  let set_up := PersistentPreRunE http (Ok c) cmd (mkGlobals format budget None None) in
  snd set_up = None
  /\ getBudgetID (fst set_up) = (if String.eqb X "" then Err noBudget else Ok X)
  /\ getOutputFormat (fst set_up) = F
  /\ (X = "" ->
      Execute http (Ok c) cmd format budget f now args log = (Err noBudget, log))
  /\ Execute http (Ok c) cmd format budget f now args log
     = Execute http (Ok (Config.mk (Config.Token c) "" "")) cmd F X f now args log.
Proof.
  intros Hin Ht Ha Hp X F set_up.
  assert (Es : set_up = (ready http c format budget, None))
    by (apply PersistentPreRunE_ready; assumption).
  rewrite Es. cbn [fst snd].
  split; [ reflexivity | ].
  split; [ apply getBudgetID_ready | ].
  split; [ apply getOutputFormat_ready | ].
  assert (Ex : forall c' fmt bud, Config.Token c' <> "" ->
            Execute http (Ok c') cmd fmt bud f now args log
            = RunE cmd (ready http c' fmt bud) f now args log).
  { intros c' fmt bud Ht'. unfold Execute. rewrite Ha. cbn [negb].
    rewrite (PersistentPreRunE_ready http c' cmd fmt bud Hin Ht'). reflexivity. }
  split.
  - intros HX. rewrite (Ex c format budget Ht).
    apply RunE_no_budget; [ assumption | assumption | ].
    rewrite getBudgetID_ready. fold X. rewrite HX. reflexivity.
  - rewrite (Ex c format budget Ht).
    rewrite (Ex (Config.mk (Config.Token c) "" "") F X Ht).
    apply (f_equal (fun run => run log)).
    apply RunE_globals; [ assumption | | | reflexivity ].
    + rewrite !getBudgetID_ready, resolvedBudget_explicit. reflexivity.
    + rewrite !getOutputFormat_ready. unfold F.
      rewrite resolvedFormat_explicit by apply resolvedFormat_nonempty.
      reflexivity.
Qed.

(** The flag is empty and the default is configured: the account list
    is asked of the default budget. *)
Lemma budget_and_format_resolution_witness :
  map URL (snd (Execute (mock 200 emptyDataBody)
                        (Ok (Config.mk "secret" "default-budget" "table"))
                        accountsListCmd "" "" noFlags
                        (GoTime.mkTime 2026 10 31 9 30 0) [] []))
  = ["https://api.ynab.com/v1/budgets/default-budget/accounts"].
Proof.
  pose proof (budget_and_format_resolution (mock 200 emptyDataBody)
                (Config.mk "secret" "default-budget" "table") accountsListCmd
                "" "" noFlags (GoTime.mkTime 2026 10 31 9 30 0) [] []
                ltac:(cbn; tauto) ltac:(discriminate) eq_refl eq_refl)
    as [_ [_ [_ [_ H]]]].
  rewrite H. vm_compute. reflexivity.
Defined.

End Commands.

(* ================================================================== *)
(** ** Further properties of the renderer *)
(* ================================================================== *)

Section RendererMore.

Import Output.

Lemma length_append (s t : string) :
  String.length (s ++ t) = (String.length s + String.length t)%nat.
Proof. induction s as [| a s IH]; [ reflexivity | cbn; rewrite IH; reflexivity ]. Qed.

Lemma length_substring_0 (n : nat) (s : string) :
  (n <= String.length s)%nat -> String.length (substring 0 n s) = n.
Proof.
  revert s. induction n as [| n IH]; intros s H.
  - destruct s; reflexivity.
  - destruct s as [| a s]; [ cbn in H; lia | ].
    cbn. rewrite IH; [ reflexivity | cbn in H; lia ].
Qed.

Lemma prefix_substring_0 (n : nat) (s : string) :
  prefix (substring 0 n s) s = true.
Proof.
  revert s. induction n as [| n IH]; intros s.
  - destruct s; reflexivity.
  - destruct s as [| a s]; [ reflexivity | ].
    cbn. destruct (Ascii.ascii_dec a a) as [_ | N]; [ apply IH | contradiction ].
Qed.

(** X1.  truncate with a limit of at least three bytes never returns
    more bytes than the limit: a text within the limit comes back as it
    is, and a longer one comes back as its first limit-3 bytes followed
    by three dots, exactly limit bytes long. *)
Theorem truncate_within_limit (s : string) (limit : nat) :
  (3 <= limit)%nat ->
  (String.length (truncate s limit) <= limit)%nat
  /\ ((String.length s <= limit)%nat -> truncate s limit = s)
  /\ ((limit < String.length s)%nat ->
      String.length (truncate s limit) = limit
      /\ truncate s limit = substring 0 (limit - 3) s ++ "..."
      /\ prefix (substring 0 (limit - 3) s) s = true).
Proof.
  intros H. unfold truncate.
  destruct (Nat.leb_spec (String.length s) limit) as [Hs | Hs].
  - split; [ exact Hs | split; [ reflexivity | intros; lia ] ].
  - assert (L : String.length (substring 0 (limit - 3) s ++ "...") = limit).
    { rewrite length_append, length_substring_0 by lia. cbn. lia. }
    split; [ rewrite L; lia | split; [ intros; lia | ] ].
    intros _. split; [ exact L | split; [ reflexivity | apply prefix_substring_0 ] ].
Qed.

Lemma truncate_within_limit_witness :
  truncate "Groceries for the whole month of October" 30
  = "Groceries for the whole mon...".
Proof.
  pose proof (truncate_within_limit "Groceries for the whole month of October" 30
                ltac:(lia)) as [_ [_ H]].
  destruct H as [_ [H _]]; [ cbn; lia | ].
  rewrite H. reflexivity.
Defined.

(** The shapes the table printer has a layout for. *)
Definition hasLayout (data : Value) : bool :=
  match data with
  | VOther _ => false
  | _ => true
  end.

Definition tableLines (p : Printed) : list Line :=
  match p with
  | Table lines => lines
  | JSON _ => []
  end.

Lemma Print_table_layout (data : Value) :
  hasLayout data = true ->
  exists heading rows, Print (New "table") data = Table (heading :: rows).
Proof.
  intros Hl. unfold Print, New, format. cbn [String.eqb Ascii.eqb Bool.eqb].
  destruct data; try discriminate Hl; cbn [printTable];
    eexists; eexists; reflexivity.
Qed.

(** X2.  Print writes a table exactly when the format is the word
    "table" (any other word, "Table" or "yaml" or the empty one, gives
    JSON) and the value has a layout; the table then starts with a
    heading line.  In every other case Print writes the JSON of the
    value it was given, unchanged. *)
Theorem Print_table_or_json (fmt : string) (data : Value) :
  (fmt = "table" /\ hasLayout data = true ->
   exists heading rows, Print (New fmt) data = Table (heading :: rows))
  /\ (fmt <> "table" \/ hasLayout data = false ->
      Print (New fmt) data = JSON data).
Proof.
  split.
  - intros [-> Hl]. apply Print_table_layout, Hl.
  - intros [Hf | Hl].
    + apply Print_json, Hf.
    + unfold Print, New, format. destruct data; try discriminate Hl.
      destruct (String.eqb fmt "table"); reflexivity.
Qed.

Lemma Print_table_or_json_witness :
  Print (New "Table") (VPayees [Payee.mk "p1" "Shop" "" true])
  = JSON (VPayees [Payee.mk "p1" "Shop" "" true]).
Proof.
  apply (proj2 (Print_table_or_json "Table" (VPayees [Payee.mk "p1" "Shop" "" true]))).
  left. discriminate.
Defined.

Lemma length_flat_map_skip {A B : Type} (skip : A -> bool) (row : A -> B) (l : list A) :
  List.length (flat_map (fun a => if skip a then [] else [row a]) l)
  = List.length (filter (fun a => negb (skip a)) l).
Proof.
  induction l as [| a l IH]; [ reflexivity | ].
  cbn [flat_map filter]. destruct (skip a); cbn [negb app List.length]; rewrite IH;
    reflexivity.
Qed.

(** X3.  In table mode the lists of transactions, payees, scheduled
    transactions and months print one line per entry that is not flagged
    deleted, after the heading: entries flagged deleted change nothing
    in what is printed. *)
Theorem table_lists_skip_deleted :
  (forall v : list Transaction.t,
      let live := filter (fun x => negb (Transaction.Deleted x)) v in
      Print (New "table") (VTransactions v) = Print (New "table") (VTransactions live)
      /\ List.length (tableLines (Print (New "table") (VTransactions v)))
         = S (List.length live))
  /\ (forall v : list Payee.t,
      let live := filter (fun x => negb (Payee.Deleted x)) v in
      Print (New "table") (VPayees v) = Print (New "table") (VPayees live)
      /\ List.length (tableLines (Print (New "table") (VPayees v)))
         = S (List.length live))
  /\ (forall v : list ScheduledTransaction.t,
      let live := filter (fun x => negb (ScheduledTransaction.Deleted x)) v in
      Print (New "table") (VScheduledTransactions v)
      = Print (New "table") (VScheduledTransactions live)
      /\ List.length (tableLines (Print (New "table") (VScheduledTransactions v)))
         = S (List.length live))
  /\ (forall v : list Month.t,
      let live := filter (fun x => negb (Month.Deleted x)) v in
      Print (New "table") (VMonths v) = Print (New "table") (VMonths live)
      /\ List.length (tableLines (Print (New "table") (VMonths v)))
         = S (List.length live)).
Proof.
  repeat split.
  - apply table_transactions_filtered.
  - cbn. f_equal. apply (length_flat_map_skip Transaction.Deleted).
  - apply table_payees_filtered.
  - cbn. f_equal. apply (length_flat_map_skip Payee.Deleted).
  - apply table_scheduled_filtered.
  - cbn. f_equal. apply (length_flat_map_skip ScheduledTransaction.Deleted).
  - apply table_months_filtered.
  - cbn. f_equal. apply (length_flat_map_skip Month.Deleted).
Qed.

(** The categories a table of category groups shows. *)
Definition shownCategories (v : list CategoryGroup.t) : list Category.t :=
  flat_map CategoryGroup.Categories (shownGroups v).

Lemma shownCategories_eq (v : list CategoryGroup.t) :
  shownCategories v
  = flat_map (fun g => filter (fun c => negb (Category.Deleted c || Category.Hidden c))
                              (CategoryGroup.Categories g))
             (filter (fun g => negb (CategoryGroup.Deleted g || CategoryGroup.Hidden g)) v).
Proof.
  unfold shownCategories, shownGroups.
  induction v as [| g v IH]; [ reflexivity | ].
  cbn [filter]. destruct (negb (CategoryGroup.Deleted g || CategoryGroup.Hidden g));
    [ | exact IH ].
  cbn [map flat_map CategoryGroup.Categories]. rewrite IH. reflexivity.
Qed.

Lemma length_nested_skip {A B C : Type} (skipA : A -> bool) (skipB : B -> bool)
      (inner : A -> list B) (row : A -> B -> C) (l : list A) :
  List.length
    (flat_map (fun a => if skipA a then []
                        else flat_map (fun b => if skipB b then [] else [row a b])
                                      (inner a)) l)
  = List.length
      (flat_map (fun a => filter (fun b => negb (skipB b)) (inner a))
                (filter (fun a => negb (skipA a)) l)).
Proof.
  induction l as [| a l IH]; [ reflexivity | ].
  cbn [flat_map filter]. destruct (skipA a); cbn [negb]; [ exact IH | ].
  cbn [flat_map]. rewrite !length_app, IH. f_equal.
  apply (length_flat_map_skip skipB (row a)).
Qed.

(** X4.  In table mode the category list prints one line per category
    that is neither hidden nor deleted and stands in a group that is
    neither hidden nor deleted; hidden and deleted groups and categories
    change nothing in what is printed. *)
Theorem table_categories_skip_hidden_deleted (v : list CategoryGroup.t) :
  Print (New "table") (VCategoryGroups v)
  = Print (New "table") (VCategoryGroups (shownGroups v))
  /\ List.length (tableLines (Print (New "table") (VCategoryGroups v)))
     = S (List.length (shownCategories v))
  /\ Forall (fun c => Category.Hidden c = false /\ Category.Deleted c = false)
            (shownCategories v).
Proof.
  split; [ apply table_categories_filtered | split ].
  - rewrite shownCategories_eq. cbn. f_equal.
    apply (length_nested_skip
             (fun g => CategoryGroup.Deleted g || CategoryGroup.Hidden g)
             (fun c => Category.Deleted c || Category.Hidden c)
             CategoryGroup.Categories).
  - rewrite shownCategories_eq. apply Forall_forall. intros c Hc.
    apply in_flat_map in Hc as [g [_ Hc]].
    apply filter_In in Hc as [_ Hc].
    apply negb_true_iff, orb_false_elim in Hc. tauto.
Qed.

End RendererMore.

(* ================================================================== *)
(** ** Further properties of the client *)
(* ================================================================== *)

Section ClientMore.

Ltac unfold_client :=
  unfold perform, as_, GetUser, GetBudgets, GetBudget, GetBudgetSettings,
    GetAccounts, GetAccount, CreateAccount, GetCategories, GetCategory,
    UpdateCategory, GetPayees, GetPayee, UpdatePayee, GetTransactions,
    GetTransactionsByAccount, GetTransactionsByCategory, GetTransactionsByPayee,
    GetTransaction, CreateTransaction, UpdateTransaction, DeleteTransaction,
    GetScheduledTransactions, GetScheduledTransaction, CreateScheduledTransaction,
    UpdateScheduledTransaction, DeleteScheduledTransaction, GetMonths, GetMonth;
  cbv zeta.

(** The operations that return one entity: the key of the resource
    under "data" and the zero value of the entity. *)
Definition entityResource (call : Call) : option (string * Output.Value) :=
  match call with
  | CGetUser => Some ("user", Output.VUser User.zero)
  | CGetBudget _ => Some ("budget", Output.VBudget Budget.zero)
  | CGetBudgetSettings _ =>
      Some ("settings", Output.VBudgetSettings BudgetSettings.zero)
  | CGetAccount _ _ | CCreateAccount _ _ _ _ =>
      Some ("account", Output.VAccount Account.zero)
  | CGetCategory _ _ | CUpdateCategory _ _ _ _ =>
      Some ("category", Output.VCategory Category.zero)
  | CGetPayee _ _ | CUpdatePayee _ _ _ => Some ("payee", Output.VPayee Payee.zero)
  | CGetTransaction _ _ | CCreateTransaction _ _ | CUpdateTransaction _ _ _
  | CDeleteTransaction _ _ =>
      Some ("transaction", Output.VTransaction Transaction.zero)
  | CGetScheduledTransaction _ _ | CCreateScheduledTransaction _ _
  | CUpdateScheduledTransaction _ _ _ | CDeleteScheduledTransaction _ _ =>
      Some ("scheduled_transaction",
            Output.VScheduledTransaction ScheduledTransaction.zero)
  | CGetMonth _ _ => Some ("month", Output.VMonth Month.zero)
  | _ => None
  end.

(** X5.  The operations that return one entity do not notice a missing
    resource either: on a response with a status below 400 whose body is
    valid JSON but holds nothing under the expected key of "data", each
    of them succeeds and returns the zero value of its entity (empty id,
    zero amounts), together with one request sent. *)
Theorem missing_key_gives_zero_entity (c : Client) (call : Call)
        (log : list Request) (status : Z) (body : string) (key : string)
        (zero : Output.Value) (j : json) :
  (forall req, httpClient c log req = Response status body) ->
  status < 400 ->
  entityResource call = Some (key, zero) ->
  parse body = Some j ->
  lacksResource key j = true ->
  fst (perform c call log) = Ok zero
  /\ List.length (snd (perform c call log)) = S (List.length log).
Proof.
  intros H Hs Hr Hp Hl. split.
  - destruct call; cbn [entityResource] in Hr; try discriminate;
      injection Hr as <- <-; unfold_client; eapply op_empty; eassumption.
  - assert (G : forall (T : Type) method path payload (d : decoder T) (z : T)
                       (inj : T -> Output.Value),
               List.length
                 (snd (as_ inj (bind (doRequest c method path payload)
                                     (parseResponse d z)) log))
               = S (List.length log)).
    { intros. unfold as_, bind.
      rewrite (doRequest_success _ _ _ _ _ _ _ H Hs).
      unfold parseResponse. destruct (Unmarshal d z body); cbn [ret fail snd];
        rewrite length_app; cbn; lia. }
    destruct call; cbn [entityResource] in Hr; try discriminate;
      unfold_client; apply G.
Qed.

Lemma missing_key_gives_zero_entity_witness :
  fst (perform (New (mock 200 emptyDataBody) "secret") (CGetTransaction "b1" "t1") [])
  = Ok (Output.VTransaction Transaction.zero).
Proof.
  apply (missing_key_gives_zero_entity
           (New (mock 200 emptyDataBody) "secret") (CGetTransaction "b1" "t1") []
           200 emptyDataBody "transaction" (Output.VTransaction Transaction.zero)
           (JObj [("data", JObj [])]) (fun _ => eq_refl) ltac:(lia) eq_refl eq_refl
           eq_refl).
Defined.

(** Method, path and payload of the request an operation builds. *)
Definition callRequest (call : Call) : string * string * option json :=
  match call with
  | CGetUser => ("GET", "/user", None)
  | CGetBudgets => ("GET", "/budgets", None)
  | CGetBudget b => ("GET", "/budgets/" ++ b, None)
  | CGetBudgetSettings b => ("GET", "/budgets/" ++ b ++ "/settings", None)
  | CGetAccounts b => ("GET", "/budgets/" ++ b ++ "/accounts", None)
  | CGetAccount b a => ("GET", "/budgets/" ++ b ++ "/accounts/" ++ a, None)
  | CCreateAccount b n t x =>
      ("POST", "/budgets/" ++ b ++ "/accounts", Some (CreateAccountRequest n t x))
  | CGetCategories b => ("GET", "/budgets/" ++ b ++ "/categories", None)
  | CGetCategory b k => ("GET", "/budgets/" ++ b ++ "/categories/" ++ k, None)
  | CUpdateCategory b k m x =>
      ("PATCH", "/budgets/" ++ b ++ "/months/" ++ m ++ "/categories/" ++ k,
       Some (UpdateCategoryRequest x))
  | CGetPayees b => ("GET", "/budgets/" ++ b ++ "/payees", None)
  | CGetPayee b p => ("GET", "/budgets/" ++ b ++ "/payees/" ++ p, None)
  | CUpdatePayee b p n =>
      ("PATCH", "/budgets/" ++ b ++ "/payees/" ++ p, Some (UpdatePayeeRequest n))
  | CGetTransactions b f =>
      ("GET",
       "/budgets/" ++ b ++ "/transactions"
       ++ match f with
          | Some f => listQuery (SinceDate f) (Type_ f)
          | None => ""
          end,
       None)
  | CGetTransactionsByAccount b a s => ("GET", scopedPath b "accounts" a s, None)
  | CGetTransactionsByCategory b k s => ("GET", scopedPath b "categories" k s, None)
  | CGetTransactionsByPayee b p s => ("GET", scopedPath b "payees" p s, None)
  | CGetTransaction b t => ("GET", "/budgets/" ++ b ++ "/transactions/" ++ t, None)
  | CCreateTransaction b x =>
      ("POST", "/budgets/" ++ b ++ "/transactions", Some (CreateTransactionRequest x))
  | CUpdateTransaction b t x =>
      ("PUT", "/budgets/" ++ b ++ "/transactions/" ++ t,
       Some (UpdateTransactionRequest x))
  | CDeleteTransaction b t =>
      ("DELETE", "/budgets/" ++ b ++ "/transactions/" ++ t, None)
  | CGetScheduledTransactions b =>
      ("GET", "/budgets/" ++ b ++ "/scheduled_transactions", None)
  | CGetScheduledTransaction b i =>
      ("GET", "/budgets/" ++ b ++ "/scheduled_transactions/" ++ i, None)
  | CCreateScheduledTransaction b x =>
      ("POST", "/budgets/" ++ b ++ "/scheduled_transactions",
       Some (CreateScheduledTransactionRequest x))
  | CUpdateScheduledTransaction b i x =>
      ("PUT", "/budgets/" ++ b ++ "/scheduled_transactions/" ++ i,
       Some (CreateScheduledTransactionRequest x))
  | CDeleteScheduledTransaction b i =>
      ("DELETE", "/budgets/" ++ b ++ "/scheduled_transactions/" ++ i, None)
  | CGetMonths b => ("GET", "/budgets/" ++ b ++ "/months", None)
  | CGetMonth b m => ("GET", "/budgets/" ++ b ++ "/months/" ++ m, None)
  end.

Definition requestOf (c : Client) (call : Call) : Request :=
  let '(method, path, payload) := callRequest call in
  newRequest c method path payload.

(** The path of the unscoped list, as GetTransactions builds it. *)
Lemma unscoped_path (b : string) (filter : option TransactionFilter) :
  match filter with
  | Some f =>
      let params :=
        ((if String.eqb (SinceDate f) "" then [] else [("since_date", SinceDate f)])
         ++ (if String.eqb (Type_ f) "" then [] else [("type", Type_ f)]))%list in
      match params with
      | [] => "/budgets/" ++ b ++ "/transactions"
      | _ => ("/budgets/" ++ b ++ "/transactions") ++ "?" ++ Encode params
      end
  | None => "/budgets/" ++ b ++ "/transactions"
  end
  = "/budgets/" ++ b ++ "/transactions"
    ++ match filter with
       | Some f => listQuery (SinceDate f) (Type_ f)
       | None => ""
       end.
Proof.
  destruct filter as [f |]; unfold listQuery; cbv zeta.
  - destruct (String.eqb (SinceDate f) ""), (String.eqb (Type_ f) "");
      cbn [app]; unfold Encode; cbn [map fst snd String.concat];
      rewrite ?append_assoc; reflexivity.
  - reflexivity.
Qed.

(** Every operation is one doRequest for its request, then the decoding
    of the body into the operation's type. *)
Lemma perform_shape (c : Client) (call : Call) :
  exists (T : Type) (d : decoder T) (zero : T) (inj : T -> Output.Value),
    perform c call
    = as_ inj (bind (doRequest c (fst (fst (callRequest call)))
                               (snd (fst (callRequest call)))
                               (snd (callRequest call)))
                    (parseResponse d zero)).
Proof.
  destruct call; unfold_client; cbn [callRequest fst snd];
    rewrite <- ?scoped_path, <- ?unscoped_path;
    do 4 eexists; reflexivity.
Qed.

(** X6.  An operation makes one attempt.  When the request cannot be
    built nothing is sent and the operation fails with "failed to create
    request"; when the HTTP client fails, or the body cannot be read,
    the operation fails with "failed to execute request" or "failed to
    read response body" after that one request; and in every case what
    was sent is the operation's own request, once, or nothing. *)
Theorem transport_failure_no_retry (c : Client) (call : Call) (log : list Request) :
  let req := requestOf c call in
  (httpClient c log req = CreateFailed ->
   perform c call log
   = (Err (Errorf "failed to create request" (Some (LibError "net/http"))), log))
  /\ (httpClient c log req = DoFailed ->
      perform c call log
      = (Err (Errorf "failed to execute request" (Some (LibError "net/http"))),
         (log ++ [req])%list))
  /\ (httpClient c log req = ReadFailed ->
      perform c call log
      = (Err (Errorf "failed to read response body" (Some (LibError "io"))),
         (log ++ [req])%list))
  /\ (snd (perform c call log) = log
      \/ snd (perform c call log) = (log ++ [req])%list).
Proof.
  intros req. unfold req, requestOf.
  destruct (perform_shape c call) as (T & d & zero & inj & ->).
  destruct (callRequest call) as [[method path] payload]. cbn [fst snd].
  unfold as_, bind, doRequest.
  repeat split.
  - intros ->. reflexivity.
  - intros ->. reflexivity.
  - intros ->. reflexivity.
  - destruct (httpClient c log (newRequest c method path payload))
      as [| | | status body]; cbn [snd]; auto.
    right. destruct (400 <=? status).
    + destruct (Unmarshal ErrorResponse None body) as [[e |] |]; reflexivity.
    + unfold parseResponse. destruct (Unmarshal d zero body); reflexivity.
Qed.

(** A transport that fails on every request. *)
Definition offline : Transport := fun _ _ => DoFailed.

Lemma transport_failure_no_retry_witness :
  perform (New offline "secret") (CDeleteTransaction "b1" "t1") []
  = (Err (Errorf "failed to execute request" (Some (LibError "net/http"))),
     [newRequest (New offline "secret") "DELETE" "/budgets/b1/transactions/t1" None]).
Proof.
  apply (proj1 (proj2 (transport_failure_no_retry (New offline "secret")
                         (CDeleteTransaction "b1" "t1") []))).
  reflexivity.
Defined.

End ClientMore.

(* ================================================================== *)
(** ** Further properties of the commands *)
(* ================================================================== *)

Section CommandsMore.

Import Cmd.

(** The sub-commands that talk to the API. *)
Definition updateCommands : list Command :=
  [transactionsUpdateCmd; scheduledUpdateCmd].

Definition singleCommands : list Command :=
  [userCmd; budgetsListCmd; budgetsGetCmd; budgetsSettingsCmd;
   accountsListCmd; accountsGetCmd; accountsCreateCmd;
   categoriesListCmd; categoriesGetCmd; categoriesUpdateCmd;
   monthsListCmd; monthsGetCmd;
   payeesListCmd; payeesGetCmd; payeesUpdateCmd;
   transactionsListCmd; transactionsGetCmd; transactionsCreateCmd;
   transactionsDeleteCmd;
   scheduledListCmd; scheduledGetCmd; scheduledCreateCmd; scheduledDeleteCmd].

Definition apiCommands : list Command := (singleCommands ++ updateCommands)%list.

(** The sub-commands that only read. *)
Definition readCommands : list Command :=
  [userCmd; budgetsListCmd; budgetsGetCmd; budgetsSettingsCmd;
   accountsListCmd; accountsGetCmd; categoriesListCmd; categoriesGetCmd;
   monthsListCmd; monthsGetCmd; payeesListCmd; payeesGetCmd;
   transactionsListCmd; transactionsGetCmd; scheduledListCmd; scheduledGetCmd].

(** [within n P Q m]: whatever was sent before, [m] sends at most [n]
    requests, each of which satisfies [P], and when it fails its error
    satisfies [Q]. *)
Definition within {A : Type} (n : nat) (P : Request -> Prop) (Q : error -> Prop)
           (m : IO A) : Prop :=
  forall log, exists new,
    snd (m log) = (log ++ new)%list
    /\ (List.length new <= n)%nat
    /\ Forall P new
    /\ (forall e, fst (m log) = Err e -> Q e).

Lemma within_ret {A : Type} n P Q (a : A) : within n P Q (ret a).
Proof.
  intros log. exists []. rewrite app_nil_r. cbn.
  repeat split; [ lia | constructor | discriminate ].
Qed.

Lemma within_fail {A : Type} n P (Q : error -> Prop) e :
  Q e -> within n P Q (@fail A e).
Proof.
  intros H log. exists []. rewrite app_nil_r. cbn.
  repeat split; [ lia | constructor | intros e' [= <-]; exact H ].
Qed.

Lemma within_lift {A : Type} n P (Q : error -> Prop) (r : result A) :
  (forall e, r = Err e -> Q e) -> within n P Q (lift r).
Proof.
  intros H log. exists []. rewrite app_nil_r. cbn.
  repeat split; [ lia | constructor | exact H ].
Qed.

Lemma within_bind {A B : Type} n1 n2 P Q (m : IO A) (k : A -> IO B) :
  within n1 P Q m -> (forall a, within n2 P Q (k a)) ->
  within (n1 + n2) P Q (bind m k).
Proof.
  intros Hm Hk log. destruct (Hm log) as (new1 & E1 & L1 & F1 & Q1).
  unfold bind. destruct (m log) as [[a | e] log'] eqn:Em; cbn [fst snd] in *.
  - destruct (Hk a log') as (new2 & E2 & L2 & F2 & Q2).
    exists (new1 ++ new2)%list. subst log'. rewrite E2, app_assoc.
    repeat split.
    + rewrite length_app. lia.
    + apply Forall_app. split; assumption.
    + exact Q2.
  - exists new1. repeat split; [ exact E1 | lia | exact F1 | ].
    intros e' [= <-]. apply Q1. reflexivity.
Qed.

Lemma within_bind_0 {A B : Type} n P Q (m : IO A) (k : A -> IO B) :
  within 0 P Q m -> (forall a, within n P Q (k a)) -> within n P Q (bind m k).
Proof. apply (within_bind 0 n). Qed.

Lemma within_bind_S {A B : Type} n P Q (m : IO A) (k : A -> IO B) :
  within 1 P Q m -> (forall a, within n P Q (k a)) -> within (S n) P Q (bind m k).
Proof. apply (within_bind 1 n). Qed.

Lemma within_wrap {A : Type} n P (Q Q' : error -> Prop) msg (m : IO A) :
  within n P Q' m -> (forall e, Q (Errorf msg (Some e))) -> within n P Q (wrap msg m).
Proof.
  intros Hm HQ log. destruct (Hm log) as (new & E & L & F & _).
  exists new. unfold wrap. destruct (m log) as [[a | e] log'];
    cbn [fst snd] in *; repeat split; try assumption.
  - discriminate.
  - intros e' [= <-]. apply HQ.
Qed.

Lemma within_request {T : Type} (P : Request -> Prop) c method path payload
      (d : decoder T) (zero : T) :
  P (newRequest c method path payload) ->
  within 1 P (fun _ => True)
         (bind (doRequest c method path payload) (parseResponse d zero)).
Proof.
  intros HP log. unfold bind, doRequest. cbv zeta.
  assert (F : Forall P [newRequest c method path payload])
    by (repeat constructor; exact HP).
  destruct (httpClient c log (newRequest c method path payload))
    as [| | | status body].
  - exists []. rewrite app_nil_r.
    split; [ reflexivity | split; [ cbn; lia | split; [ constructor | trivial ] ] ].
  - eexists.
    split; [ reflexivity | split; [ cbn; lia | split; [ exact F | trivial ] ] ].
  - eexists.
    split; [ reflexivity | split; [ cbn; lia | split; [ exact F | trivial ] ] ].
  - destruct (400 <=? status).
    + exists [newRequest c method path payload].
      destruct (Unmarshal ErrorResponse None body) as [[e |] |];
        (split; [ reflexivity | split; [ cbn; lia | split; [ exact F | trivial ] ] ]).
    + unfold parseResponse. destruct (Unmarshal d zero body); eexists;
        (split; [ reflexivity | split; [ cbn; lia | split; [ exact F | trivial ] ] ]).
Qed.

(** An error that is a message (with or without a cause). *)
Definition isMessage (e : error) : Prop := exists msg cause, e = Errorf msg cause.

Lemma getBudgetID_message (g : Globals) (e : error) :
  getBudgetID g = Err e -> isMessage e.
Proof.
  unfold getBudgetID.
  destruct (negb (String.eqb (budgetID g) "")); [ discriminate | ].
  destruct (cfg g) as [c |];
    [ destruct (negb (String.eqb (Config.DefaultBudget c) "")); [ discriminate | ] | ];
    intros [= <-]; eexists; eexists; reflexivity.
Qed.

Ltac unfold_op :=
  unfold GetUser, GetBudgets, GetBudget, GetBudgetSettings,
    GetAccounts, GetAccount, CreateAccount, GetCategories, GetCategory,
    UpdateCategory, GetPayees, GetPayee, UpdatePayee, GetTransactions,
    GetTransactionsByAccount, GetTransactionsByCategory, GetTransactionsByPayee,
    GetTransaction, CreateTransaction, UpdateTransaction, DeleteTransaction,
    GetScheduledTransactions, GetScheduledTransaction, CreateScheduledTransaction,
    UpdateScheduledTransaction, DeleteScheduledTransaction, GetMonths, GetMonth;
  cbv zeta.

Ltac message := eexists; eexists; reflexivity.

(** One step of the walk through the body of a command. *)
Ltac step Hc leaf :=
  match goal with
  | |- within _ _ _ (bind (lift _) _) =>
      apply within_bind_0;
      [ apply within_lift; apply getBudgetID_message | intros ? ]
  | |- within _ _ _ (lift _) => apply within_lift; apply getBudgetID_message
  | |- within _ _ _ (bind (ret _) _) =>
      apply within_bind_0; [ apply within_ret | intros ? ]
  | |- within _ _ _ (bind (match ?x with _ => _ end) _) => destruct x
  | |- within _ _ _ (bind (wrap _ _) _) =>
      apply within_bind_S; [ | intros ? ]
  | |- within _ _ _ (wrap _ _) =>
      apply (within_wrap _ _ _ (fun _ => True)); [ | intros ?; message ]
  | |- within _ _ _ (call _ _) =>
      rewrite (call_some _ _ _ Hc); unfold_op; apply within_request; leaf
  | |- within _ _ _ (print _ _) => apply within_ret
  | |- within _ _ _ (fail _) => apply within_fail; message
  | |- within _ _ _ (if ?b then _ else _) => destruct b
  | |- within _ _ _ (let _ := _ in _) => cbv zeta
  end.

Ltac unfold_cmd :=
  cbn [RunE userCmd budgetsListCmd budgetsGetCmd budgetsSettingsCmd
         accountsListCmd accountsGetCmd accountsCreateCmd categoriesListCmd
         categoriesGetCmd categoriesUpdateCmd monthsListCmd monthsGetCmd
         payeesListCmd payeesGetCmd payeesUpdateCmd transactionsListCmd
         transactionsGetCmd transactionsCreateCmd transactionsUpdateCmd
         transactionsDeleteCmd scheduledListCmd scheduledGetCmd
         scheduledCreateCmd scheduledUpdateCmd scheduledDeleteCmd].

(** Requests built by doRequest for the client [c]. *)
Definition builtFor (c : Client) (req : Request) : Prop :=
  exists method path payload, req = newRequest c method path payload.

Lemma RunE_single (cmd : Command) (g : Globals) (c : Client) f now args :
  In cmd singleCommands ->
  apiClient g = Some c ->
  within 1 (builtFor c) isMessage (RunE cmd g f now args).
Proof.
  intros Hin Hc. cbn [singleCommands In] in Hin.
  repeat (destruct Hin as [<- | Hin];
          [ unfold_cmd; repeat step Hc ltac:(eexists; eexists; eexists; reflexivity) | ]).
  contradiction.
Qed.

Lemma RunE_update (cmd : Command) (g : Globals) (c : Client) f now args :
  In cmd updateCommands ->
  apiClient g = Some c ->
  within 2 (builtFor c) isMessage (RunE cmd g f now args).
Proof.
  intros Hin Hc. cbn [updateCommands In] in Hin.
  repeat (destruct Hin as [<- | Hin];
          [ unfold_cmd; repeat step Hc ltac:(eexists; eexists; eexists; reflexivity) | ]).
  contradiction.
Qed.

Lemma RunE_read (cmd : Command) (g : Globals) (c : Client) f now args :
  In cmd readCommands ->
  apiClient g = Some c ->
  within 1 (fun req => Method req = "GET" /\ Body req = None) isMessage
         (RunE cmd g f now args).
Proof.
  intros Hin Hc. cbn [readCommands In] in Hin.
  repeat (destruct Hin as [<- | Hin];
          [ unfold_cmd; repeat step Hc ltac:(split; reflexivity) | ]).
  contradiction.
Qed.

(** The error of a run without a configured token. *)
Definition noToken : error :=
  Errorf "YNAB API token not configured. Run 'ynabctl config set-token <token>' to set it" None.

(** The set-up step of a sub-command that talks to the API. *)
Definition setUp (http : Transport) (load : result Config.t) (format budget : string)
  : Globals * option error :=
  match load with
  | Err e => (mkGlobals format budget None None,
              Some (Errorf "failed to load config" (Some e)))
  | Ok c =>
      if String.eqb (Config.Token c) "" then
        (mkGlobals (resolvedFormat c format) (resolvedBudget c budget) None (Some c),
         Some noToken)
      else (ready http c format budget, None)
  end.

Lemma PersistentPreRunE_setUp http load cmd format budget :
  In cmd apiCommands ->
  PersistentPreRunE http load cmd (mkGlobals format budget None None)
  = setUp http load format budget.
Proof.
  intros Hin.
  assert (E : forall skip1 skip2 auth, skip1 = false -> skip2 = false -> auth = true ->
              (if skip1 then (mkGlobals format budget None None, @None error)
               else if skip2 then (mkGlobals format budget None None, None)
               else
                 match load with
                 | Err e =>
                     (mkGlobals format budget None None,
                      Some (Errorf "failed to load config" (Some e)))
                 | Ok c =>
                     let fmt := if String.eqb format "" then Config.Format c else format in
                     let fmt := if String.eqb fmt "" then "json" else fmt in
                     let bid := if String.eqb budget "" then Config.DefaultBudget c
                                else budget in
                     if auth then
                       if String.eqb (Config.Token c) "" then
                         (mkGlobals fmt bid None (Some c),
                          Some (Errorf "YNAB API token not configured. Run 'ynabctl config set-token <token>' to set it" None))
                       else (mkGlobals fmt bid (Some (New http (Config.Token c))) (Some c),
                             None)
                     else (mkGlobals fmt bid None (Some c), None)
                 end)
              = setUp http load format budget).
  { intros ? ? ? -> -> ->. unfold setUp, ready, resolvedFormat, resolvedBudget, noToken.
    destruct load as [c | e]; [ | reflexivity ]. cbv zeta.
    destruct (String.eqb (Config.Token c) "");
      (destruct (String.eqb format "") eqn:Ef;
       [ destruct (String.eqb (Config.Format c) ""); reflexivity
       | rewrite Ef; reflexivity ]). }
  cbn [apiCommands singleCommands updateCommands app In] in Hin.
  repeat (destruct Hin as [<- | Hin]; [ apply E; reflexivity | ]).
  contradiction.
Qed.

(** What a run of an API sub-command is, by the outcome of the set-up. *)
Lemma Execute_cases http load cmd format budget f now args log :
  In cmd apiCommands ->
  Execute http load cmd format budget f now args log
  = if negb (Args cmd args) then (Err (LibError "cobra"), log)
    else match load with
         | Err e => (Err (Errorf "failed to load config" (Some e)), log)
         | Ok c =>
             if String.eqb (Config.Token c) "" then (Err noToken, log)
             else RunE cmd (ready http c format budget) f now args log
         end.
Proof.
  intros Hin. unfold Execute. rewrite (PersistentPreRunE_setUp _ _ _ _ _ Hin).
  destruct (negb (Args cmd args)); [ reflexivity | ].
  unfold setUp. destruct load as [c | e]; [ | reflexivity ].
  destruct (String.eqb (Config.Token c) ""); reflexivity.
Qed.

Lemma In_apiCommands cmd :
  In cmd apiCommands -> In cmd singleCommands \/ In cmd updateCommands.
Proof. unfold apiCommands. apply in_app_or. Qed.

Lemma readCommands_api cmd : In cmd readCommands -> In cmd apiCommands.
Proof.
  intros Hin. cbn [readCommands In] in Hin.
  cbn [apiCommands singleCommands updateCommands app In].
  repeat (destruct Hin as [<- | Hin]; [ tauto | ]). contradiction.
Qed.

(** A request as the client of the configured token builds it. *)
Definition authorised (load : result Config.t) (req : Request) : Prop :=
  exists c path,
    load = Ok c
    /\ Config.Token c <> ""
    /\ URL req = "https://api.ynab.com/v1" ++ path
    /\ Header req = [("Authorization", "Bearer " ++ Config.Token c);
                     ("Content-Type", "application/json")].

(** X7.  Whatever the server answers, a run of any of the twenty-five
    sub-commands that talk to the API sends at most two requests, and at
    most one unless it is one of the two update commands that first
    fetch what they change; every request goes to a path under
    https://api.ynab.com/v1 and carries the bearer token of the loaded
    configuration, which is not empty, and the JSON content type. *)
Theorem commands_send_authorised_requests (http : Transport) (load : result Config.t)
        (cmd : Command) (format budget : string) (f : Flags) (now : GoTime.Time)
        (args : list string) (log : list Request) :
  In cmd apiCommands ->
  exists new,
    snd (Execute http load cmd format budget f now args log) = (log ++ new)%list
    /\ (List.length new <= 2)%nat
    /\ (In cmd singleCommands -> (List.length new <= 1)%nat)
    /\ Forall (authorised load) new.
Proof.
  intros Hin. rewrite (Execute_cases _ _ _ _ _ _ _ _ _ Hin).
  assert (Hnone : forall e : error,
            exists new : list Request,
              snd (Err (A := Output.Printed) e, log) = (log ++ new)%list
              /\ (List.length new <= 2)%nat
              /\ (In cmd singleCommands -> (List.length new <= 1)%nat)
              /\ Forall (authorised load) new).
  { intros e. exists []. rewrite app_nil_r. cbn.
    split; [ reflexivity | split; [ lia | split; [ intros _; lia | constructor ] ] ]. }
  destruct (negb (Args cmd args)); [ apply Hnone | ].
  destruct load as [c | e]; [ | apply Hnone ].
  destruct (String.eqb (Config.Token c) "") eqn:Et; [ apply Hnone | ].
  assert (Hauth : forall new, Forall (builtFor (New http (Config.Token c))) new ->
                              Forall (authorised (Ok c)) new).
  { intros new. apply Forall_impl. intros req (method & path & payload & ->).
    exists c, path. split; [ reflexivity | ]. split; [ | split; reflexivity ].
    intros E. rewrite E in Et. discriminate. }
  destruct (In_apiCommands _ Hin) as [Hs | Hu].
  - destruct (RunE_single cmd (ready http c format budget) _ f now args Hs eq_refl log)
      as (new & E & L & F & _).
    exists new. split; [ exact E | split; [ lia | split; [ intros _; exact L | ] ] ].
    apply Hauth, F.
  - destruct (RunE_update cmd (ready http c format budget) _ f now args Hu eq_refl log)
      as (new & E & L & F & _).
    exists new. split; [ exact E | split; [ exact L | split; [ | apply Hauth, F ] ] ].
    intros Hs. exfalso. cbn [updateCommands In] in Hu.
    cbn [singleCommands In] in Hs.
    destruct Hu as [<- | [<- | []]];
      repeat (destruct Hs as [Hs | Hs]; [ discriminate Hs | ]); contradiction.
Qed.

Lemma commands_send_authorised_requests_witness :
  exists new,
    snd (Execute (mock 200 oldTransactionBody) (Ok (Config.mk "secret" "b1" ""))
                 transactionsUpdateCmd "" "" amountOnly
                 (GoTime.mkTime 2026 10 31 9 30 0) ["t1"] []) = ([] ++ new)%list
    /\ (List.length new <= 2)%nat
    /\ (In transactionsUpdateCmd singleCommands -> (List.length new <= 1)%nat)
    /\ Forall (authorised (Ok (Config.mk "secret" "b1" ""))) new.
Proof.
  apply commands_send_authorised_requests.
  cbn [apiCommands singleCommands updateCommands app In]. tauto.
Defined.

(** X8.  The sixteen sub-commands that show something (user; budgets
    list, get and settings; list and get of accounts, categories,
    months, payees, transactions and scheduled transactions) never
    change anything on the server: whatever the flags, the arguments and
    the answers, a run sends at most one request, and it is a GET
    without a body. *)
Theorem read_commands_only_get (http : Transport) (load : result Config.t)
        (cmd : Command) (format budget : string) (f : Flags) (now : GoTime.Time)
        (args : list string) (log : list Request) :
  In cmd readCommands ->
  exists new,
    snd (Execute http load cmd format budget f now args log) = (log ++ new)%list
    /\ (List.length new <= 1)%nat
    /\ Forall (fun req => Method req = "GET" /\ Body req = None) new.
Proof.
  intros Hin. rewrite (Execute_cases _ _ _ _ _ _ _ _ _ (readCommands_api _ Hin)).
  assert (Hnone : forall e : error,
            exists new : list Request,
              snd (Err (A := Output.Printed) e, log) = (log ++ new)%list
              /\ (List.length new <= 1)%nat
              /\ Forall (fun req => Method req = "GET" /\ Body req = None) new).
  { intros e. exists []. rewrite app_nil_r. cbn.
    split; [ reflexivity | split; [ lia | constructor ] ]. }
  destruct (negb (Args cmd args)); [ apply Hnone | ].
  destruct load as [c | e]; [ | apply Hnone ].
  destruct (String.eqb (Config.Token c) ""); [ apply Hnone | ].
  destruct (RunE_read cmd (ready http c format budget) _ f now args Hin eq_refl log)
    as (new & E & L & F & _).
  exists new. split; [ exact E | split; [ exact L | exact F ] ].
Qed.

Lemma read_commands_only_get_witness :
  exists new,
    snd (Execute (mock 200 emptyDataBody) (Ok (Config.mk "secret" "b1" ""))
                 transactionsListCmd "" "" noFlags
                 (GoTime.mkTime 2026 10 31 9 30 0) [] []) = ([] ++ new)%list
    /\ (List.length new <= 1)%nat
    /\ Forall (fun req => Method req = "GET" /\ Body req = None) new.
Proof.
  apply read_commands_only_get. cbn [readCommands In]. tauto.
Defined.



(** Fetch, then write back to the same path: the requests that are sent,
    case by case of what the HTTP side answers. *)
Lemma fetch_then_write {A B C : Type} (c : Client) (path msg1 msg2 : string)
      (dA : decoder A) (zA : A) (dB : decoder B) (zB : B)
      (payload : A -> json) (k : B -> IO C) (log : list Request) :
  (forall b l, snd (k b l) = l) ->
  let get := newRequest c "GET" path None in
  snd (bind (wrap msg1 (bind (doRequest c "GET" path None) (parseResponse dA zA)))
            (fun a =>
               bind (wrap msg2 (bind (doRequest c "PUT" path (Some (payload a)))
                                     (parseResponse dB zB))) k) log)
  = match httpClient c log get with
    | CreateFailed => log
    | DoFailed | ReadFailed => (log ++ [get])%list
    | Response status body =>
        if 400 <=? status then (log ++ [get])%list
        else
          match Unmarshal dA zA body with
          | None => (log ++ [get])%list
          | Some a =>
              let put := newRequest c "PUT" path (Some (payload a)) in
              match httpClient c (log ++ [get])%list put with
              | CreateFailed => (log ++ [get])%list
              | _ => ((log ++ [get]) ++ [put])%list
              end
          end
    end.
Proof.
  intros Hk get. unfold bind, wrap, doRequest. cbv zeta. fold get.
  destruct (httpClient c log get) as [| | | status body]; try reflexivity.
  destruct (400 <=? status).
  - destruct (Unmarshal ErrorResponse None body) as [[e |] |]; reflexivity.
  - unfold parseResponse at 1.
    destruct (Unmarshal dA zA body) as [a |]; [ | reflexivity ].
    cbn [ret fst snd].
    destruct (httpClient c (log ++ [get])%list (newRequest c "PUT" path (Some (payload a))))
      as [| | | status' body']; try reflexivity.
    destruct (400 <=? status').
    + destruct (Unmarshal ErrorResponse None body') as [[e |] |]; reflexivity.
    + unfold parseResponse. destruct (Unmarshal dB zB body'); cbn; [ apply Hk | reflexivity ].
Qed.

Lemma app_new_nil {A : Type} (l new : list A) : l = (l ++ new)%list -> new = [].
Proof.
  intros H. apply (app_inv_head l). rewrite app_nil_r. symmetry. exact H.
Qed.

(** The requests of a run of one of the two update commands. *)
Lemma RunE_update_requests (cmd : Command) (g : Globals) (c : Client) f now args log :
  In cmd updateCommands ->
  apiClient g = Some c ->
  snd (RunE cmd g f now args log) = log
  \/ exists path,
       let get := newRequest c "GET" path None in
       snd (RunE cmd g f now args log) = (log ++ [get])%list
       \/ exists status body payload,
            httpClient c log get = Response status body
            /\ status < 400
            /\ snd (RunE cmd g f now args log)
               = (log ++ [get; newRequest c "PUT" path (Some payload)])%list.
Proof.
  intros Hin Hc. destruct g as [fmt bid cl cf]. cbn [apiClient] in Hc. subst cl.
  cbn [updateCommands In] in Hin.
  destruct Hin as [<- | [<- | []]]; unfold_cmd;
    (destruct (getBudgetID (mkGlobals fmt bid (Some c) cf)) as [b | e] eqn:Eb;
     [ rewrite (bind_lift_ok _ b _ _ eq_refl)
     | rewrite (bind_lift_err _ e _ _ eq_refl); left; reflexivity ]);
    unfold call; cbn [apiClient]; unfold_op;
    (erewrite fetch_then_write by (intros; reflexivity));
    (destruct (httpClient c log _) as [| | | status body] eqn:E1;
     [ left; reflexivity
     | right; eexists; left; reflexivity
     | right; eexists; left; reflexivity
     | ]);
    (destruct (400 <=? status) eqn:Es; [ right; eexists; left; reflexivity | ]);
    (destruct (Unmarshal _ _ body) as [a |]; [ | right; eexists; left; reflexivity ]);
    cbv zeta;
    (destruct (httpClient c (log ++ _)%list _);
     [ right; eexists; left; reflexivity | | | ]);
    right; eexists; right; exists status, body; eexists;
    (split; [ exact E1 | split; [ apply Z.leb_gt; exact Es
                                | rewrite <- app_assoc; reflexivity ] ]).
Qed.

(** X10.  The two update commands (transactions update, scheduled update)
    read before they write: a request of a run that is not a GET is a
    PUT, it is the second of exactly two requests, the first is a GET of
    the same URL without a body, and that GET was answered with a status
    below 400.  So nothing is written when the entry cannot be fetched. *)
Theorem update_reads_before_writing (http : Transport) (load : result Config.t)
        (cmd : Command) (format budget : string) (f : Flags) (now : GoTime.Time)
        (args : list string) (log new : list Request) (req : Request) :
  In cmd updateCommands ->
  snd (Execute http load cmd format budget f now args log) = (log ++ new)%list ->
  In req new ->
  Method req <> "GET" ->
  exists get status body,
    new = [get; req]
    /\ Method get = "GET" /\ Body get = None /\ URL get = URL req
    /\ Method req = "PUT"
    /\ http log get = Response status body /\ status < 400.
Proof.
  intros Hin Hnew Hreq Hm.
  assert (Hapi : In cmd apiCommands)
    by (unfold apiCommands; apply in_or_app; right; exact Hin).
  rewrite (Execute_cases _ _ _ _ _ _ _ _ _ Hapi) in Hnew.
  assert (Hnil : forall e : error,
            snd (Err (A := Output.Printed) e, log) = (log ++ new)%list -> False).
  { intros e H. cbn [snd] in H. apply app_new_nil in H. subst new. destruct Hreq. }
  destruct (negb (Args cmd args)); [ destruct (Hnil _ Hnew) | ].
  destruct load as [c | e]; [ | destruct (Hnil _ Hnew) ].
  destruct (String.eqb (Config.Token c) ""); [ destruct (Hnil _ Hnew) | ].
  destruct (RunE_update_requests cmd (ready http c format budget) _ f now args log
              Hin eq_refl) as [E | [path [E | (status & body & payload & E1 & Es & E)]]];
    rewrite E in Hnew.
  - apply app_new_nil in Hnew. subst new. destruct Hreq.
  - apply app_inv_head in Hnew. subst new. destruct Hreq as [<- | []].
    destruct Hm. reflexivity.
  - apply app_inv_head in Hnew. subst new.
    destruct Hreq as [<- | [<- | []]]; [ destruct Hm; reflexivity | ].
    eexists; exists status, body.
    repeat (split; [ reflexivity | ]). split; [ exact E1 | exact Es ].
Qed.

Lemma update_reads_before_writing_witness :
  exists get status body,
    [newRequest oldClient "GET" "/budgets/b1/transactions/t1" None;
     newRequest oldClient "PUT" "/budgets/b1/transactions/t1"
       (Some (UpdateTransactionRequest
                (SaveTransaction.mk "a1" "2024-05-01" (-2000) "" "" "" "old" "" true "" "")))]
    = [get; newRequest oldClient "PUT" "/budgets/b1/transactions/t1"
              (Some (UpdateTransactionRequest
                       (SaveTransaction.mk "a1" "2024-05-01" (-2000) "" "" "" "old" ""
                                           true "" "")))]
    /\ Method get = "GET" /\ Body get = None
    /\ URL get = "https://api.ynab.com/v1/budgets/b1/transactions/t1"
    /\ "PUT" = "PUT"
    /\ mock 200 oldTransactionBody [] get = Response status body /\ status < 400.
Proof.
  apply (update_reads_before_writing (mock 200 oldTransactionBody)
           (Ok (Config.mk "secret" "b1" "")) transactionsUpdateCmd "" "" amountOnly
           (GoTime.mkTime 2026 10 31 9 30 0) ["t1"] []).
  - left. reflexivity.
  - vm_compute. reflexivity.
  - right. left. reflexivity.
  - discriminate.
Defined.

(** The flags a command refuses to run without. *)
Definition requiredFlags : list (Command * (Flags -> string)) :=
  [(accountsCreateCmd, accountName); (accountsCreateCmd, accountType);
   (payeesUpdateCmd, payeeNewName);
   (transactionsCreateCmd, newTxnAccountID);
   (scheduledCreateCmd, schedAccountID); (scheduledCreateCmd, schedFrequency)].

(** X11.  A required flag is checked before anything is sent: when
    --name or --type of accounts create, --name of payees update,
    --account of transactions create, or --account or --frequency of
    scheduled create is empty, the body of the command fails with a
    message that has no cause and sends no request, whatever the other
    flags hold and even without a client. *)
Theorem required_flags_checked_first (cmd : Command) (flag : Flags -> string)
        (g : Globals) (f : Flags) (now : GoTime.Time) (args : list string)
        (log : list Request) :
  In (cmd, flag) requiredFlags ->
  flag f = "" ->
  exists msg, RunE cmd g f now args log = (Err (Errorf msg None), log).
Proof.
  intros Hin Hf. cbn [requiredFlags In] in Hin.
  repeat (destruct Hin as [[= <- <-] | Hin];
          [ unfold_cmd;
            (destruct (getBudgetID g) as [b | e] eqn:Eb;
             [ rewrite (bind_lift_ok _ b _ _ eq_refl)
             | rewrite (bind_lift_err _ e _ _ eq_refl);
               destruct (getBudgetID_message g e Eb) as (msg & cause & ->);
               unfold getBudgetID in Eb;
               repeat match type of Eb with
                      | context [if ?c then _ else _] => destruct c
                      | context [match ?c with _ => _ end] => destruct c
                      end;
               try discriminate Eb; injection Eb as <- <-; eexists; reflexivity ]);
            rewrite ?Hf; cbn [String.eqb];
            repeat match goal with
                   | |- context [if String.eqb ?x EmptyString then _ else _] =>
                       destruct (String.eqb x EmptyString)
                   end;
            eexists; reflexivity
          | ]).
  contradiction.
Qed.

Lemma required_flags_checked_first_witness :
  exists msg,
    RunE scheduledCreateCmd someGlobals noFlags (GoTime.mkTime 2026 10 31 9 30 0) [] []
    = (Err (Errorf msg None), []).
Proof.
  apply (required_flags_checked_first scheduledCreateCmd schedFrequency).
  - cbn [requiredFlags In]. tauto.
  - reflexivity.
Defined.

(** X12.  Without a usable token nothing is sent: when the
    configuration cannot be loaded, or holds no token, a run of any of
    the twenty-five API sub-commands fails with the error of the set-up
    step ("failed to load config" around the cause, or the "token not
    configured" message) and the log of requests is unchanged. *)
Theorem no_token_no_request (http : Transport) (load : result Config.t)
        (cmd : Command) (format budget : string) (f : Flags) (now : GoTime.Time)
        (args : list string) (log : list Request) :
  In cmd apiCommands ->
  Args cmd args = true ->
  (forall c, load = Ok c -> Config.Token c = "") ->
  Execute http load cmd format budget f now args log
  = (Err match load with
         | Err e => Errorf "failed to load config" (Some e)
         | Ok _ => noToken
         end, log).
Proof.
  intros Hin Ha Ht. rewrite (Execute_cases _ _ _ _ _ _ _ _ _ Hin), Ha. cbn [negb].
  destruct load as [c | e]; [ | reflexivity ].
  rewrite (Ht c eq_refl). reflexivity.
Qed.

Lemma no_token_no_request_witness :
  Execute (mock 200 emptyDataBody) (Ok (Config.mk "" "b1" "table"))
          transactionsDeleteCmd "" "" noFlags (GoTime.mkTime 2026 10 31 9 30 0) ["t1"] []
  = (Err noToken, []).
Proof.
  apply (no_token_no_request (mock 200 emptyDataBody) (Ok (Config.mk "" "b1" "table"))
           transactionsDeleteCmd "" "" noFlags (GoTime.mkTime 2026 10 31 9 30 0) ["t1"] []).
  - cbn [apiCommands singleCommands updateCommands app In]. tauto.
  - reflexivity.
  - intros c [= <-]. reflexivity.
Defined.

(** X13.  The set-up step creates a client only from a token that is not
    empty: for every command whatever (its name and its parent are
    arbitrary), when the globals hold no client before the step and hold
    one after it, the configuration was loaded, its token is not empty,
    the client is the one made from that token, and the step reported no
    error. *)
Theorem client_only_from_token (http : Transport) (load : result Config.t)
        (cmd : Command) (g : Globals) (c : Client) :
  apiClient g = None ->
  apiClient (fst (PersistentPreRunE http load cmd g)) = Some c ->
  exists conf,
    load = Ok conf
    /\ Config.Token conf <> ""
    /\ c = New http (Config.Token conf)
    /\ snd (PersistentPreRunE http load cmd g) = None.
Proof.
  intros Hnone. unfold PersistentPreRunE.
  destruct (_ || _); [ cbn [fst]; rewrite Hnone; discriminate | ].
  destruct (match Parent cmd with Some p => String.eqb p "config" | None => false end);
    [ cbn [fst]; rewrite Hnone; discriminate | ].
  destruct load as [conf | e]; [ | cbn [fst apiClient]; rewrite Hnone; discriminate ].
  cbv zeta. destruct (requiresAuth cmd);
    [ | cbn [fst apiClient]; rewrite Hnone; discriminate ].
  destruct (String.eqb_spec (Config.Token conf) "") as [E | E];
    [ cbn [fst apiClient]; rewrite Hnone; discriminate | ].
  cbn [fst snd apiClient]. intros [= <-].
  exists conf. repeat split. exact E.
Qed.

Lemma client_only_from_token_witness :
  exists conf,
    Ok (Config.mk "secret" "b1" "") = Ok conf
    /\ Config.Token conf <> ""
    /\ New (mock 200 emptyDataBody) "secret" = New (mock 200 emptyDataBody) (Config.Token conf)
    /\ snd (PersistentPreRunE (mock 200 emptyDataBody) (Ok (Config.mk "secret" "b1" ""))
                              userCmd (mkGlobals "" "" None None)) = None.
Proof.
  apply (client_only_from_token (mock 200 emptyDataBody) (Ok (Config.mk "secret" "b1" ""))
           userCmd (mkGlobals "" "" None None)); reflexivity.
Defined.

(** X14.  The two create commands fill in today's date: when
    --date is not given, transactions create and scheduled create (run
    with the flags they require, a budget and a client) send their POST
    for a payload whose date is the current day written YYYY-MM-DD; the
    other fields are the flags as they stand, the amount converted to
    milliunits (0 when --amount is not given), and no import id. *)
Theorem create_dates_default_to_today (g : Globals) (f : Flags) (now : GoTime.Time)
        (args : list string) (log : list Request) (c : Client) (b : string) :
  getBudgetID g = Ok b ->
  apiClient g = Some c ->
  0 <= GoTime.Year now <= 9999 ->
  1 <= GoTime.Month now <= 12 ->
  1 <= GoTime.Day now <= 31 ->
  let today := isoDate (GoTime.Year now) (GoTime.Month now) (GoTime.Day now) in
  (newTxnAccountID f <> "" -> newTxnDate f = "" ->
   RunE transactionsCreateCmd g f now args log
   = (transaction <- wrap "failed to create transaction"
                       (CreateTransaction c b
                          (SaveTransaction.mk (newTxnAccountID f) today
                             (AmountToMilliunits (newTxnAmount f)) (newTxnPayeeID f)
                             (newTxnPayeeName f) (newTxnCategoryID f) (newTxnMemo f)
                             (newTxnCleared f) (newTxnApproved f) (newTxnFlagColor f)
                             "")) ;;
      print g (Output.VTransaction transaction)) log)
  /\ (schedAccountID f <> "" -> schedFrequency f <> "" -> schedDate f = "" ->
      RunE scheduledCreateCmd g f now args log
      = (transaction <- wrap "failed to create scheduled transaction"
                          (CreateScheduledTransaction c b
                             (SaveScheduledTransaction.mk (schedAccountID f) today
                                (schedFrequency f) (AmountToMilliunits (schedAmount f))
                                (schedPayeeID f) (schedPayeeName f) (schedCategoryID f)
                                (schedMemo f) (schedFlagColor f))) ;;
         print g (Output.VScheduledTransaction transaction)) log).
Proof.
  intros Hb Hc Hy Hm Hd today.
  assert (Hf : GoTime.Format now "2006-01-02" = today) by (apply Format_iso; lia).
  split.
  - intros Ha Hdate. unfold_cmd. rewrite (bind_lift_ok _ b _ _ Hb).
    rewrite (eqb_false _ _ Ha). cbv zeta. rewrite Hdate. cbn [String.eqb].
    rewrite Hf, (call_some g c _ Hc). reflexivity.
  - intros Ha Hfr Hdate. unfold_cmd. rewrite (bind_lift_ok _ b _ _ Hb).
    rewrite (eqb_false _ _ Ha), (eqb_false _ _ Hfr). cbv zeta.
    rewrite Hdate. cbn [String.eqb].
    rewrite Hf, (call_some g c _ Hc). reflexivity.
Qed.

(** transactions create --account a1, on 31 October 2026. *)
Definition accountOnly : Flags :=
  mkFlags (fun flag => String.eqb flag "account") "" "" "" "" "" "a1" ""
          0%float "" "" "" "" "" false ""
          "current" 0%float "" "" "" "" 0%float "" "" "" "" "" "" "" 0%float.

Lemma create_dates_default_to_today_witness :
  map Body (snd (RunE transactionsCreateCmd someGlobals accountOnly
                      (GoTime.mkTime 2026 10 31 9 30 0) [] []))
  = [Some (JObj [("transaction",
                  JObj [("account_id", JStr "a1"); ("date", JStr "2026-10-31");
                        ("amount", JNum "0")])])].
Proof.
  pose proof (create_dates_default_to_today someGlobals accountOnly
                (GoTime.mkTime 2026 10 31 9 30 0) [] []
                (New (mock 200 emptyDataBody) "secret") "b1"
                eq_refl eq_refl ltac:(cbn; lia) ltac:(cbn; lia) ltac:(cbn; lia)) as [H _].
  rewrite H; [ vm_compute; reflexivity | discriminate | reflexivity ].
Defined.

(** [yields R m]: when [m] succeeds, its result satisfies [R]. *)
Definition yields {A : Type} (R : A -> Prop) (m : IO A) : Prop :=
  forall log a, fst (m log) = Ok a -> R a.

Lemma yields_bind {A B : Type} (R : B -> Prop) (m : IO A) (k : A -> IO B) :
  (forall a, yields R (k a)) -> yields R (bind m k).
Proof.
  intros Hk log b. unfold bind. destruct (m log) as [[a | e] log'].
  - apply Hk.
  - discriminate.
Qed.

Lemma yields_fail {A : Type} (R : A -> Prop) (e : error) : yields R (@fail A e).
Proof. intros log a. discriminate. Qed.

(** What a command prints: a value the table printer has a layout for,
    in the format of the globals. *)
Definition printed (g : Globals) (p : Output.Printed) : Prop :=
  exists v, hasLayout v = true
            /\ p = Output.Print (Output.New (getOutputFormat g)) v.

Lemma yields_print (g : Globals) (v : Output.Value) :
  hasLayout v = true -> yields (printed g) (print g v).
Proof. intros Hl log p [= <-]. exists v. split; [ exact Hl | reflexivity ]. Qed.

Ltac result_step :=
  match goal with
  | |- yields _ (bind _ _) => apply yields_bind; intros ?
  | |- yields _ (print _ _) => apply yields_print; reflexivity
  | |- yields _ (fail _) => apply yields_fail
  | |- yields _ (if ?b then _ else _) => destruct b
  | |- yields _ (let _ := _ in _) => cbv zeta
  end.

Lemma RunE_printed (cmd : Command) (g : Globals) f now args :
  In cmd apiCommands -> yields (printed g) (RunE cmd g f now args).
Proof.
  intros Hin. cbn [apiCommands singleCommands updateCommands app In] in Hin.
  repeat (destruct Hin as [<- | Hin]; [ unfold_cmd; repeat result_step | ]).
  contradiction.
Qed.

(** X23.  What a successful run prints: for each of the twenty-five API
    sub-commands, the output of a run that succeeds is one value, of a
    shape the table printer has a layout for, printed in the resolved
    format (the --format flag, else the configured format, else json).
    So in table mode a command always prints a table with its heading
    (the JSON fallback of the table printer is never reached from a
    command), and with any other format, known or not, it prints the
    JSON of the value. *)
Theorem commands_print_in_resolved_format (http : Transport) (load : result Config.t)
        (cmd : Command) (format budget : string) (f : Flags) (now : GoTime.Time)
        (args : list string) (log : list Request) (p : Output.Printed) :
  In cmd apiCommands ->
  fst (Execute http load cmd format budget f now args log) = Ok p ->
  exists c v,
    load = Ok c
    /\ hasLayout v = true
    /\ p = Output.Print (Output.New (resolvedFormat c format)) v
    /\ (resolvedFormat c format = "table" ->
        exists heading rows, p = Output.Table (heading :: rows))
    /\ (resolvedFormat c format <> "table" -> p = Output.JSON v).
Proof.
  intros Hin. rewrite (Execute_cases _ _ _ _ _ _ _ _ _ Hin).
  destruct (negb (Args cmd args)); [ discriminate | ].
  destruct load as [c | e]; [ | discriminate ].
  destruct (String.eqb (Config.Token c) ""); [ discriminate | ].
  intros Hp.
  destruct (RunE_printed cmd (ready http c format budget) f now args Hin log p Hp)
    as (v & Hl & ->).
  rewrite getOutputFormat_ready.
  exists c, v. split; [ reflexivity | ]. split; [ exact Hl | ].
  split; [ reflexivity | ]. split.
  - intros ->. apply Print_table_layout, Hl.
  - intros Hne. apply Print_json, Hne.
Qed.

Lemma commands_print_in_resolved_format_witness :
  exists c v,
    Ok (Config.mk "secret" "b1" "yaml") = Ok c
    /\ hasLayout v = true
    /\ Output.JSON (Output.VAccounts [])
       = Output.Print (Output.New (resolvedFormat c "")) v
    /\ (resolvedFormat c "" = "table" ->
        exists heading rows, Output.JSON (Output.VAccounts [])
                             = Output.Table (heading :: rows))
    /\ (resolvedFormat c "" <> "table" ->
        Output.JSON (Output.VAccounts []) = Output.JSON v).
Proof.
  apply (commands_print_in_resolved_format (mock 200 emptyDataBody)
           (Ok (Config.mk "secret" "b1" "yaml")) accountsListCmd "" "" noFlags
           (GoTime.mkTime 2026 10 31 9 30 0) [] []).
  - cbn [apiCommands singleCommands updateCommands app In]. tauto.
  - vm_compute. reflexivity.
Defined.

End CommandsMore.

(* ================================================================== *)
(** ** Further properties of the payloads *)
(* ================================================================== *)

Section Payloads.

Import Cmd.

(** *** Integers written by the client are read back *)

Lemma code_digit (x : Z) : code (Strconv.digit x) = Z.to_N (48 + x mod 10).
Proof.
  unfold code, Strconv.digit. apply N_ascii_embedding.
  pose proof (Z.mod_pos_bound x 10 ltac:(lia)). lia.
Qed.

Lemma isDigit_digit (x : Z) : isDigit (Strconv.digit x) = true.
Proof.
  unfold isDigit. rewrite code_digit.
  pose proof (Z.mod_pos_bound x 10 ltac:(lia)).
  apply andb_true_intro. split; apply N.leb_le; lia.
Qed.

Lemma digitsVal_digit (x : Z) (r : string) (u : Z) :
  digitsVal (String (Strconv.digit x) r) u = digitsVal r (10 * u + x mod 10).
Proof.
  cbn [digitsVal]. rewrite isDigit_digit, code_digit.
  pose proof (Z.mod_pos_bound x 10 ltac:(lia)).
  f_equal. f_equal. lia.
Qed.

(** Reading the digits that [Strconv.digits] put before [acc]. *)
Lemma digitsVal_digits (fuel : nat) :
  forall x acc k w,
    (1 <= fuel)%nat ->
    0 <= x < 10 ^ Z.of_nat fuel ->
    0 <= k ->
    (forall u, digitsVal acc u = Some (u * 10 ^ k + w)) ->
    exists k', 0 <= k'
               /\ forall u, digitsVal (Strconv.digits fuel x acc) u
                            = Some (u * 10 ^ k' + (x * 10 ^ k + w)).
Proof.
  induction fuel as [| f IH]; intros x acc k w Hf Hx Hk Hacc; [ lia | ].
  cbn [Strconv.digits]. cbv zeta.
  assert (Hstep : forall u, digitsVal (String (Strconv.digit x) acc) u
                            = Some (u * 10 ^ (k + 1) + (x mod 10 * 10 ^ k + w))).
  { intros u. rewrite digitsVal_digit, Hacc, Z.pow_add_r by lia. f_equal. ring. }
  destruct (Z.ltb_spec x 10) as [Hlt | Hge].
  - exists (k + 1). split; [ lia | ]. intros u. rewrite Hstep.
    rewrite Z.mod_small by lia. reflexivity.
  - assert (Hf' : (1 <= f)%nat).
    { destruct f; [ | lia ]. cbn in Hx. lia. }
    assert (Hx' : 0 <= x / 10 < 10 ^ Z.of_nat f).
    { split; [ apply Z.div_pos; lia | ].
      apply Z.div_lt_upper_bound; [ lia | ].
      replace (10 * 10 ^ Z.of_nat f) with (10 ^ Z.of_nat (S f)); [ lia | ].
      rewrite Nat2Z.inj_succ, Z.pow_succ_r by lia. reflexivity. }
    destruct (IH (x / 10) (String (Strconv.digit x) acc) (k + 1)
                 (x mod 10 * 10 ^ k + w) Hf' Hx' ltac:(lia) Hstep) as (k' & Hk' & H).
    exists k'. split; [ exact Hk' | ]. intros u. rewrite H. f_equal.
    rewrite Z.pow_add_r by lia.
    rewrite (Z.div_mod x 10) at 3 by lia. ring.
Qed.

(** The digits start with a digit, not with a sign. *)
Lemma digits_head (fuel : nat) :
  forall x acc,
    (1 <= fuel)%nat \/ (exists c r, acc = String c r /\ isDigit c = true) ->
    exists c r, Strconv.digits fuel x acc = String c r /\ isDigit c = true.
Proof.
  induction fuel as [| f IH]; intros x acc H.
  - destruct H as [H | H]; [ lia | exact H ].
  - cbn [Strconv.digits]. cbv zeta.
    destruct (x <? 10).
    + eexists; eexists. split; [ reflexivity | apply isDigit_digit ].
    + apply IH. right. eexists; eexists. split; [ reflexivity | apply isDigit_digit ].
Qed.

Lemma digitsVal_Itoa_abs (x : Z) :
  0 <= x < 10 ^ 20 -> digitsVal (Strconv.digits 20 x "") 0 = Some x.
Proof.
  intros Hx.
  destruct (digitsVal_digits 20 x "" 0 0 ltac:(lia) ltac:(exact Hx) ltac:(lia))
    as (k' & _ & H).
  - intros u. cbn [digitsVal]. f_equal. rewrite Z.pow_0_r. ring.
  - rewrite H. f_equal. rewrite Z.pow_0_r. ring.
Qed.

Lemma parseInt64_Itoa (z : Z) : inInt64 z = true -> parseInt64 (Strconv.Itoa z) = Some z.
Proof.
  intros Hin. pose proof Hin as Hr. unfold inInt64, minInt64, maxInt64 in Hr.
  apply andb_prop in Hr as [H1 H2]. apply Z.leb_le in H1, H2.
  assert (Hb : 0 <= Z.abs z < 10 ^ 20) by (split; [ apply Z.abs_nonneg | lia ]).
  unfold parseInt64, Strconv.Itoa.
  destruct (Z.ltb_spec z 0) as [Hneg | Hpos].
  - cbn [String.append]. rewrite (digitsVal_Itoa_abs _ Hb). cbn [obind].
    replace (- Z.abs z) with z by lia. rewrite Hin. reflexivity.
  - cbn [String.append].
    destruct (digits_head 20 (Z.abs z) "" ltac:(left; lia)) as (c & r & E & Hd).
    assert (Hv : digitsVal (String c r) 0 = Some z).
    { rewrite <- E, (digitsVal_Itoa_abs _ Hb). f_equal. lia. }
    rewrite E.
    assert (Hc : c <> "-"%char) by (intros ->; discriminate Hd).
    replace (match String c r with
             | String "-"%char r0 => v <-? digitsVal r0 0 ;; Some (- v)
             | _ => digitsVal (String c r) 0
             end) with (digitsVal (String c r) 0).
    + rewrite Hv. cbn [obind]. rewrite Hin. reflexivity.
    + destruct c as [[] [] [] [] [] [] [] []]; try reflexivity. contradiction.
Qed.


(** X15.  Every int64 the client writes into a request (amounts and
    balances in milliunits) is read back as the same number by the
    decoder of the responses: strconv-style printing followed by the
    int64 decoding of encoding/json is the identity, down to the
    smallest and up to the largest int64. *)
Theorem int64_written_is_read_back (z cur : Z) :
  inInt64 z = true -> decInt64 (jint z) cur = Some z.
Proof.
  intros H. unfold jint. cbn [decInt64].
  apply parseInt64_Itoa. exact H.
Qed.

Lemma int64_written_is_read_back_witness :
  decInt64 (jint (-2000)) 0 = Some (-2000)
  /\ decInt64 (jint minInt64) 0 = Some minInt64.
Proof.
  split; apply int64_written_is_read_back; vm_compute; reflexivity.
Defined.

(** *** A transaction written by the client is read back *)

Lemma field_nil {T : Type} (name : string) (d : decoder T) (cur : T) :
  field name d [] cur = Some cur.
Proof. reflexivity. Qed.
















(** *** A scheduled transaction written by the client, read back *)





(** *** What omitempty leaves out of an update *)

Definition members (j : json) : list (string * json) :=
  match j with
  | JObj ms => ms
  | _ => []
  end.

Lemma lacksKey_app_true (name : string) (ms1 ms2 : list (string * json)) :
  lacksKey name ms1 = true -> lacksKey name ms2 = true ->
  lacksKey name (ms1 ++ ms2)%list = true.
Proof.
  intros H1 H2. unfold lacksKey. rewrite forallb_app.
  apply andb_true_intro. split; assumption.
Qed.

Lemma lacksKey_omitempty_miss (name k v : string) :
  keyMatch name k = false -> lacksKey name (omitempty k v) = true.
Proof.
  intros H. unfold omitempty. destruct (String.eqb v ""); [ reflexivity | ].
  cbn [lacksKey forallb fst]. rewrite H. reflexivity.
Qed.

Lemma lacksKey_approved_miss (name : string) (b : bool) :
  keyMatch name "approved" = false ->
  lacksKey name (if b then [("approved", JBool true)] else []) = true.
Proof.
  intros H. destruct b; [ | reflexivity ].
  cbn [lacksKey forallb fst]. rewrite H. reflexivity.
Qed.

Ltac lacks :=
  lazymatch goal with
  | |- lacksKey _ (_ ++ _)%list = true => apply lacksKey_app_true; [ lacks | lacks ]
  | |- lacksKey _ (omitempty _ EmptyString) = true => reflexivity
  | |- lacksKey _ (omitempty _ _) = true => apply lacksKey_omitempty_miss; reflexivity
  | |- lacksKey _ (if false then _ else _) = true => reflexivity
  | |- lacksKey _ (if _ then _ else _) = true => apply lacksKey_approved_miss; reflexivity
  | |- lacksKey _ _ = true => reflexivity
  end.

(** An optional field that holds nothing is no member of the payload. *)
Lemma enc_lacks_empty (x : SaveTransaction.t) :
  let sent := members (SaveTransaction.enc x) in
  (SaveTransaction.Memo x = "" -> lacksKey "memo" sent = true)
  /\ (SaveTransaction.Cleared x = "" -> lacksKey "cleared" sent = true)
  /\ (SaveTransaction.FlagColor x = "" -> lacksKey "flag_color" sent = true)
  /\ (SaveTransaction.PayeeID x = "" -> lacksKey "payee_id" sent = true)
  /\ (SaveTransaction.CategoryID x = "" -> lacksKey "category_id" sent = true)
  /\ (SaveTransaction.Approved x = false -> lacksKey "approved" sent = true).
Proof.
  destruct x as [a d z p pn c m cl ap fl im].
  cbn [SaveTransaction.Memo SaveTransaction.Cleared SaveTransaction.FlagColor
       SaveTransaction.PayeeID SaveTransaction.CategoryID SaveTransaction.Approved].
  unfold SaveTransaction.enc.
  cbn [members SaveTransaction.AccountID SaveTransaction.Date SaveTransaction.Amount
       SaveTransaction.PayeeID SaveTransaction.PayeeName SaveTransaction.CategoryID
       SaveTransaction.Memo SaveTransaction.Cleared SaveTransaction.Approved
       SaveTransaction.FlagColor SaveTransaction.ImportID].
  repeat split; intros ->; lacks.
Qed.

(** X17.  The update command can set a field but not empty it: when the
    command line sets --memo, --cleared, --flag, --payee-id or
    --category to the empty string, or --approved to false, the PUT body
    has no member of that name at all (omitempty), whatever the fetched
    transaction holds, so the request does not ask the server to clear
    the field. *)
Theorem empty_override_is_not_sent (f : Flags) (existing : Transaction.t) :
  let sent := members (SaveTransaction.enc (updatePayload f existing)) in
  (Changed f "memo" = true -> newTxnMemo f = "" -> lacksKey "memo" sent = true)
  /\ (Changed f "cleared" = true -> newTxnCleared f = "" ->
      lacksKey "cleared" sent = true)
  /\ (Changed f "flag" = true -> newTxnFlagColor f = "" ->
      lacksKey "flag_color" sent = true)
  /\ (Changed f "payee-id" = true -> newTxnPayeeID f = "" ->
      lacksKey "payee_id" sent = true)
  /\ (Changed f "category" = true -> newTxnCategoryID f = "" ->
      lacksKey "category_id" sent = true)
  /\ (Changed f "approved" = true -> newTxnApproved f = false ->
      lacksKey "approved" sent = true).
Proof.
  intros sent. subst sent. rewrite updatePayload_overlay.
  destruct (enc_lacks_empty (overlay f existing)) as (H1 & H2 & H3 & H4 & H5 & H6).
  repeat split; intros Hc He;
    [ apply H1 | apply H2 | apply H3 | apply H4 | apply H5 | apply H6 ];
    unfold overlay;
    cbn [SaveTransaction.Memo SaveTransaction.Cleared SaveTransaction.FlagColor
         SaveTransaction.PayeeID SaveTransaction.CategoryID SaveTransaction.Approved];
    rewrite Hc; exact He.
Qed.

(** *** The since-date in the query *)

Fixpoint allUnreserved (s : string) : bool :=
  match s with
  | EmptyString => true
  | String c r => unreserved c && allUnreserved r
  end.

Lemma QueryEscape_unreserved (s : string) : allUnreserved s = true -> QueryEscape s = s.
Proof.
  induction s as [| c r IH]; intros H; [ reflexivity | ].
  cbn [allUnreserved] in H. apply andb_prop in H as [Hc Hr].
  cbn [QueryEscape]. rewrite Hc, (IH Hr). reflexivity.
Qed.

(** X18.  A since-date made of letters, digits, '-', '_', '.' and '~'
    only (as every ISO date is) goes into the query of the unscoped list
    as it is written: without a type, GetTransactions asks
    /budgets/<b>/transactions followed by ?since_date=<since> (nothing
    when the date is empty), the suffix the lists scoped to an account,
    a category or a payee append; and the ids a filter may hold play no
    part in the request. *)
Theorem unscoped_list_since_date (c : Client) (b since account category payee : string) :
  allUnreserved since = true ->
  GetTransactions c b (Some (mkTransactionFilter since "" account category payee))
  = bind (doRequest c "GET" ("/budgets/" ++ b ++ "/transactions" ++ sinceSuffix since) None)
         (parseResponse TransactionsResponse []).
Proof.
  intros H. unfold GetTransactions, sinceSuffix. cbv zeta.
  cbn [SinceDate Type_ String.eqb].
  destruct (String.eqb since ""); cbn [app].
  - rewrite append_nil_r. reflexivity.
  - unfold Encode. cbn [map String.concat fst snd].
    rewrite (QueryEscape_unreserved _ H), !append_assoc. reflexivity.
Qed.

Lemma unscoped_list_since_date_witness :
  GetTransactions oldClient "b1" (Some (mkTransactionFilter "2024-05-01" "" "a1" "" ""))
  = bind (doRequest oldClient "GET" "/budgets/b1/transactions?since_date=2024-05-01" None)
         (parseResponse TransactionsResponse []).
Proof.
  apply (unscoped_list_since_date oldClient "b1" "2024-05-01" "a1" "" "").
  vm_compute. reflexivity.
Defined.

End Payloads.

(* ================================================================== *)
(** ** cmd: the config sub-commands *)
(* ================================================================== *)

Module ConfigCmd.

Import Cmd.

(** &Config{} *)
Definition emptyConfig : Config.t := Config.mk "" "" "".

(** What a config command does: the lines it prints or its error, and
    the configurations it hands to config.Save, in order. *)
Definition Run : Type := (result (list string) * list Config.t)%type.

Section Store.

(** The outcome of config.Load (file and environment) and of
    config.Save (directory and file) are inputs of the model. *)
Variable load : result Config.t.
Variable save : Config.t -> option error.

(** cfg, err := Load(); if err != nil { cfg = &Config{} } *)
Definition loadOrEmpty : Config.t :=
  match load with
  | Ok c => c
  | Err _ => emptyConfig
  end.

Definition SetToken (token : string) : option error * list Config.t :=
  let cfg := loadOrEmpty in
  let cfg := Config.mk token (Config.DefaultBudget cfg) (Config.Format cfg) in
  (save cfg, [cfg]).

Definition SetDefaultBudget (budgetID : string) : option error * list Config.t :=
  let cfg := loadOrEmpty in
  let cfg := Config.mk (Config.Token cfg) budgetID (Config.Format cfg) in
  (save cfg, [cfg]).

Definition SetFormat (format : string) : option error * list Config.t :=
  let cfg := loadOrEmpty in
  let cfg := Config.mk (Config.Token cfg) (Config.DefaultBudget cfg) format in
  (save cfg, [cfg]).

Definition valueOrNotSet (s : string) : string :=
  if String.eqb s "" then "(not set)" else s.

(** Mask the token for security *)
Definition maskToken (token : string) : string :=
  if negb (String.eqb token "") then
    if (8 <? String.length token)%nat then
      substring 0 4 token ++ "..." ++ substring (String.length token - 4) 4 token
    else "****"
  else "(not set)".

Definition configShowCmd (configFile : string) (args : list string) : Run :=
  match load with
  | Err e => (Err (Errorf "failed to load config" (Some e)), [])
  | Ok cfg =>
      (Ok ["Config file: " ++ configFile; "";
           "Token:          " ++ maskToken (Config.Token cfg);
           "Default Budget: " ++ valueOrNotSet (Config.DefaultBudget cfg);
           "Format:         " ++ valueOrNotSet (Config.Format cfg)],
       [])
  end.

Definition configSetTokenCmd (args : list string) : Run :=
  if negb (ExactArgs 1 args) then (Err (LibError "cobra"), [])
  else
    let token := arg0 args in
    match SetToken token with
    | (Some err, saved) => (Err (Errorf "failed to save token" (Some err)), saved)
    | (None, saved) => (Ok ["Token saved successfully."], saved)
    end.

Definition configSetDefaultBudgetCmd (args : list string) : Run :=
  if negb (ExactArgs 1 args) then (Err (LibError "cobra"), [])
  else
    let budgetID := arg0 args in
    match SetDefaultBudget budgetID with
    | (Some err, saved) =>
        (Err (Errorf "failed to save default budget" (Some err)), saved)
    | (None, saved) => (Ok ["Default budget set to: " ++ budgetID], saved)
    end.

Definition configSetFormatCmd (args : list string) : Run :=
  if negb (ExactArgs 1 args) then (Err (LibError "cobra"), [])
  else
    let format := arg0 args in
    if negb (String.eqb format "json") && negb (String.eqb format "table") then
      (Err (Errorf ("invalid format: " ++ format ++ " (must be 'json' or 'table')") None),
       [])
    else
      match SetFormat format with
      | (Some err, saved) => (Err (Errorf "failed to save format" (Some err)), saved)
      | (None, saved) => (Ok ["Default format set to: " ++ format], saved)
      end.

End Store.

End ConfigCmd.

Section ConfigProperties.

Import Cmd ConfigCmd.

Lemma length_substring (n m : nat) (s : string) :
  (n + m <= String.length s)%nat -> String.length (substring n m s) = m.
Proof.
  revert s. induction n as [| n IH]; intros s H.
  - apply length_substring_0. lia.
  - destruct s as [| a s]; [ cbn in H; lia | ].
    cbn [substring]. apply IH. cbn in H. lia.
Qed.

(** X19.  config show never prints a token of more than eleven bytes in
    full: the text shown for the token has at most eleven bytes, being
    "(not set)", "****" or four bytes, three dots and four bytes; and it
    is "(not set)" exactly when no token is configured, whatever the
    token is. *)
Theorem token_is_masked (token : string) :
  (String.length (maskToken token) <= 11)%nat
  /\ (maskToken token = "(not set)" <-> token = "").
Proof.
  unfold maskToken. destruct (String.eqb_spec token "") as [-> | Hne]; cbn [negb].
  - split; [ cbn; lia | tauto ].
  - destruct (Nat.ltb_spec 8 (String.length token)) as [Hlong | Hshort].
    + assert (L : String.length
                    (substring 0 4 token ++ "..."
                     ++ substring (String.length token - 4) 4 token) = 11%nat).
      { rewrite !length_append, length_substring_0, length_substring by lia.
        reflexivity. }
      split; [ rewrite L; lia | ].
      split; [ | contradiction ].
      intros E. rewrite E in L. discriminate L.
    + split; [ cbn; lia | ].
      split; [ discriminate | contradiction ].
Qed.

(** X20.  config set-format saves nothing but "json" or "table": with
    any other argument it fails with the "invalid format" message and
    config.Save is not called; with one of the two, config.Save is
    called once, with the loaded configuration in which only the format
    is replaced (token and default budget kept), or, when the
    configuration cannot be loaded, with a configuration that holds the
    format alone. *)
Theorem set_format_saves_only_valid (load : result Config.t)
        (save : Config.t -> option error) (format : string) :
  let run := configSetFormatCmd load save [format] in
  (format <> "json" -> format <> "table" ->
   run = (Err (Errorf ("invalid format: " ++ format ++ " (must be 'json' or 'table')")
                      None), []))
  /\ (format = "json" \/ format = "table" ->
      snd run = [Config.mk (Config.Token (loadOrEmpty load))
                           (Config.DefaultBudget (loadOrEmpty load)) format]
      /\ (forall c, In c (snd run) -> Config.Format c = "json" \/ Config.Format c = "table")
      /\ (load = Ok (loadOrEmpty load) \/ loadOrEmpty load = emptyConfig)).
Proof.
  intros run. subst run. unfold configSetFormatCmd.
  cbn [ExactArgs List.length Nat.eqb negb arg0 hd]. cbv zeta.
  split.
  - intros H1 H2. rewrite (eqb_false _ _ H1), (eqb_false _ _ H2). reflexivity.
  - intros H.
    assert (E : negb (String.eqb format "json") && negb (String.eqb format "table")
                = false) by (destruct H as [-> | ->]; reflexivity).
    rewrite E. unfold SetFormat. cbv zeta.
    destruct (save _); cbn [snd];
      (split; [ reflexivity | split ];
       [ intros c [<- | []]; cbn [Config.Format]; exact H
       | unfold loadOrEmpty; destruct load; [ left | right ]; reflexivity ]).
Qed.

(** X21.  Setting the token and then running a command: when config
    set-token succeeds and the next run loads the configuration that was
    saved, the set-up step of every API sub-command makes a client for
    exactly that token, unless the token given was empty, in which case
    every such command fails with the "token not configured" message;
    and the default budget and format configured before are still in
    force. *)
Theorem set_token_then_run (http : Transport) (load : result Config.t)
        (save : Config.t -> option error) (token : string) (saved : Config.t)
        (cmd : Command) (format budget : string) :
  In cmd apiCommands ->
  configSetTokenCmd load save [token] = (Ok ["Token saved successfully."], [saved]) ->
  PersistentPreRunE http (Ok saved) cmd (mkGlobals format budget None None)
  = if String.eqb token "" then
      (mkGlobals (resolvedFormat (loadOrEmpty load) format)
                 (resolvedBudget (loadOrEmpty load) budget) None (Some saved),
       Some noToken)
    else
      (mkGlobals (resolvedFormat (loadOrEmpty load) format)
                 (resolvedBudget (loadOrEmpty load) budget)
                 (Some (New http token)) (Some saved), None).
Proof.
  intros Hin Hrun. rewrite (PersistentPreRunE_setUp _ _ _ _ _ Hin).
  unfold configSetTokenCmd, SetToken in Hrun.
  cbn [ExactArgs List.length Nat.eqb negb arg0 hd] in Hrun. cbv zeta in Hrun.
  destruct (save _); [ discriminate Hrun | ].
  injection Hrun as <-.
  unfold setUp, ready, resolvedFormat, resolvedBudget.
  cbn [Config.Token Config.DefaultBudget Config.Format].
  destruct (String.eqb token ""); reflexivity.
Qed.

Lemma set_token_then_run_witness :
  PersistentPreRunE (mock 200 emptyDataBody) (Ok (Config.mk "secret" "b1" "table"))
                    accountsListCmd (mkGlobals "" "" None None)
  = (mkGlobals "table" "b1" (Some (New (mock 200 emptyDataBody) "secret"))
               (Some (Config.mk "secret" "b1" "table")), None).
Proof.
  apply (set_token_then_run (mock 200 emptyDataBody) (Ok (Config.mk "" "b1" "table"))
           (fun _ => None) "secret" (Config.mk "secret" "b1" "table")
           accountsListCmd "" "").
  - cbn [apiCommands singleCommands updateCommands app In]. tauto.
  - reflexivity.
Defined.

End ConfigProperties.

(* ================================================================== *)
(** ** Further properties of the currency conversion *)
(* ================================================================== *)

Section ConversionMore.









End ConversionMore.
